(** * Bookmark extraction pipeline of the dashboard ([scripts/extract_bookmarks.py])

    A shallow embedding of the bookmark extractor: the two timestamp
    converters, the favicon fetcher, the Chromium and Firefox parsers and the
    merge/dedup driver, followed by the properties the specification states
    about them.

    Python values are embedded as [pyval]; code that can raise returns an
    [outcome]; code that touches the disk runs in the monad [M], a state monad
    over the [world] whose state survives a raised exception, as it does in
    Python. *)

From Stdlib Require Import ZArith String Ascii List Lia Bool.
From Stdlib.Strings Require Import Byte.
From stdpp Require Import base option list strings gmap.
Import ListNotations.

Local Open Scope string_scope.
Local Open Scope list_scope.
Local Open Scope Z_scope.

(** ** Python values and exceptions *)

(** The values that [json.load] produces and [json.dump] accepts (floats are
    left out: no code path of the extractor computes with one, and the
    Firefox division is delegated to [fromtimestamp] below).  A [PDict] keeps
    its items in insertion order, as Python dicts do. *)
#[warnings="-register-all"]
Inductive pyval : Type :=
  | PNone
  | PBool (b : bool)
  | PInt (z : Z)
  | PStr (s : string)
  | PList (l : list pyval)
  | PDict (d : list (string * pyval)).

(** The exception classes the extractor can meet. *)
Inductive exn : Type :=
  | JSONDecodeError
  | SqliteError
  | OSError
  | KeyError
  | TypeError
  | AttributeError
  | ValueError
  | OverflowError.

Inductive outcome (A : Type) : Type :=
  | Ok (a : A)
  | Raise (e : exn).
Arguments Ok {A} a.
Arguments Raise {A} e.

#[global] Instance exn_eq_dec : EqDecision exn.
Proof. solve_decision. Defined.

#[global] Instance outcome_eq_dec {A} `{EqDecision A} : EqDecision (outcome A).
Proof. solve_decision. Defined.

#[global] Instance outcome_ret : MRet outcome := fun A a => Ok a.
#[global] Instance outcome_bind : MBind outcome := fun A B f m =>
  match m with
  | Ok a => f a
  | Raise e => Raise e
  end.

(** Python truthiness ([if x], [not x]). *)
Definition truthy (v : pyval) : bool :=
  match v with
  | PNone => false
  | PBool b => b
  | PInt z => negb (z =? 0)
  | PStr s => negb (String.eqb s "")
  | PList l => match l with [] => false | _ => true end
  | PDict d => match d with [] => false | _ => true end
  end.

(** [d.get(k)]: the first binding of [k], [None] when there is none. *)
Fixpoint dict_get (k : string) (d : list (string * pyval)) : option pyval :=
  match d with
  | [] => None
  | (k', v) :: d' => if String.eqb k k' then Some v else dict_get k d'
  end.

(** ** Strings *)

(** [s.startswith(p)]. *)
Definition startswith (p s : string) : bool := String.prefix p s.

(** [s.split('/')]: never empty; [''.split('/') = ['']]. *)
Fixpoint split_slash (s : string) : list string :=
  match s with
  | EmptyString => [EmptyString]
  | String c s' =>
      if Ascii.eqb c "/" then EmptyString :: split_slash s'
      else match split_slash s' with
           | [] => [String c EmptyString]
           | seg :: rest => String c seg :: rest
           end
  end.

Definition nonempty (s : string) : bool := negb (String.eqb s "").

(** [list(filter(None, category.split('/')))]. *)
Definition path_tags (category : string) : list string :=
  filter (fun s => nonempty s = true) (split_slash category).

(** ['/'.join(l)]. *)
Definition join_slash (l : list string) : string := String.concat "/" l.

(** ** Timestamps *)

(** [int(x)] on a string, base 10: surrounding ASCII whitespace, an optional
    sign, then decimal digits in which single underscores may separate
    digits.  (Python also accepts non-ASCII decimal digits and spaces; those
    strings are outside this model.) *)
Definition is_space (c : ascii) : bool :=
  let n := N_of_ascii c in
  ((9 <=? n) && (n <=? 13) || (28 <=? n) && (n <=? 32))%N.

Definition is_digit (c : ascii) : bool :=
  let n := N_of_ascii c in ((48 <=? n) && (n <=? 57))%N.

Definition digit_val (c : ascii) : Z := Z.of_N (N_of_ascii c) - 48.

Fixpoint lstrip (l : list ascii) : list ascii :=
  match l with
  | c :: l' => if is_space c then lstrip l' else l
  | [] => []
  end.

Definition strip (l : list ascii) : list ascii := rev (lstrip (rev (lstrip l))).

Fixpoint parse_digits (acc : Z) (after_digit : bool) (l : list ascii) : option Z :=
  match l with
  | [] => if after_digit then Some acc else None
  | c :: l' =>
      if is_digit c then parse_digits (10 * acc + digit_val c) true l'
      else if Ascii.eqb c "_" then
        (if after_digit then parse_digits acc false l' else None)
      else None
  end.

Definition int_of_str (s : string) : outcome Z :=
  let parsed :=
    match strip (list_ascii_of_string s) with
    | c :: l' =>
        if Ascii.eqb c "-" then Z.opp <$> parse_digits 0 false l'
        else if Ascii.eqb c "+" then parse_digits 0 false l'
        else parse_digits 0 false (c :: l')
    | [] => None
    end in
  match parsed with
  | Some z => Ok z
  | None => Raise ValueError
  end.

(** [int(x)]. *)
Definition py_int (v : pyval) : outcome Z :=
  match v with
  | PNone => Raise TypeError
  | PBool b => Ok (if b then 1 else 0)
  | PInt z => Ok z
  | PStr s => int_of_str s
  | PList _ => Raise TypeError
  | PDict _ => Raise TypeError
  end.

(** A [datetime.datetime]; the library keeps every field in range
    ([valid_datetime]). *)
Record datetime : Type := mk_datetime {
  year : Z; month : Z; day : Z;
  hour : Z; minute : Z; second : Z; microsecond : Z
}.

Definition valid_datetime (d : datetime) : Prop :=
  1 <= year d <= 9999 /\ 1 <= month d <= 12 /\ 1 <= day d <= 31 /\
  0 <= hour d <= 23 /\ 0 <= minute d <= 59 /\ 0 <= second d <= 59 /\
  0 <= microsecond d <= 999999.

Definition days_before_month (m : Z) : Z :=
  nth (Z.to_nat m) [-1; 0; 31; 59; 90; 120; 151; 181; 212; 243; 273; 304; 334] 0.

Definition days_in_month (m : Z) : Z :=
  nth (Z.to_nat m) [-1; 31; 28; 31; 30; 31; 30; 31; 31; 30; 31; 30; 31] 0.

(** The library's [_ord2ymd]: proleptic Gregorian ordinal (1 is 0001-01-01)
    to year, month, day. *)
Definition ord2ymd (ordinal : Z) : Z * Z * Z :=
  let n := ordinal - 1 in
  let n400 := n / 146097 in
  let n := n mod 146097 in
  let n100 := n / 36524 in
  let n := n mod 36524 in
  let n4 := n / 1461 in
  let n := n mod 1461 in
  let n1 := n / 365 in
  let n := n mod 365 in
  let y := n400 * 400 + 1 + n100 * 100 + n4 * 4 + n1 in
  if (n1 =? 4) || (n100 =? 4) then (y - 1, 12, 31)
  else
    let leapyear := (n1 =? 3) && (negb (n4 =? 24) || (n100 =? 3)) in
    let m := Z.shiftr (n + 50) 5 in
    let preceding :=
      days_before_month m + (if (2 <? m) && leapyear then 1 else 0) in
    if n <? preceding then
      let m' := m - 1 in
      let preceding' :=
        preceding - (days_in_month m' + (if (m' =? 2) && leapyear then 1 else 0)) in
      (y, m', n - preceding' + 1)
    else (y, m, n - preceding + 1).

Definition US_PER_DAY : Z := 86400000000.
Definition MAXORDINAL : Z := 3652059.
(** [datetime(1601, 1, 1).toordinal()]. *)
Definition ORD_1601 : Z := 584389.

(** [datetime(1601, 1, 1) + timedelta(microseconds=n)]: [OverflowError] when
    the sum leaves years 1..9999. *)
Definition chrome_datetime (n : Z) : outcome datetime :=
  let days := ORD_1601 + n / US_PER_DAY in
  let rem := n mod US_PER_DAY in
  if (0 <? days) && (days <=? MAXORDINAL) then
    let '(y, m, d) := ord2ymd days in
    Ok (mk_datetime y m d
          (rem / 3600000000) ((rem / 60000000) mod 60) ((rem / 1000000) mod 60)
          (rem mod 1000000))
  else Raise OverflowError.

Definition digit_char (n : Z) : ascii :=
  nth (Z.to_nat (n mod 10))
      ["0"; "1"; "2"; "3"; "4"; "5"; "6"; "7"; "8"; "9"]%char "0"%char.

(** ["%0kd" % n] for [0 <= n < 10^k]. *)
Fixpoint zpad (k : nat) (n : Z) : string :=
  match k with
  | O => ""
  | S k' => zpad k' (n / 10) +:+ String (digit_char n) ""
  end.

(** [datetime.isoformat()] (naive datetime, separator [T]); the fraction is
    printed only when it is not zero. *)
Definition isoformat (d : datetime) : string :=
  zpad 4 (year d) +:+ "-" +:+ zpad 2 (month d) +:+ "-" +:+ zpad 2 (day d) +:+ "T" +:+
  zpad 2 (hour d) +:+ ":" +:+ zpad 2 (minute d) +:+ ":" +:+ zpad 2 (second d) +:+
  (if microsecond d =? 0 then "" else "." +:+ zpad 6 (microsecond d)).

(** The shape of an ISO-8601 instant: every digit replaced by [d]. *)
Definition shape (s : string) : string :=
  string_of_list_ascii
    (map (fun c => if is_digit c then "d"%char else c) (list_ascii_of_string s)).

Definition is_iso8601 (s : string) : bool :=
  String.eqb (shape s) "dddd-dd-ddTdd:dd:ddZ" ||
  String.eqb (shape s) "dddd-dd-ddTdd:dd:dd.ddddddZ".

(** [convert_chrome_time]: microseconds since 1601-01-01. *)
Definition convert_chrome_time (chrome_time : pyval) : outcome pyval :=
  if negb (truthy chrome_time) then Ok PNone
  else
    n ← py_int chrome_time;
    if n =? 0 then Ok PNone
    else
      dt ← chrome_datetime n;
      Ok (PStr (isoformat dt +:+ "Z")).


(** ** Base64 *)

Definition b64_alphabet : list ascii :=
  list_ascii_of_string
    "ABCDEFGHIJKLMNOPQRSTUVWXYZabcdefghijklmnopqrstuvwxyz0123456789+/".

Definition b64_char (n : N) : ascii :=
  nth (N.to_nat (N.land n 63)) b64_alphabet "="%char.

(** [base64.b64encode(data).decode('utf-8')]. *)
Fixpoint b64encode (data : list byte) : string :=
  match data with
  | [] => ""
  | [a] =>
      let n := N.shiftl (Byte.to_N a) 16 in
      String (b64_char (N.shiftr n 18)) (String (b64_char (N.shiftr n 12)) "==")
  | [a; b] =>
      let n := N.lor (N.shiftl (Byte.to_N a) 16) (N.shiftl (Byte.to_N b) 8) in
      String (b64_char (N.shiftr n 18)) (String (b64_char (N.shiftr n 12))
        (String (b64_char (N.shiftr n 6)) "="))
  | a :: b :: c :: rest =>
      let n := N.lor (N.lor (N.shiftl (Byte.to_N a) 16) (N.shiftl (Byte.to_N b) 8))
                     (Byte.to_N c) in
      String (b64_char (N.shiftr n 18)) (String (b64_char (N.shiftr n 12))
        (String (b64_char (N.shiftr n 6)) (String (b64_char n) (b64encode rest))))
  end.

Definition png_data_uri (data : list byte) : string :=
  "data:image/png;base64," +:+ b64encode data.

(** ** Browser data *)

(** A node of a Chromium bookmark tree: a JSON object read through
    [node.get].  A field is [None] when the key is absent; present fields
    carry the types of Chromium's schema (strings, and a list of nodes for
    [children]); [date_added] is kept as the raw JSON value. *)
#[warnings="-register-all"]
Inductive node : Type :=
  Node (type : option string) (name : option string) (url : option string)
       (date_added : pyval) (children : option (list node)).

(** A row of the Firefox query: title, url, folder path, creation time,
    last visit time, favicon blob.  [None] is SQL [NULL]; an absent favicon is
    the empty blob (both are falsy in the code). *)
Record ff_row : Type := mk_row {
  row_name : option string;
  row_url : option string;
  row_category : option string;
  row_date_added : pyval;
  row_last_visited : pyval;
  row_favicon_data : list byte
}.

(** An SQLite database, seen through the two queries of the extractor: the
    rows the bookmarks query returns, and the image the favicon query returns
    for a favicon url.  [None]: the tables of that query are missing, and the
    query raises [sqlite3.OperationalError]. *)
Record database : Type := mk_database {
  places : option (list ff_row);
  favicons : option (list (string * list byte))
}.

(** The content of a file, seen through the two readers the extractor uses. *)
Inductive content : Type :=
  | Garbage                                     (* neither JSON text nor a database *)
  | BookmarksJson (roots : list (string * node)) (* a Chromium bookmarks document *)
  | LinksJson (v : pyval)                        (* any other JSON text *)
  | Sqlite (db : database).

(** The lines the extractor prints. *)
Inductive event : Type :=
  | LogBookmarksNotFound (browser path : string)
  | LogParsing (browser : string)
  | LogFound (browser : string) (n : nat)
  | LogProfilesNotFound (path : string)
  | LogPlacesNotFound
  | LogParsingFrom (path : string)
  | LogFirefoxFound (n : nat)
  | LogFirefoxDbError
  | LogFaviconWarn (path : string)
  | LogLoading (path : string)
  | LogLoaded (n m : nat)
  | LogCorrupted
  | LogBackup (path : string)
  | LogWriting (n : nat) (path : string)
  | LogComplete
  | LogFatal.

(** The part of the machine the extractor sees: regular files, the listing
    [os.walk] gives for a directory ([dirpath], [filenames] per visited
    directory, in visiting order), the paths that cannot be opened for
    writing, and what was printed so far. *)
Record world : Type := mk_world {
  files : gmap string content;
  dirs : gmap string (list (string * list string));
  unwritable : gset string;
  log : list event
}.

Definition set_files (f : gmap string content) (w : world) : world :=
  mk_world f (dirs w) (unwritable w) (log w).

(** ** The effect monad *)

Definition M (A : Type) : Type := world -> outcome A * world.

#[global] Instance M_ret : MRet M := fun A a w => (Ok a, w).
#[global] Instance M_bind : MBind M := fun A B f m w =>
  match m w with
  | (Ok a, w') => f a w'
  | (Raise e, w') => (Raise e, w')
  end.

(** A pure computation that may raise. *)
Definition lift {A} (o : outcome A) : M A := fun w => (o, w).

(** [try: body / except cls: handler], for one exception class. *)
Definition try_except {A} (body : M A) (cls : exn) (handler : M A) : M A :=
  fun w =>
    match body w with
    | (Raise e, w') => if decide (e = cls) then handler w' else (Raise e, w')
    | r => r
    end.

Definition say (e : event) : M unit :=
  fun w => (Ok tt, mk_world (files w) (dirs w) (unwritable w) (log w ++ [e])).

(** [os.path.exists]. *)
Definition path_exists (p : string) : M bool :=
  fun w => (Ok (bool_decide (is_Some (files w !! p)) || bool_decide (is_Some (dirs w !! p))), w).

(** Reading a path: only a regular file can be read. *)
Definition read_file (p : string) : M content :=
  fun w => match files w !! p with
           | Some c => (Ok c, w)
           | None => (Raise OSError, w)
           end.

(** [open(p, 'w')] followed by writing [c]. *)
Definition write_file (p : string) (c : content) : M unit :=
  fun w =>
    if bool_decide (p ∈ unwritable w) || bool_decide (is_Some (dirs w !! p))
    then (Raise OSError, w)
    else (Ok tt, set_files (<[p := c]> (files w)) w).

(** [shutil.copy2(src, dst)] between regular files. *)
Definition copy2 (src dst : string) : M unit :=
  c ← read_file src; write_file dst c.

(** [os.remove]. *)
Definition os_remove (p : string) : M unit :=
  fun w => match files w !! p with
           | Some _ => (Ok tt, set_files (delete p (files w)) w)
           | None => (Raise OSError, w)
           end.

(** [os.walk(p)]: nothing when [p] is not a directory. *)
Definition os_walk (p : string) : M (list (string * list string)) :=
  fun w => (Ok (default [] (dirs w !! p)), w).

(** [os.path.join(a, b)] for a relative [b] (POSIX). *)
Definition path_join (a b : string) : string :=
  if String.eqb a "" || String.eqb (String.substring (String.length a - 1) 1 a) "/"
  then a +:+ b else a +:+ "/" +:+ b.

(** [for x in items: ...] with the loop-carried state [s]: in [M], and in
    code that only computes. *)
Section Loops.

Context {A S : Type}.

Section Effectful.
Variable body : A -> S -> M S.

Fixpoint for_each (items : list A) (s : S) : M S :=
  match items with
  | [] => mret s
  | x :: items' => s' ← body x s; for_each items' s'
  end.
End Effectful.

Section Pure.
Variable body : A -> S -> outcome S.

Fixpoint for_each_pure (items : list A) (s : S) : outcome S :=
  match items with
  | [] => Ok s
  | x :: items' => s' ← body x s; for_each_pure items' s'
  end.
End Pure.

End Loops.

(** ** Readers *)

Definition opt_str (o : option string) : pyval :=
  match o with
  | Some s => PStr s
  | None => PNone
  end.

Definition opt_entry (k : string) (o : option pyval) : list (string * pyval) :=
  match o with
  | Some v => [(k, v)]
  | None => []
  end.

(** The JSON object a [node] stands for. *)
Fixpoint node_to_py (n : node) : pyval :=
  match n with
  | Node type name url date_added children =>
      PDict (opt_entry "type" (PStr <$> type) ++
             opt_entry "name" (PStr <$> name) ++
             opt_entry "url" (PStr <$> url) ++
             opt_entry "date_added"
               (match date_added with PNone => None | v => Some v end) ++
             opt_entry "children"
               (match children with
                | Some cs => Some (PList (map node_to_py cs))
                | None => None
                end))
  end.

(** [json.load] on a file content. *)
Definition json_load (c : content) : outcome pyval :=
  match c with
  | BookmarksJson roots =>
      Ok (PDict [("roots", PDict (map (fun r => (r.1, node_to_py r.2)) roots))])
  | LinksJson v => Ok v
  | Garbage | Sqlite _ => Raise JSONDecodeError
  end.

(** [json.load] followed by [data['roots'].items()].  A bookmarks document
    gives its roots.  Any other JSON value fails where Python does when it has
    no ['roots'] entry or that entry is not a dict; a ['roots'] dict written
    as [LinksJson] holds no nodes of the schema and the walk stops at the
    first one with [AttributeError]. *)
Definition load_roots (c : content) : outcome (list (string * node)) :=
  match c with
  | BookmarksJson roots => Ok roots
  | LinksJson (PDict d) =>
      match dict_get "roots" d with
      | None => Raise KeyError
      | Some (PDict []) => Ok []
      | Some _ => Raise AttributeError
      end
  | LinksJson _ => Raise TypeError
  | Garbage | Sqlite _ => Raise JSONDecodeError
  end.

(** [cursor.execute(query)] and [fetchall()] for the bookmarks query. *)
Definition query_places (c : content) : outcome (list ff_row) :=
  match c with
  | Sqlite db =>
      match places db with
      | Some rows => Ok rows
      | None => Raise SqliteError
      end
  | _ => Raise SqliteError
  end.

Fixpoint assoc {A} (k : string) (l : list (string * A)) : option A :=
  match l with
  | [] => None
  | (k', v) :: l' => if String.eqb k k' then Some v else assoc k l'
  end.

(** [cursor.execute(query, (favicon_url,))] and [fetchone()] for the favicon
    query: the image of the widest bitmap, [None] when no row matches. *)
Definition query_favicon (c : content) (favicon_url : string)
  : outcome (option (list byte)) :=
  match c with
  | Sqlite db =>
      match favicons db with
      | Some icons => Ok (assoc favicon_url icons)
      | None => Raise SqliteError
      end
  | _ => Raise SqliteError
  end.

(** ** Records and the dedup set *)

(** What [set.add] and [in] compare: [True == 1] and [False == 0]. *)
Inductive key : Type :=
  | KNone
  | KInt (z : Z)
  | KStr (s : string).

#[global] Instance key_eq_dec : EqDecision key.
Proof. solve_decision. Defined.

#[global] Instance key_countable : Countable key.
Proof.
  refine (inj_countable'
    (fun k => match k with
              | KNone => inl tt
              | KInt z => inr (inl z)
              | KStr s => inr (inr s)
              end)
    (fun x => match x with
              | inl _ => KNone
              | inr (inl z) => KInt z
              | inr (inr s) => KStr s
              end) _).
  intros []; reflexivity.
Defined.

(** Hashing a value; lists and dicts are unhashable. *)
Definition hash_key (v : pyval) : outcome key :=
  match v with
  | PNone => Ok KNone
  | PBool b => Ok (KInt (if b then 1 else 0))
  | PInt z => Ok (KInt z)
  | PStr s => Ok (KStr s)
  | PList _ | PDict _ => Raise TypeError
  end.

(** [bookmark['url']]. *)
Definition subscript_url (bookmark : pyval) : outcome pyval :=
  match bookmark with
  | PDict d =>
      match dict_get "url" d with
      | Some v => Ok v
      | None => Raise KeyError
      end
  | _ => Raise TypeError
  end.

(** The dedup key of a record: [bookmark['url']], hashed. *)
Definition url_key (bookmark : pyval) : outcome key :=
  u ← subscript_url bookmark; hash_key u.

(** [for x in v]: the items a [for] loop visits (a dict gives its keys, a
    string its characters). *)
Definition py_iter (v : pyval) : outcome (list pyval) :=
  match v with
  | PList l => Ok l
  | PDict d => Ok (map (fun kv => PStr kv.1) d)
  | PStr s => Ok (map (fun c => PStr (String c "")) (list_ascii_of_string s))
  | _ => Raise TypeError
  end.

(** [len(v)]. *)
Definition py_len (v : pyval) : outcome nat :=
  match v with
  | PList l => Ok (length l)
  | PDict d => Ok (length d)
  | PStr s => Ok (String.length s)
  | _ => Raise TypeError
  end.

(** [v.append(x)]. *)
Definition py_append (v x : pyval) : outcome pyval :=
  match v with
  | PList l => Ok (PList (l ++ [x]))
  | _ => Raise AttributeError
  end.

(** The dict literal both parsers build. *)
Definition make_record (name : pyval) (url category : string) (tags : list string)
    (favicon : pyval) (browser : string) (dateAdded lastVisited : pyval) : pyval :=
  PDict [("name", name); ("url", PStr url); ("category", PStr category);
         ("tags", PList (map PStr tags)); ("favicon", favicon);
         ("browser", PStr browser); ("dateAdded", dateAdded);
         ("lastVisited", lastVisited)].

(** [url.startswith(('http', 'https'))]. *)
Definition http_prefixed (url : string) : bool :=
  startswith "http" url || startswith "https" url.

(** ** The extractor *)

(** Library functions and module-level configuration, taken as given:
    [urlparse(url)] reduced to the two fields the code reads (scheme, netloc),
    which raises [ValueError] on some malformed hosts;
    [datetime.fromtimestamp(n / 1000000)], the local time of [n] microseconds
    after the epoch, which raises when the platform cannot represent it; and
    the module constants [BROWSER_PATHS], [FAVICON_PATHS] (dicts, in insertion
    order) and [OUTPUT_FILE]. *)
Class Platform : Type := {
  urlparse : string -> outcome (string * string);
  fromtimestamp : Z -> outcome datetime;
  BROWSER_PATHS : list (string * string);
  FAVICON_PATHS : list (string * string);
  OUTPUT_FILE : string
}.

(** The command line, after [argparse]. *)
Record args : Type := mk_args {
  browser : option string;
  include_favicons : bool;
  merge_existing : bool
}.

Section Extractor.

Context `{Platform}.

(** [convert_firefox_time]: microseconds since 1970-01-01. *)
Definition convert_firefox_time (firefox_time : pyval) : outcome pyval :=
  if negb (truthy firefox_time) then Ok PNone
  else
    n ← py_int firefox_time;
    if n =? 0 then Ok PNone
    else
      dt ← fromtimestamp n;
      Ok (PStr (isoformat dt +:+ "Z")).

(** [get_favicon_base64]. *)
Definition get_favicon_base64 (db_path url : string) : M pyval :=
  ex ← path_exists db_path;
  if negb ex then mret PNone
  else
    found ← try_except
      (let temp_db_path := db_path +:+ ".tmp" in
       _ ← copy2 db_path temp_db_path;
       parsed_url ← lift (urlparse url);
       let favicon_url := parsed_url.1 +:+ "://" +:+ parsed_url.2 +:+ "/favicon.ico" in
       db ← read_file temp_db_path;
       result ← lift (query_favicon db favicon_url);
       _ ← os_remove temp_db_path;
       match result with
       | Some (b :: data) => mret (Some (PStr (png_data_uri (b :: data))))
       | _ => mret None
       end)
      SqliteError
      (_ ← say (LogFaviconWarn db_path); mret None);
    match found with
    | Some v => mret v
    | None => mret PNone
    end.

(** The closure [recurse_nodes] of [parse_chromium_bookmarks]; the list
    [bookmarks] it appends to is threaded through. *)
Fixpoint recurse_nodes (browser_name : string) (include_favicons : bool)
    (favicon_db_path : option string)
    (n : node) (folder_path : string) (bookmarks : list pyval) {struct n}
  : M (list pyval) :=
  match n with
  | Node type name url date_added children =>
      if decide (type = Some "url") then
        match url with
        | None => mret bookmarks
        | Some url =>
            if negb (nonempty url) || negb (http_prefixed url) then mret bookmarks
            else
              let tags := path_tags folder_path in
              favicon ←
                match include_favicons, favicon_db_path with
                | true, Some db_path =>
                    if nonempty db_path then get_favicon_base64 db_path url
                    else mret PNone
                | _, _ => mret PNone
                end;
              dateAdded ← lift (convert_chrome_time date_added);
              mret (bookmarks ++
                    [make_record (opt_str name) url folder_path tags favicon
                                 browser_name dateAdded PNone])
        end
      else if decide (type = Some "folder") then
        let current_folder := default "" name in
        let new_path :=
          if nonempty folder_path then folder_path +:+ "/" +:+ current_folder
          else current_folder in
        match children with
        | None => mret bookmarks
        | Some cs =>
            for_each
              (fun child bookmarks =>
                 recurse_nodes browser_name include_favicons favicon_db_path
                               child new_path bookmarks)
              cs bookmarks
        end
      else mret bookmarks
  end.

(** [for root_name, root_node in data['roots'].items(): recurse_nodes(root_node, '')]. *)
Definition each_root (browser_name : string) (include_favicons : bool)
    (favicon_db_path : option string)
    (roots : list (string * node)) (bookmarks : list pyval) : M (list pyval) :=
  for_each
    (fun root bookmarks =>
       recurse_nodes browser_name include_favicons favicon_db_path
                     root.2 "" bookmarks)
    roots bookmarks.

(** [parse_chromium_bookmarks]. *)
Definition parse_chromium_bookmarks (file_path browser_name : string)
    (include_favicons : bool) : M (list pyval) :=
  ex ← path_exists file_path;
  if negb ex then
    _ ← say (LogBookmarksNotFound browser_name file_path); mret []
  else
    _ ← say (LogParsing browser_name);
    let favicon_db_path := assoc browser_name FAVICON_PATHS in
    f ← read_file file_path;
    roots ← lift (load_roots f);
    bookmarks ← each_root browser_name include_favicons favicon_db_path roots [];
    _ ← say (LogFound browser_name (length bookmarks));
    mret bookmarks.

(** The body of the row loop of [parse_firefox_bookmarks]. *)
Definition firefox_row (browser_name : string) (include_favicons : bool)
    (row : ff_row) (bookmarks : list pyval) : outcome (list pyval) :=
  match row_url row with
  | None => Ok bookmarks
  | Some url =>
      if negb (nonempty url) || negb (http_prefixed url) then Ok bookmarks
      else
        let category := row_category row in
        let tags :=
          match category with
          | Some c => if nonempty c then path_tags c else []
          | None => []
          end in
        let favicon :=
          match include_favicons, row_favicon_data row with
          | true, b :: data => PStr (png_data_uri (b :: data))
          | _, _ => PNone
          end in
        dateAdded ← convert_firefox_time (row_date_added row);
        lastVisited ← convert_firefox_time (row_last_visited row);
        Ok (bookmarks ++
            [make_record (opt_str (row_name row)) url (default "" category) tags
                         favicon browser_name dateAdded lastVisited])
  end.

Definition firefox_rows (browser_name : string) (include_favicons : bool)
    (rows : list ff_row) (bookmarks : list pyval) : outcome (list pyval) :=
  for_each_pure (firefox_row browser_name include_favicons) rows bookmarks.

(** The search for [places.sqlite] over [os.walk(profiles_path)]. *)
Fixpoint find_places (walk : list (string * list string)) : string :=
  match walk with
  | [] => ""
  | (dirpath, filenames) :: walk' =>
      if bool_decide ("places.sqlite" ∈ filenames)
      then path_join dirpath "places.sqlite"
      else find_places walk'
  end.

(** [parse_firefox_bookmarks]. *)
Definition parse_firefox_bookmarks (profiles_path browser_name : string)
    (include_favicons : bool) : M (list pyval) :=
  ex ← path_exists profiles_path;
  if negb ex then
    _ ← say (LogProfilesNotFound profiles_path); mret []
  else
    walk ← os_walk profiles_path;
    let sqlite_file := find_places walk in
    if negb (nonempty sqlite_file) then
      _ ← say LogPlacesNotFound; mret []
    else
      _ ← say (LogParsingFrom sqlite_file);
      try_except
        (let temp_db_path := sqlite_file +:+ ".tmp" in
         _ ← copy2 sqlite_file temp_db_path;
         db ← read_file temp_db_path;
         rows ← lift (query_places db);
         bookmarks ← lift (firefox_rows browser_name include_favicons rows []);
         _ ← os_remove temp_db_path;
         _ ← say (LogFirefoxFound (length bookmarks));
         mret bookmarks)
        SqliteError
        (_ ← say LogFirefoxDbError; mret []).

(** [for bookmark in all_bookmarks: processed_urls.add(bookmark['url'])]. *)
Definition add_urls (items : list pyval) (processed_urls : gset key)
  : outcome (gset key) :=
  for_each_pure
    (fun bookmark processed_urls =>
       k ← url_key bookmark; Ok ({[k]} ∪ processed_urls))
    items processed_urls.

(** The seeding step of [main]: the start value of [all_bookmarks] and of
    [processed_urls]. *)
Definition load_existing (a : args) : M (pyval * gset key) :=
  ex ← path_exists OUTPUT_FILE;
  if merge_existing a && ex then
    _ ← say (LogLoading OUTPUT_FILE);
    f ← read_file OUTPUT_FILE;
    try_except
      (all_bookmarks ← lift (json_load f);
       items ← lift (py_iter all_bookmarks);
       processed_urls ← lift (add_urls items ∅);
       n ← lift (py_len all_bookmarks);
       _ ← say (LogLoaded n (size processed_urls));
       mret (all_bookmarks, processed_urls))
      JSONDecodeError
      (_ ← say LogCorrupted; mret (PList [], ∅))
  else mret (PList [], ∅).

(** The body of [for bookmark in new_bookmarks]: keep a record when its url
    was not seen before. *)
Definition merge_one (bookmark : pyval) (st : pyval * gset key)
  : outcome (pyval * gset key) :=
  k ← url_key bookmark;
  if bool_decide (k ∈ st.2) then Ok st
  else
    all_bookmarks ← py_append st.1 bookmark;
    Ok (all_bookmarks, {[k]} ∪ st.2).

Definition merge_new (new_bookmarks : list pyval) (st : pyval * gset key)
  : outcome (pyval * gset key) :=
  for_each_pure merge_one new_bookmarks st.

(** [BROWSER_PATHS[browser]]. *)
Definition browser_path (b : string) : outcome string :=
  match assoc b BROWSER_PATHS with
  | Some p => Ok p
  | None => Raise KeyError
  end.

(** The parser [main] runs for one browser. *)
Definition parse_browser (a : args) (b : string) : M (list pyval) :=
  p ← lift (browser_path b);
  if String.eqb b "firefox"
  then parse_firefox_bookmarks p b (include_favicons a)
  else parse_chromium_bookmarks p b (include_favicons a).

(** [for browser in browsers_to_scan: ...]. *)
Definition scan (a : args) (browsers : list string) (st : pyval * gset key)
  : M (pyval * gset key) :=
  for_each
    (fun b st =>
       new_bookmarks ← parse_browser a b;
       lift (merge_new new_bookmarks st))
    browsers st.

Definition browsers_to_scan (a : args) : list string :=
  match browser a with
  | Some b => if nonempty b then [b] else map fst BROWSER_PATHS
  | None => map fst BROWSER_PATHS
  end.

(** The backup and the write that end [main]. *)
Definition backup_and_write (all_bookmarks : pyval) : M unit :=
  ex ← path_exists OUTPUT_FILE;
  _ ← (if (ex : bool) then
         let backup_path := OUTPUT_FILE +:+ ".bak" in
         _ ← say (LogBackup backup_path);
         copy2 OUTPUT_FILE backup_path
       else mret tt);
  n ← lift (py_len all_bookmarks);
  _ ← say (LogWriting n OUTPUT_FILE);
  try_except
    (_ ← write_file OUTPUT_FILE (LinksJson all_bookmarks);
     say LogComplete)
    OSError
    (say LogFatal).

(** [main]. *)
Definition main (a : args) : M unit :=
  st ← load_existing a;
  st' ← scan a (browsers_to_scan a) st;
  backup_and_write st'.1.

End Extractor.

(** ** Vocabulary of the properties *)

(** [field k r]: the value of key [k] in record [r]. *)
Definition field (k : string) (r : pyval) : option pyval :=
  match r with
  | PDict d => dict_get k d
  | _ => None
  end.

Definition record_keys : list string :=
  ["name"; "url"; "category"; "tags"; "favicon"; "browser"; "dateAdded";
   "lastVisited"].

(** [None] or a string: how an optional field is stored. *)
Definition null_or_str (v : pyval) : Prop := v = PNone \/ exists s, v = PStr s.

Definition has_slash (s : string) : bool :=
  existsb (fun c => Ascii.eqb c "/") (list_ascii_of_string s).

(** [ends_with suf s]: [s] ends in [suf]. *)
Fixpoint ends_with (suf s : string) : bool :=
  if String.eqb s suf then true
  else match s with
       | EmptyString => false
       | String _ s' => ends_with suf s'
       end.

(** What a parser may change: the log, and files named [*.tmp]. *)
Definition frame (w w' : world) : Prop :=
  dirs w' = dirs w /\ unwritable w' = unwritable w /\
  forall p, ends_with ".tmp" p = false -> files w' !! p = files w !! p.

Definition frames {A} (m : M A) : Prop :=
  forall w r w', m w = (r, w') -> frame w w'.

(** The instants [convert_chrome_time] can represent: years 1 to 9999. *)
Definition chrome_in_range (n : Z) : Prop :=
  0 < ORD_1601 + n / US_PER_DAY <= MAXORDINAL.

(** The url test both parsers apply. *)
Definition accepted_url (url : option string) : option string :=
  match url with
  | Some u => if nonempty u && http_prefixed u then Some u else None
  | None => None
  end.

(** The url nodes that a walk from [n] emits, in the order of the walk, each
    with the names of the folders on the way down to it (outermost first). *)
Fixpoint url_leaves (n : node) (above : list string) : list (list string * string) :=
  match n with
  | Node type name url _ children =>
      if decide (type = Some "url") then
        match accepted_url url with
        | Some u => [(above, u)]
        | None => []
        end
      else if decide (type = Some "folder") then
        match children with
        | Some cs =>
            flat_map (fun c => url_leaves c (above ++ [default "" name])) cs
        | None => []
        end
      else []
  end.

Fixpoint drop_empty (names : list string) : list string :=
  match names with
  | n :: names' => if nonempty n then names else drop_empty names'
  | [] => []
  end.

(** The folder path of the names, as the walk accumulates it. *)
Definition folder_path_of (names : list string) : string :=
  join_slash (drop_empty names).

(** The records of [l] whose url key is not in [seen] and not earlier in
    [l]: first seen wins. *)
Fixpoint first_seen (seen : gset key) (l : list pyval) : list pyval :=
  match l with
  | [] => []
  | b :: l' =>
      match url_key b with
      | Ok k =>
          if bool_decide (k ∈ seen) then first_seen seen l'
          else b :: first_seen ({[k]} ∪ seen) l'
      | Raise _ => first_seen seen l'
      end
  end.

(** [keys_of l ks]: [ks] are the url keys of the records [l], in order. *)
Definition keys_of (l : list pyval) (ks : list key) : Prop :=
  Forall2 (fun b k => url_key b = Ok k) l ks.

(** A collection with at most one record per url. *)
Definition unique_urls (v : pyval) : Prop :=
  exists items ks, py_iter v = Ok items /\ keys_of items ks /\ NoDup ks.

(** The first record of [l] with url key [k]. *)
Definition first_with_key (k : key) (l : list pyval) : option pyval :=
  snd <$> list_find (fun b => url_key b = Ok k) l.

(** A record as a parser builds it: the dict literal, a url that passed the
    test, tags cut from the category, optional fields null or a string. *)
Definition emitted (browser_name : string) (include_favicons : bool) (r : pyval)
  : Prop :=
  exists name url category favicon dateAdded lastVisited,
    r = make_record name url category (path_tags category) favicon browser_name
                    dateAdded lastVisited /\
    url <> "" /\ http_prefixed url = true /\
    null_or_str name /\ null_or_str favicon /\
    (include_favicons = false -> favicon = PNone) /\
    null_or_str dateAdded /\ null_or_str lastVisited.

(** The record the Chromium walk builds for a url node under the folders
    [leaf.1]. *)
Definition chromium_record (browser_name : string) (include_favicons : bool)
    (leaf : list string * string) (r : pyval) : Prop :=
  exists name favicon dateAdded,
    r = make_record name leaf.2 (folder_path_of leaf.1)
                    (path_tags (folder_path_of leaf.1)) favicon browser_name
                    dateAdded PNone /\
    leaf.2 <> "" /\ http_prefixed leaf.2 = true /\
    null_or_str name /\ null_or_str favicon /\
    (include_favicons = false -> favicon = PNone) /\
    null_or_str dateAdded.

(** [w] after printing the lines [evs]. *)
Definition logged (w : world) (evs : list event) : world :=
  mk_world (files w) (dirs w) (unwritable w) (log w ++ evs).

(** The dedup set after the records [l] went through the merge loop. *)
Fixpoint seen_after (seen : gset key) (l : list pyval) : gset key :=
  match l with
  | [] => seen
  | b :: l' =>
      match url_key b with
      | Ok k => seen_after ({[k]} ∪ seen) l'
      | Raise _ => seen_after seen l'
      end
  end.

(** [open(p, 'w')] succeeds. *)
Definition writable (w : world) (p : string) : Prop :=
  bool_decide (p ∈ unwritable w) || bool_decide (is_Some (dirs w !! p)) = false.

Section DriverVocabulary.

Context `{Platform}.

(** The records the parsers return during a scan, in the order in which
    [main] meets them. *)
Fixpoint parse_all (a : args) (browsers : list string) : M (list pyval) :=
  match browsers with
  | [] => mret []
  | b :: browsers' =>
      new_bookmarks ← parse_browser a b;
      rest ← parse_all a browsers';
      mret (new_bookmarks ++ rest)
  end.

(** The collection [main] starts from: the existing output when it is
    merged and is JSON, the empty list otherwise. *)
Definition seed (a : args) (w : world) : pyval :=
  if merge_existing a then
    match files w !! OUTPUT_FILE with
    | Some c => match json_load c with
                | Ok v => v
                | Raise _ => PList []
                end
    | None => PList []
    end
  else PList [].

(** The world in which the scan starts. *)
Definition after_load (a : args) (w : world) : world := (load_existing a w).2.

End DriverVocabulary.

(** The tags as the specification words them: the segments of the category
    between [/] that are not empty. *)
Definition nonempty_segments (category : string) : list string :=
  filter (fun seg => seg <> "") (split_slash category).

(** The category as the specification words it: the names of the folders
    above the bookmark joined by [/], empty exactly when no folder is above. *)
Definition category_as_stated (leaf : list string * string) (r : pyval) : Prop :=
  field "category" r = Some (PStr (join_slash leaf.1)) /\
  (join_slash leaf.1 = "" <-> leaf.1 = []).

(** Sample platform and inputs used to exercise the statements below. *)
Module Samples.

(** A plain reading of a url: scheme before [:], host between [//] and the
    next [/]. *)
Fixpoint until (stop : ascii) (s : string) : string * string :=
  match s with
  | EmptyString => (EmptyString, EmptyString)
  | String c s' =>
      if Ascii.eqb c stop then (EmptyString, s')
      else let r := until stop s' in (String c r.1, r.2)
  end.

Definition urlparse (url : string) : outcome (string * string) :=
  let r := until ":" url in
  Ok (r.1, (until "/" (String.substring 2 (String.length r.2) r.2)).1).

(** Local time of a machine whose zone is UTC. *)
Definition fromtimestamp (n : Z) : outcome datetime :=
  chrome_datetime (n + 11644473600000000).

Definition platform : Platform :=
  Build_Platform urlparse fromtimestamp
    [("chrome", "/cfg/chrome/Bookmarks"); ("firefox", "/cfg/firefox")]
    [("chrome", "/cfg/chrome/Favicons")]
    "/data/links_web.json".

Definition rec (name url category : string) : pyval :=
  make_record (PStr name) url category (path_tags category) PNone "chrome"
              PNone PNone.

(** A Chromium tree: the bar holds a page and a folder [Dev] with an
    internal page and a page whose scheme merely starts with [http]. *)
Definition bar : node :=
  Node (Some "folder") (Some "Bookmarks bar") None PNone (Some [
    Node (Some "url") (Some "A") (Some "https://a.example/")
         (PStr "13350000000000000") None;
    Node (Some "folder") (Some "Dev") None PNone (Some [
      Node (Some "url") (Some "B") (Some "chrome://settings") PNone None;
      Node (Some "url") (Some "C") (Some "httpx://c.example/") (PStr "0") None])]).

(** A tree whose folders have no title. *)
Definition untitled : node :=
  Node (Some "folder") (Some "") None PNone (Some [
    Node (Some "url") (Some "R") (Some "http://r.example/") PNone None;
    Node (Some "folder") (Some "x") None PNone (Some [
      Node (Some "url") (Some "S") (Some "http://s.example/") PNone None])]).

Definition chrome_world (root : node) : world :=
  mk_world {[ "/cfg/chrome/Bookmarks" := BookmarksJson [("bookmark_bar", root)] ]}
           ∅ ∅ [].

Definition row_d : ff_row :=
  mk_row (Some "D") (Some "https://d.example/") (Some "Work/Dev")
         (PInt 1700000000000000) PNone [].
Definition row_e : ff_row :=
  mk_row (Some "E") (Some "httpx://e.example/") None PNone PNone [].

Definition firefox_world (db : content) : world :=
  mk_world {[ "/cfg/firefox/p1/places.sqlite" := db ]}
           {[ "/cfg/firefox" := [("/cfg/firefox", []); ("/cfg/firefox/p1", ["places.sqlite"])] ]}
           ∅ [].

(** An output file in which one url occurs twice. *)
Definition twice : pyval :=
  PList [rec "first" "https://a.example/" "Work";
         rec "second" "https://a.example/" "Play"].

Definition links_world (c : content) : world :=
  mk_world {[ "/data/links_web.json" := c ]} ∅ ∅ [].

Definition merge_args : args := mk_args None false true.
Definition plain_args : args := mk_args None false false.

Definition favicons_world (db : content) : world :=
  mk_world {[ "/cfg/chrome/Favicons" := db ]} ∅ ∅ [].

(** An earlier output with one of the urls of [bar], next to the browser
    that holds [bar]. *)
Definition earlier : pyval :=
  PList [rec "kept" "https://a.example/" "Old"].

Definition merge_world : world :=
  mk_world {[ "/data/links_web.json" := LinksJson earlier;
              "/cfg/chrome/Bookmarks" := BookmarksJson [("bookmark_bar", bar)] ]}
           ∅ ∅ [].

(** An earlier output that already has every url of [bar]. *)
Definition complete : pyval :=
  PList [rec "kept" "https://a.example/" "Old";
         rec "too" "httpx://c.example/" "Old"].

Definition settled_world : world :=
  mk_world {[ "/data/links_web.json" := LinksJson complete;
              "/cfg/chrome/Bookmarks" := BookmarksJson [("bookmark_bar", bar)] ]}
           ∅ ∅ [].

(** A machine whose Chromium bookmarks file is not JSON. *)
Definition corrupt_world : world :=
  mk_world {[ "/data/links_web.json" := LinksJson earlier;
              "/cfg/chrome/Bookmarks" := Garbage ]}
           ∅ ∅ [].

End Samples.

(** ** Vocabulary of the further properties *)

(** The outcomes of a sequence of steps: the values when all succeed, the
    first error otherwise. *)
Fixpoint all_ok {A} (steps : list (outcome A)) : outcome (list A) :=
  match steps with
  | [] => Ok []
  | Ok a :: steps' =>
      match all_ok steps' with
      | Ok l => Ok (a :: l)
      | Raise e => Raise e
      end
  | Raise e :: _ => Raise e
  end.

(** What a walk adds to the list it was given. *)
Definition appended (bookmarks : list pyval) (steps : list (outcome pyval))
  : outcome (list pyval) :=
  match all_ok steps with
  | Ok rs => Ok (bookmarks ++ rs)
  | Raise e => Raise e
  end.

(** What the Chromium walk reads from a url node it accepts: the names of the
    folders above it, and the node's name, url and [date_added]. *)
Record url_node : Type := mk_url_node {
  un_above : list string;
  un_name : option string;
  un_url : string;
  un_date_added : pyval
}.

(** The accepted url nodes below [n], in the order of the walk. *)
Fixpoint url_nodes (n : node) (above : list string) : list url_node :=
  match n with
  | Node type name url date_added children =>
      if decide (type = Some "url") then
        match accepted_url url with
        | Some u => [mk_url_node above name u date_added]
        | None => []
        end
      else if decide (type = Some "folder") then
        match children with
        | Some cs =>
            flat_map (fun c => url_nodes c (above ++ [default "" name])) cs
        | None => []
        end
      else []
  end.

(** The record of a url node, given how the favicon step ends; the
    timestamp is converted after the favicon step. *)
Definition node_record (browser_name : string) (fetched : outcome pyval)
    (u : url_node) : outcome pyval :=
  favicon ← fetched;
  dateAdded ← convert_chrome_time (un_date_added u);
  Ok (make_record (opt_str (un_name u)) (un_url u) (folder_path_of (un_above u))
                  (nonempty_segments (folder_path_of (un_above u))) favicon
                  browser_name dateAdded PNone).

(** The record of a url node when no favicon is fetched. *)
Definition plain_record (browser_name : string) (u : url_node) : outcome pyval :=
  node_record browser_name (Ok PNone) u.

(** The favicon the database holds for a parsed url: the image stored for
    [scheme://netloc/favicon.ico], when there is one and it is not empty. *)
Definition stored_favicon (icons : list (string * list byte))
    (parsed : string * string) : pyval :=
  match assoc (parsed.1 +:+ "://" +:+ parsed.2 +:+ "/favicon.ico") icons with
  | Some (b :: data) => PStr (png_data_uri (b :: data))
  | _ => PNone
  end.

(** The rows the Firefox loop keeps. *)
Definition kept_rows (rows : list ff_row) : list ff_row :=
  filter (fun row => is_Some (accepted_url (row_url row))) rows.

Section FaviconStep.

Context `{Platform}.

(** The favicon step of the Chromium walk. *)
Definition favicon_step (include_favicons : bool) (favicon_db_path : option string)
    (url : string) : M pyval :=
  match include_favicons, favicon_db_path with
  | true, Some db_path =>
      if nonempty db_path then get_favicon_base64 db_path url else mret PNone
  | _, _ => mret PNone
  end.

End FaviconStep.

Section Inputs.

Context `{Platform}.

(** A path that is neither the output, nor its backup, nor a temporary
    copy. *)
Definition foreign (p : string) : Prop :=
  p <> OUTPUT_FILE /\ p <> OUTPUT_FILE +:+ ".bak" /\ ends_with ".tmp" p = false.

(** Two machines that differ at most in the output, its backup, temporary
    copies and what was printed. *)
Definition same_inputs (w1 w2 : world) : Prop :=
  dirs w1 = dirs w2 /\ unwritable w1 = unwritable w2 /\
  forall p, foreign p -> files w1 !! p = files w2 !! p.

(** A computation that returns the same on such machines, and leaves them
    such. *)
Definition respects {A} (m : M A) : Prop :=
  forall w1 w2, same_inputs w1 w2 ->
    (m w1).1 = (m w2).1 /\ same_inputs (m w1).2 (m w2).2.

(** The paths a scan of [browsers] reads are foreign: the bookmark file or
    profile directory of each browser, its favicon database when favicons
    are asked for, and the [places.sqlite] found in a profile directory. *)
Definition foreign_inputs (a : args) (browsers : list string) (w : world) : Prop :=
  forall b, b ∈ browsers ->
    (forall p, assoc b BROWSER_PATHS = Some p ->
       foreign p /\
       (forall walk, dirs w !! p = Some walk -> find_places walk <> "" ->
                     foreign (find_places walk))) /\
    (forall p, include_favicons a = true -> assoc b FAVICON_PATHS = Some p -> foreign p).

End Inputs.

(** ** The module constants ([get_browser_paths], [get_favicon_paths]) *)

(** [os.path.isabs(p)] (POSIX). *)
Definition isabs (p : string) : bool := startswith "/" p.

(** [os.path.join(a, b)] (POSIX): an absolute [b] replaces [a]. *)
Definition os_path_join (a b : string) : string :=
  if isabs b then b else path_join a b.

Section Configuration.

(** [platform.system().lower()], the home directory [os.path.expanduser('~')]
    and [os.path.expandvars] are taken as given. *)
Variable expandvars : string -> string.
Variable home : string.

Definition get_browser_paths (system : string) : list (string * string) :=
  if String.eqb system "windows" then
    [("edge", expandvars "%LOCALAPPDATA%\Microsoft\Edge\User Data\Default\Bookmarks");
     ("chrome", expandvars "%LOCALAPPDATA%\Google\Chrome\User Data\Default\Bookmarks");
     ("firefox", expandvars "%APPDATA%\Mozilla\Firefox\Profiles");
     ("brave",
      expandvars "%LOCALAPPDATA%\BraveSoftware\Brave-Browser\User Data\Default\Bookmarks")]
  else if String.eqb system "linux" then
    [("chrome", os_path_join home ".config/google-chrome/Default/Bookmarks");
     ("firefox", os_path_join home ".mozilla/firefox");
     ("brave", os_path_join home ".config/BraveSoftware/Brave-Browser/Default/Bookmarks")]
  else if String.eqb system "darwin" then
    [("chrome",
      os_path_join home "Library/Application Support/Google/Chrome/Default/Bookmarks");
     ("firefox", os_path_join home "Library/Application Support/Firefox/Profiles");
     ("brave",
      os_path_join home
        "Library/Application Support/BraveSoftware/Brave-Browser/Default/Bookmarks")]
  else [].

Definition get_favicon_paths (system : string) : list (string * string) :=
  if String.eqb system "windows" then
    [("edge", expandvars "%LOCALAPPDATA%\Microsoft\Edge\User Data\Default\Favicons");
     ("chrome", expandvars "%LOCALAPPDATA%\Google\Chrome\User Data\Default\Favicons");
     ("brave",
      expandvars "%LOCALAPPDATA%\BraveSoftware\Brave-Browser\User Data\Default\Favicons")]
  else if String.eqb system "linux" then
    [("chrome", os_path_join home ".config/google-chrome/Default/Favicons");
     ("brave", os_path_join home ".config/BraveSoftware/Brave-Browser/Default/Favicons")]
  else if String.eqb system "darwin" then
    [("chrome",
      os_path_join home "Library/Application Support/Google/Chrome/Default/Favicons");
     ("brave",
      os_path_join home
        "Library/Application Support/BraveSoftware/Brave-Browser/Default/Favicons")]
  else [].

End Configuration.

(** ** The path resolver ([utils/path_resolver.py]) *)

Definition is_slash (c : ascii) : bool := Ascii.eqb c "/".

Fixpoint drop_while (f : ascii -> bool) (l : list ascii) : list ascii :=
  match l with
  | [] => []
  | c :: l' => if f c then drop_while f l' else l
  end.

(** [os.path.dirname(p)] (POSIX): [p] up to and with its last slash, then
    without trailing slashes unless nothing else is left.  The characters are
    handled from the end of [p]. *)
Definition dirname (p : string) : string :=
  let head := drop_while (fun c => negb (is_slash c)) (rev (list_ascii_of_string p)) in
  string_of_list_ascii
    (rev (if forallb is_slash head then head else drop_while is_slash head)).

(** [os.path.exists(p)]. *)
Definition exists_at (w : world) (p : string) : bool :=
  bool_decide (is_Some (files w !! p)) || bool_decide (is_Some (dirs w !! p)).

Definition default_config : list (string * pyval) :=
  [("dataPath", PStr "./data");
   ("assetsPath", PStr "./assets");
   ("logsPath", PStr "./0_Electron_Docs_Reference/Dev_Logs");
   ("iconsPath", PStr "./assets/icons");
   ("backupPath", PStr "./data/backups")].

(** [d[k] = v]: the binding of [k] is replaced where it stands, a new key
    goes to the end. *)
Fixpoint dict_set (k : string) (v : pyval) (d : list (string * pyval))
  : list (string * pyval) :=
  match d with
  | [] => [(k, v)]
  | (k', v') :: d' =>
      if String.eqb k k' then (k, v) :: d' else (k', v') :: dict_set k v d'
  end.

(** [{**d1, **d2}] for dicts. *)
Definition dict_update (d1 d2 : list (string * pyval)) : list (string * pyval) :=
  fold_left (fun d kv => dict_set kv.1 kv.2 d) d2 d1.

(** [{**default_config, **user_config}]: only a mapping can be unpacked. *)
Definition with_defaults (user_config : pyval) : outcome (list (string * pyval)) :=
  match user_config with
  | PDict d => Ok (dict_update default_config d)
  | _ => Raise TypeError
  end.

(** [with open(p) as f: user_config = json.load(f); return {**default_config,
    **user_config}]. *)
Definition read_config (w : world) (p : string) : outcome (list (string * pyval)) :=
  match files w !! p with
  | None => Raise OSError
  | Some c => user_config ← json_load c; with_defaults user_config
  end.

(** [except (json.JSONDecodeError, IOError)]. *)
Definition config_error (e : exn) : bool :=
  bool_decide (e = JSONDecodeError) || bool_decide (e = OSError).

(** The two warnings [_load_config] prints. *)
Inductive warning : Type :=
  | WarnConfig (config_path : string)
  | WarnProjectConfig.

(** [item[k]]. *)
Definition subscript (k : string) (item : pyval) : outcome pyval :=
  match item with
  | PDict d =>
      match dict_get k d with
      | Some v => Ok v
      | None => Raise KeyError
      end
  | _ => Raise TypeError
  end.

Record PathResolver : Type := mk_resolver {
  platform_name : string;
  config : list (string * pyval);
  project_root : string;
  paths : list (string * string)
}.

Section Resolver.

(** Taken as given: [os.path.abspath], the [__file__] of the module,
    [os.environ.get('NEXO_DASHBOARD_PATH')], [platform.system().lower()] and
    [os.makedirs(path, exist_ok=True)]. *)
Variable abspath : string -> string.
Variable module_file : string.
Variable NEXO_DASHBOARD_PATH : option string.
Variable system : string.
Variable makedirs : string -> M unit.

(** The [while] loop of [_find_project_root], with fuel: [None] when the
    fuel runs out, [Some None] when the loop ends without a marker. *)
Fixpoint search_up (fuel : nat) (w : world) (current_dir : string)
  : option (option string) :=
  match fuel with
  | O => None
  | S fuel' =>
      if String.eqb current_dir (dirname current_dir) then Some None
      else if exists_at w (os_path_join current_dir "package.json") ||
              exists_at w (os_path_join current_dir "ROADMAP.md")
      then Some (Some current_dir)
      else search_up fuel' w (dirname current_dir)
  end.

(** [_find_project_root]; the loop gets one more step than [current_dir] has
    characters, which is enough. *)
Definition _find_project_root (w : world) : string :=
  match NEXO_DASHBOARD_PATH with
  | Some p => abspath p
  | None =>
      let current_dir := dirname (abspath module_file) in
      match search_up (S (String.length current_dir)) w current_dir with
      | Some (Some found) => found
      | _ => dirname (dirname (abspath module_file))
      end
  end.

(** The second half of [_load_config]: the project's [config.json]. *)
Definition project_config (w : world) : outcome (list (string * pyval)) * list warning :=
  let project_config_path := os_path_join (_find_project_root w) "config.json" in
  if exists_at w project_config_path then
    match read_config w project_config_path with
    | Ok cfg => (Ok cfg, [])
    | Raise e =>
        if config_error e then (Ok default_config, [WarnProjectConfig])
        else (Raise e, [])
    end
  else (Ok default_config, []).

(** [_load_config]: the configuration, and the warnings printed. *)
Definition _load_config (w : world) (config_path : option string)
  : outcome (list (string * pyval)) * list warning :=
  match config_path with
  | Some p =>
      if nonempty p && exists_at w p then
        match read_config w p with
        | Ok cfg => (Ok cfg, [])
        | Raise e =>
            if config_error e
            then ((project_config w).1, WarnConfig p :: (project_config w).2)
            else (Raise e, [])
        end
      else project_config w
  | None => project_config w
  end.

(** [_resolve_path]; [os.path.isabs] wants a string. *)
Definition _resolve_path (root : string) (relative_path : pyval) : outcome string :=
  match relative_path with
  | PStr s => Ok (if isabs s then s else abspath (os_path_join root s))
  | _ => Raise TypeError
  end.

(** [self._resolve_path(self.config[k])]. *)
Definition resolved (root : string) (cfg : list (string * pyval)) (k : string)
  : outcome string :=
  v ← subscript k (PDict cfg); _resolve_path root v.

Definition _initialize_paths (root : string) (cfg : list (string * pyval))
  : outcome (list (string * string)) :=
  data ← resolved root cfg "dataPath";
  assets ← resolved root cfg "assetsPath";
  logs ← resolved root cfg "logsPath";
  icons ← resolved root cfg "iconsPath";
  backup ← resolved root cfg "backupPath";
  Ok [("root", root); ("data", data); ("assets", assets); ("logs", logs);
      ("icons", icons); ("backup", backup)].

Definition _ensure_directories_exist (ps : list (string * string)) : M unit :=
  for_each (fun path _ => makedirs path) (map snd ps) tt.

(** [PathResolver(config_path)]: the warnings printed, and the run. *)
Definition PathResolver_init (config_path : option string) (w : world)
  : list warning * (outcome PathResolver * world) :=
  ((_load_config w config_path).2,
   (cfg ← lift (_load_config w config_path).1;
    let root := _find_project_root w in
    ps ← lift (_initialize_paths root cfg);
    _ ← _ensure_directories_exist ps;
    mret (mk_resolver system cfg root ps)) w).

Definition get_path (self : PathResolver) (path_type : string) : outcome string :=
  match assoc path_type (paths self) with
  | Some p => Ok p
  | None => Raise ValueError
  end.

(** [os.path.join(self.paths[k], filename)]. *)
Definition path_file (self : PathResolver) (k filename : string) : outcome string :=
  match assoc k (paths self) with
  | Some p => Ok (os_path_join p filename)
  | None => Raise KeyError
  end.

Definition get_data_file (self : PathResolver) (filename : string) : outcome string :=
  path_file self "data" filename.
Definition get_assets_file (self : PathResolver) (filename : string) : outcome string :=
  path_file self "assets" filename.
Definition get_icon_file (self : PathResolver) (filename : string) : outcome string :=
  path_file self "icons" filename.
Definition get_log_file (self : PathResolver) (filename : string) : outcome string :=
  path_file self "logs" filename.
Definition get_backup_file (self : PathResolver) (filename : string) : outcome string :=
  path_file self "backup" filename.

(** [path_map.get(self.platform, path_map.get('default', ''))]. *)
Definition get_platform_specific_path (self : PathResolver)
    (path_map : list (string * string)) : string :=
  default (default "" (assoc "default" path_map)) (assoc (platform_name self) path_map).

(** [get_output_file] of [extract_bookmarks.py], whose own [__file__] is
    [script_file]. *)
Definition get_output_file (HAS_PATH_RESOLVER : bool) (script_file : string) (w : world)
  : list warning * (outcome string * world) :=
  if HAS_PATH_RESOLVER then
    let run := PathResolver_init None w in
    (run.1,
     (match run.2.1 with
      | Ok path_resolver => get_data_file path_resolver "links_web.json"
      | Raise e => Raise e
      end, run.2.2))
  else
    let project_root := dirname (dirname (abspath script_file)) in
    ([], (Ok (os_path_join (os_path_join project_root "data") "links_web.json"), w)).

End Resolver.

(** ** The icon batch ([scripts/extract_icons.py]) *)

Section IconBatch.

(** [_log] appends to the log file; the two extractors work on the network
    and on images. *)
Variable _log : string -> M unit.
Variable extract_app_icon : pyval -> pyval -> M pyval.
Variable extract_favicon : pyval -> pyval -> M pyval.

(** [v == s] for a string literal [s]. *)
Definition is_str (s : string) (v : pyval) : bool :=
  match v with
  | PStr s' => String.eqb s' s
  | _ => false
  end.

Definition process_item (item : pyval) (results : list pyval) : M (list pyval) :=
  type ← lift (subscript "type" item);
  if is_str "app" type then
    path ← lift (subscript "path" item);
    name ← lift (subscript "name" item);
    result ← extract_app_icon path name;
    mret (results ++ [result])
  else
    type ← lift (subscript "type" item);
    if is_str "bookmark" type then
      url ← lift (subscript "url" item);
      name ← lift (subscript "name" item);
      result ← extract_favicon url name;
      mret (results ++ [result])
    else mret results.

Definition process_icon_batch (item_list : list pyval) : M (list pyval) :=
  _ ← _log "### Action: process_icon_batch";
  results ← for_each process_item item_list [];
  _ ← _log "- Result: Batch processing complete.";
  mret results.

End IconBatch.

(** ** Further sample machines *)

Module Cases.

(** A favicon database with an image for one site and an empty image for
    another. *)
Definition icons_db : database :=
  mk_database None
    (Some [("https://a.example/favicon.ico", [Byte.x89; Byte.x50; Byte.x4e]);
           ("httpx://c.example/favicon.ico", [])]).

Definition places_db : database :=
  mk_database (Some [Samples.row_d; Samples.row_e]) None.

(** A row whose creation time is not a number. *)
Definition row_f : ff_row :=
  mk_row (Some "F") (Some "https://f.example/") None (PStr "abc") PNone [].

Definition broken_places_db : database :=
  mk_database (Some [Samples.row_d; row_f]) None.

(** The machine of [Samples.merge_world] with a backup that cannot be
    written. *)
Definition locked_backup_world : world :=
  mk_world {[ "/data/links_web.json" := LinksJson Samples.earlier;
              "/cfg/chrome/Bookmarks" := BookmarksJson [("bookmark_bar", Samples.bar)] ]}
           ∅ {[ "/data/links_web.json.bak" ]} [].

(** An earlier output that is an empty JSON object. *)
Definition object_seed_world : world :=
  mk_world {[ "/data/links_web.json" := LinksJson (PDict []);
              "/cfg/chrome/Bookmarks" := BookmarksJson [("bookmark_bar", Samples.bar)] ]}
           ∅ ∅ [].

(** An earlier output with a record that has no url. *)
Definition nameless : pyval := PList [PDict [("name", PStr "x")]].

(** Chromium bookmarks next to a favicon database. *)
Definition chrome_favicons_world : world :=
  mk_world {[ "/cfg/chrome/Bookmarks" := BookmarksJson [("bookmark_bar", Samples.bar)];
              "/cfg/chrome/Favicons" := Sqlite icons_db ]}
           ∅ ∅ [].

(** The same, where the copy of the favicon database cannot be written. *)
Definition locked_copy_world : world :=
  mk_world {[ "/cfg/chrome/Bookmarks" := BookmarksJson [("bookmark_bar", Samples.bar)];
              "/cfg/chrome/Favicons" := Sqlite icons_db ]}
           ∅ {[ "/cfg/chrome/Favicons.tmp" ]} [].

(** A checkout under [/repo] with a project configuration that moves the
    data directory, and a user configuration elsewhere. *)
Definition repo_world : world :=
  mk_world {[ "/repo/package.json" := Garbage;
              "/repo/config.json" := LinksJson (PDict [("dataPath", PStr "/srv/data")]);
              "/etc/nexo.json" :=
                LinksJson (PDict [("logsPath", PStr "/var/log/nexo");
                                  ("theme", PStr "dark")]) ]}
           ∅ ∅ [].

Definition abspath (p : string) : string := p.
Definition module_file : string := "/repo/src/utils/path_resolver.py".
Definition makedirs (path : string) : M unit := mret tt.

(** Extractors and a log that always succeed. *)
Definition _log (message : string) : M unit := mret tt.
Definition extract_icon (source name : pyval) : M pyval := mret PNone.

End Cases.

(** * Properties *)

Set Warnings "-clear-no-such-hyp".

(** ** Strings *)

Lemma app_nil_l_str (s : string) : "" +:+ s = s.
Proof. reflexivity. Qed.

Lemma app_cons_str (c : ascii) (s t : string) : String c s +:+ t = String c (s +:+ t).
Proof. reflexivity. Qed.

Lemma app_nil_r_str (s : string) : s +:+ "" = s.
Proof. induction s as [|c s IH]; [reflexivity|]. rewrite app_cons_str, IH. reflexivity. Qed.

Lemma app_assoc_str (s t u : string) : (s +:+ t) +:+ u = s +:+ t +:+ u.
Proof.
  induction s as [|c s IH]; [reflexivity|].
  rewrite !app_cons_str, IH. reflexivity.
Qed.

Lemma length_app_str (s t : string) :
  String.length (s +:+ t) = (String.length s + String.length t)%nat.
Proof. induction s as [|c s IH]; [reflexivity|]. rewrite app_cons_str. simpl. lia. Qed.

Lemma nonempty_true (s : string) : nonempty s = true <-> s <> "".
Proof.
  unfold nonempty. destruct (String.eqb_spec s ""); simpl; split; congruence.
Qed.

Lemma nonempty_false (s : string) : nonempty s = false <-> s = "".
Proof.
  unfold nonempty. destruct (String.eqb_spec s ""); simpl; split; congruence.
Qed.

Lemma ends_with_app (suf q : string) : ends_with suf (q +:+ suf) = true.
Proof.
  induction q as [|c q IH].
  - rewrite app_nil_l_str. destruct suf; cbn [ends_with]; rewrite String.eqb_refl; reflexivity.
  - rewrite app_cons_str. cbn [ends_with]. rewrite IH. destruct (String.eqb _ _); reflexivity.
Qed.

Lemma split_slash_not_nil (s : string) : split_slash s <> [].
Proof.
  induction s as [|c s IH]; simpl; [discriminate|].
  destruct (Ascii.eqb c "/"); [discriminate|].
  destruct (split_slash s); discriminate.
Qed.

(** Joining the segments with [/] gives the string back. *)
Lemma join_split_slash (s : string) : join_slash (split_slash s) = s.
Proof.
  unfold join_slash. induction s as [|c s IH]; [reflexivity|].
  simpl split_slash. destruct (Ascii.eqb_spec c "/") as [->|Hc].
  - pose proof (split_slash_not_nil s) as Hn.
    destruct (split_slash s) as [|seg rest]; [congruence|].
    simpl in *. rewrite IH. reflexivity.
  - pose proof (split_slash_not_nil s) as Hn.
    destruct (split_slash s) as [|seg rest]; [congruence|].
    simpl in *. destruct rest as [|seg' rest].
    + rewrite IH. reflexivity.
    + rewrite app_cons_str, IH. reflexivity.
Qed.

(** No segment contains a [/]. *)
Lemma split_slash_no_slash (s : string) :
  Forall (fun seg => has_slash seg = false) (split_slash s).
Proof.
  induction s as [|c s IH]; simpl.
  - repeat constructor.
  - destruct (Ascii.eqb c "/") eqn:Hc.
    + constructor; [reflexivity | exact IH].
    + destruct (split_slash s) as [|seg rest].
      * constructor; [|constructor]. unfold has_slash. simpl. rewrite Hc. reflexivity.
      * inversion IH; subst. constructor; [|assumption].
        unfold has_slash in *. simpl. rewrite Hc. assumption.
Qed.

Lemma path_tags_nonempty (category : string) :
  Forall (fun seg => seg <> "") (path_tags category).
Proof.
  unfold path_tags. apply Forall_forall. intros seg Hin.
  apply list_elem_of_filter in Hin as [Hne _].
  apply nonempty_true. exact Hne.
Qed.

(** ** Timestamps *)

Lemma is_digit_digit_char (n : Z) : is_digit (digit_char n) = true.
Proof.
  unfold digit_char.
  assert (Z.to_nat (n mod 10) < 10)%nat as Hlt
    by (pose proof (Z.mod_pos_bound n 10); lia).
  revert Hlt. generalize (Z.to_nat (n mod 10)). intros k Hk.
  do 10 (destruct k as [|k]; [reflexivity|]). lia.
Qed.

(** Whatever the fields, [isoformat] prints an instant of one of the two
    ISO-8601 shapes. *)
Lemma isoformat_shape (d : datetime) : is_iso8601 (isoformat d +:+ "Z") = true.
Proof.
  unfold is_iso8601, shape, isoformat.
  destruct (microsecond d =? 0);
    cbv [zpad String.append list_ascii_of_string map string_of_list_ascii];
    rewrite !is_digit_digit_char; reflexivity.
Qed.

Lemma py_int_nonzero_truthy (v : pyval) (n : Z) :
  py_int v = Ok n -> n <> 0 -> truthy v = true.
Proof.
  destruct v as [|b|z|s|l|d]; simpl; intros Hv Hn; try discriminate.
  - destruct b; [reflexivity | congruence].
  - injection Hv as ->. apply negb_true_iff, Z.eqb_neq. exact Hn.
  - destruct s; [discriminate | reflexivity].
Qed.

Lemma chrome_datetime_in_range (n : Z) :
  chrome_in_range n -> exists dt, chrome_datetime n = Ok dt.
Proof.
  unfold chrome_in_range, chrome_datetime. intros [Hlo Hhi].
  apply Z.ltb_lt in Hlo. apply Z.leb_le in Hhi. rewrite Hlo, Hhi. simpl.
  destruct (ord2ymd _) as [[y m] d]. eauto.
Qed.

Lemma chrome_datetime_out_of_range (n : Z) :
  ~ chrome_in_range n -> chrome_datetime n = Raise OverflowError.
Proof.
  unfold chrome_in_range, chrome_datetime. intros Hout.
  destruct (0 <? _) eqn:Hlo; simpl; [|reflexivity].
  destruct (_ <=? MAXORDINAL) eqn:Hhi; [|reflexivity].
  apply Z.ltb_lt in Hlo. apply Z.leb_le in Hhi. tauto.
Qed.

Lemma ord2ymd_valid (ord : Z) :
  1 <= ord <= MAXORDINAL ->
  1 <= (ord2ymd ord).1.1 <= 9999 /\ 1 <= (ord2ymd ord).1.2 <= 12 /\
  1 <= (ord2ymd ord).2 <= 31.
Proof.
  unfold MAXORDINAL, ord2ymd. intros Hord.
  set (n0 := ord - 1).
  set (n400 := n0 / 146097). set (r1 := n0 mod 146097).
  set (n100 := r1 / 36524). set (r2 := r1 mod 36524).
  set (n4 := r2 / 1461). set (r3 := r2 mod 1461).
  set (n1 := r3 / 365). set (r4 := r3 mod 365).
  assert (n0 = 146097 * n400 + r1 /\ 0 <= r1 < 146097) as [E1 B1]
    by (subst n400 r1; split; [apply Z.div_mod; lia | apply Z.mod_pos_bound; lia]).
  assert (r1 = 36524 * n100 + r2 /\ 0 <= r2 < 36524) as [E2 B2]
    by (subst n100 r2; split; [apply Z.div_mod; lia | apply Z.mod_pos_bound; lia]).
  assert (r2 = 1461 * n4 + r3 /\ 0 <= r3 < 1461) as [E3 B3]
    by (subst n4 r3; split; [apply Z.div_mod; lia | apply Z.mod_pos_bound; lia]).
  assert (r3 = 365 * n1 + r4 /\ 0 <= r4 < 365) as [E4 B4]
    by (subst n1 r4; split; [apply Z.div_mod; lia | apply Z.mod_pos_bound; lia]).
  assert (0 <= n0 <= 3652058) as B0 by (subst n0; lia).
  clearbody n0 n400 r1 n100 r2 n4 r3 n1 r4.
  assert (0 <= n400 /\ 0 <= n100 /\ 0 <= n4 /\ 0 <= n1) as (P400 & P100 & P4 & P1) by lia.
  destruct ((n1 =? 4) || (n100 =? 4)) eqn:Hend.
  - simpl. split; [|lia].
    apply orb_true_iff in Hend as [Hn%Z.eqb_eq | Hn%Z.eqb_eq]; lia.
  - apply orb_false_iff in Hend as [Hn1%Z.eqb_neq Hn100%Z.eqb_neq].
    rewrite Z.shiftr_div_pow2 by lia. change (2 ^ 5) with 32.
    set (m := (r4 + 50) / 32).
    assert (32 * m <= r4 + 50 < 32 * m + 32) as Bm
      by (subst m; pose proof (Z.div_mod (r4 + 50) 32);
          pose proof (Z.mod_pos_bound (r4 + 50) 32); lia).
    clearbody m.
    generalize ((n1 =? 3) && (negb (n4 =? 24) || (n100 =? 3))). intros leap.
    assert (m = 1 \/ m = 2 \/ m = 3 \/ m = 4 \/ m = 5 \/ m = 6 \/ m = 7 \/ m = 8 \/
            m = 9 \/ m = 10 \/ m = 11 \/ m = 12) as Hm by lia.
    assert (400 * n400 + 100 * n100 + 4 * n4 + n1 <= 9998) as Hy by lia.
    repeat (destruct Hm as [-> | Hm]); try subst m;
      destruct leap; unfold days_before_month, days_in_month;
      repeat match goal with
             | |- context [Z.to_nat ?z] =>
                 let v := eval vm_compute in (Z.to_nat z) in
                 change (Z.to_nat z) with v
             end; cbn;
      match goal with
      | |- context [if ?b then _ else _] => destruct b eqn:Hb
      end; cbn [fst snd];
      try apply Z.ltb_lt in Hb; try apply Z.ltb_ge in Hb;
      repeat match goal with
             | |- context [if ?b then _ else _] => destruct b eqn:?
             end;
      repeat match goal with
             | H : (_ && _) = true |- _ => apply andb_true_iff in H as [?%Z.eqb_eq _]
             end; lia.
Qed.

Lemma chrome_datetime_valid (n : Z) (dt : datetime) :
  chrome_datetime n = Ok dt -> valid_datetime dt.
Proof.
  unfold chrome_datetime.
  destruct (0 <? _) eqn:Hlo; simpl; [|discriminate].
  destruct (_ <=? MAXORDINAL) eqn:Hhi; [|discriminate].
  apply Z.ltb_lt in Hlo. apply Z.leb_le in Hhi.
  pose proof (ord2ymd_valid (ORD_1601 + n / US_PER_DAY) ltac:(lia)) as Hymd.
  destruct (ord2ymd _) as [[y m] d]. simpl in Hymd.
  intros [= <-]. unfold valid_datetime. simpl.
  pose proof (Z.mod_pos_bound n US_PER_DAY ltac:(reflexivity)) as Hrem.
  unfold US_PER_DAY in *.
  set (rem := n mod 86400000000) in *. clearbody rem.
  pose proof (Z.mod_pos_bound (rem / 60000000) 60 ltac:(lia)).
  pose proof (Z.mod_pos_bound (rem / 1000000) 60 ltac:(lia)).
  pose proof (Z.mod_pos_bound rem 1000000 ltac:(lia)).
  assert (0 <= rem / 3600000000 <= 23)
    by (split; [apply Z.div_pos; lia | apply Z.lt_succ_r, Z.div_lt_upper_bound; lia]).
  lia.
Qed.

(** ** The effect monad *)

Lemma frame_refl (w : world) : frame w w.
Proof. repeat split. Qed.

Lemma frame_trans (w1 w2 w3 : world) : frame w1 w2 -> frame w2 w3 -> frame w1 w3.
Proof.
  intros (Hd & Hu & Hf) (Hd' & Hu' & Hf'). repeat split; try congruence.
  intros p Hp. rewrite Hf', Hf by assumption. reflexivity.
Qed.

Lemma frames_ret {A} (a : A) : frames (mret a).
Proof. intros w r w' [= <- <-]. apply frame_refl. Qed.

Lemma frames_lift {A} (o : outcome A) : frames (lift o).
Proof. intros w r w' [= <- <-]. apply frame_refl. Qed.

Lemma frames_bind {A B} (m : M A) (f : A -> M B) :
  frames m -> (forall a, frames (f a)) -> frames (m ≫= f).
Proof.
  intros Hm Hf w r w'. unfold mbind, M_bind.
  destruct (m w) as [[a|e] w1] eqn:Em; intros Hr.
  - eapply frame_trans; [eapply Hm, Em | eapply Hf, Hr].
  - injection Hr as <- <-. eapply Hm, Em.
Qed.

Lemma frames_try_except {A} (body handler : M A) (cls : exn) :
  frames body -> frames handler -> frames (try_except body cls handler).
Proof.
  intros Hb Hh w r w'. unfold try_except.
  destruct (body w) as [[a|e] w1] eqn:Eb; intros Hr.
  - injection Hr as <- <-. eapply Hb, Eb.
  - destruct (decide (e = cls)).
    + eapply frame_trans; [eapply Hb, Eb | eapply Hh, Hr].
    + injection Hr as <- <-. eapply Hb, Eb.
Qed.

Lemma frames_say (e : event) : frames (say e).
Proof. intros w r w' [= <- <-]. repeat split. Qed.

Lemma frames_path_exists (p : string) : frames (path_exists p).
Proof. intros w r w' [= <- <-]. apply frame_refl. Qed.

Lemma frames_read_file (p : string) : frames (read_file p).
Proof.
  intros w r w'. unfold read_file.
  destruct (files w !! p); intros [= <- <-]; apply frame_refl.
Qed.

Lemma frames_os_walk (p : string) : frames (os_walk p).
Proof. intros w r w' [= <- <-]. apply frame_refl. Qed.

Lemma frames_write_tmp (q : string) (c : content) : frames (write_file (q +:+ ".tmp") c).
Proof.
  intros w r w'. unfold write_file.
  destruct (_ || _); intros [= <- <-]; [apply frame_refl|].
  repeat split. intros p Hp. simpl. apply lookup_insert_ne.
  intros <-. rewrite ends_with_app in Hp. discriminate.
Qed.

Lemma frames_copy2_tmp (src q : string) : frames (copy2 src (q +:+ ".tmp")).
Proof.
  apply frames_bind; [apply frames_read_file | intros c; apply frames_write_tmp].
Qed.

Lemma frames_remove_tmp (q : string) : frames (os_remove (q +:+ ".tmp")).
Proof.
  intros w r w'. unfold os_remove.
  destruct (files w !! _); intros [= <- <-]; [|apply frame_refl].
  repeat split. intros p Hp. simpl. apply lookup_delete_ne.
  intros <-. rewrite ends_with_app in Hp. discriminate.
Qed.

Lemma frames_for_each {A S} (body : A -> S -> M S) (items : list A) :
  Forall (fun x => forall s, frames (body x s)) items ->
  forall s, frames (for_each body items s).
Proof.
  induction 1 as [|x items Hx _ IH]; intros s; simpl.
  - apply frames_ret.
  - apply frames_bind; [apply Hx | exact IH].
Qed.

Create HintDb frames.
#[local] Hint Resolve frames_ret frames_lift frames_say frames_path_exists
  frames_read_file frames_os_walk frames_write_tmp frames_copy2_tmp frames_remove_tmp
  : frames.

Ltac frames_step :=
  repeat first
    [ apply frames_bind; [| intros ?]
    | apply frames_try_except
    | progress auto with frames
    | match goal with
      | |- frames (if ?b then _ else _) => destruct b
      | |- frames (match ?x with _ => _ end) => destruct x
      | |- frames (let _ := _ in _) => cbv zeta
      end ].

Section FrameOfParsers.

Context `{Platform}.

Lemma frames_get_favicon_base64 (db_path url : string) :
  frames (get_favicon_base64 db_path url).
Proof. unfold get_favicon_base64. frames_step. Qed.

Lemma node_forall_ind (P : node -> Prop) :
  (forall type name url date_added, P (Node type name url date_added None)) ->
  (forall type name url date_added cs,
      Forall P cs -> P (Node type name url date_added (Some cs))) ->
  forall n, P n.
Proof.
  intros Hleaf Hnode. fix IH 1. intros [type name url date_added [cs|]].
  - apply Hnode. revert cs. fix IHcs 1. intros [|c cs].
    + constructor.
    + constructor; [apply IH | apply IHcs].
  - apply Hleaf.
Qed.

Lemma frames_recurse_nodes (b : string) (inc : bool) (fav : option string) (n : node) :
  forall folder_path bookmarks,
    frames (recurse_nodes b inc fav n folder_path bookmarks).
Proof.
  induction n as [type name url date_added | type name url date_added cs IH]
    using node_forall_ind; intros folder_path bookmarks; simpl.
  - frames_step; apply frames_get_favicon_base64.
  - destruct (decide (type = Some "url")); [frames_step; apply frames_get_favicon_base64|].
    destruct (decide (type = Some "folder")); [|apply frames_ret].
    apply frames_for_each. eapply Forall_impl; [exact IH|].
    intros c Hc s. apply Hc.
Qed.

Lemma frames_parse_chromium_bookmarks (file_path b : string) (inc : bool) :
  frames (parse_chromium_bookmarks file_path b inc).
Proof.
  unfold parse_chromium_bookmarks, each_root. frames_step.
  apply frames_for_each, Forall_forall. intros root _ s. apply frames_recurse_nodes.
Qed.

Lemma frames_parse_firefox_bookmarks (profiles_path b : string) (inc : bool) :
  frames (parse_firefox_bookmarks profiles_path b inc).
Proof. unfold parse_firefox_bookmarks. frames_step. Qed.

Lemma frames_parse_browser (a : args) (b : string) : frames (parse_browser a b).
Proof.
  unfold parse_browser. apply frames_bind; [apply frames_lift | intros p].
  destruct (String.eqb b "firefox");
    [apply frames_parse_firefox_bookmarks | apply frames_parse_chromium_bookmarks].
Qed.

Lemma frames_scan (a : args) (browsers : list string) (st : pyval * gset key) :
  frames (scan a browsers st).
Proof.
  unfold scan. apply frames_for_each, Forall_forall. intros b _ s.
  apply frames_bind; [apply frames_parse_browser | intros new; apply frames_lift].
Qed.

Lemma frames_load_existing (a : args) : frames (load_existing a).
Proof. unfold load_existing. frames_step. Qed.

End FrameOfParsers.

Lemma bind_inv {A B} (m : M A) (f : A -> M B) (w w' : world) (r : outcome B) :
  (m ≫= f) w = (r, w') ->
  (exists a w1, m w = (Ok a, w1) /\ f a w1 = (r, w')) \/
  (exists e, m w = (Raise e, w') /\ r = Raise e).
Proof.
  unfold mbind, M_bind. destruct (m w) as [[a|e] w1]; intros Hr.
  - left. eauto.
  - right. injection Hr as <- <-. eauto.
Qed.

Lemma bind_ok {A B} (m : M A) (f : A -> M B) (w w' : world) (b : B) :
  (m ≫= f) w = (Ok b, w') ->
  exists a w1, m w = (Ok a, w1) /\ f a w1 = (Ok b, w').
Proof.
  intros Hr. apply bind_inv in Hr as [Hr | (e & _ & He)]; [exact Hr | discriminate].
Qed.

Lemma try_except_ok {A} (body handler : M A) (cls : exn) (w w' : world) (a : A) :
  try_except body cls handler w = (Ok a, w') ->
  body w = (Ok a, w') \/
  (exists w1, body w = (Raise cls, w1) /\ handler w1 = (Ok a, w')).
Proof.
  unfold try_except. destruct (body w) as [[x|e] w1]; intros Hr.
  - left. exact Hr.
  - destruct (decide (e = cls)) as [->|]; [right; eauto | discriminate].
Qed.

Lemma lift_ok {A} (o : outcome A) (w w' : world) (a : A) :
  lift o w = (Ok a, w') -> o = Ok a /\ w' = w.
Proof. intros [= -> ->]. split; reflexivity. Qed.

Lemma ret_ok {A} (x a : A) (w w' : world) :
  (mret x : M A) w = (Ok a, w') -> a = x /\ w' = w.
Proof. intros [= -> ->]. split; reflexivity. Qed.

Lemma obind_ok {A B} (o : outcome A) (f : A -> outcome B) (b : B) :
  o ≫= f = Ok b -> exists a, o = Ok a /\ f a = Ok b.
Proof. destruct o as [a|e]; simpl; [eauto | discriminate]. Qed.

Lemma for_each_pure_ok {A S} (body : A -> S -> outcome S) (I : list A -> S -> Prop)
    (items : list A) :
  (forall done x s s', I done s -> body x s = Ok s' -> I (done ++ [x]) s') ->
  forall done s s',
    I done s -> for_each_pure body items s = Ok s' -> I (done ++ items) s'.
Proof.
  intros Hstep. induction items as [|x items IH]; intros done s s' HI Hrun.
  - injection Hrun as <-. rewrite app_nil_r. exact HI.
  - simpl in Hrun. apply obind_ok in Hrun as (s1 & Hx & Hrest).
    replace (done ++ x :: items) with ((done ++ [x]) ++ items)
      by (rewrite <- app_assoc; reflexivity).
    eapply IH; [|exact Hrest]. eapply Hstep; eassumption.
Qed.

Lemma convert_chrome_time_null_or_str (v d : pyval) :
  convert_chrome_time v = Ok d -> null_or_str d.
Proof.
  unfold convert_chrome_time, null_or_str.
  destruct (negb (truthy v)); [intros [= <-]; auto|].
  destruct (py_int v) as [n|e]; simpl; [|discriminate].
  destruct (n =? 0); [intros [= <-]; auto|].
  destruct (chrome_datetime n); simpl; [|discriminate].
  intros [= <-]. eauto.
Qed.

Section ParserOutput.

Context `{Platform}.

Lemma convert_firefox_time_null_or_str (v d : pyval) :
  convert_firefox_time v = Ok d -> null_or_str d.
Proof.
  unfold convert_firefox_time, null_or_str.
  destruct (negb (truthy v)); [intros [= <-]; auto|].
  destruct (py_int v) as [n|e]; simpl; [|discriminate].
  destruct (n =? 0); [intros [= <-]; auto|].
  destruct (fromtimestamp n); simpl; [|discriminate].
  intros [= <-]. eauto.
Qed.

Lemma get_favicon_base64_null_or_str (db_path url : string) (w w' : world) (v : pyval) :
  get_favicon_base64 db_path url w = (Ok v, w') -> null_or_str v.
Proof.
  unfold get_favicon_base64, null_or_str. intros Hrun.
  apply bind_ok in Hrun as (ex & w1 & _ & Hrun).
  destruct (negb ex); [apply ret_ok in Hrun as [-> _]; auto|].
  apply bind_ok in Hrun as (found & w2 & Htry & Hrun).
  destruct found as [x|]; apply ret_ok in Hrun as [-> _]; [|auto].
  apply try_except_ok in Htry as [Hbody | (w3 & _ & Hh)].
  - cbv zeta in Hbody.
    apply bind_ok in Hbody as (? & ? & _ & Hbody).
    apply bind_ok in Hbody as (? & ? & _ & Hbody).
    apply bind_ok in Hbody as (? & ? & _ & Hbody).
    apply bind_ok in Hbody as (result & ? & _ & Hbody).
    apply bind_ok in Hbody as (? & ? & _ & Hbody).
    destruct result as [[|b data]|]; apply ret_ok in Hbody as [[=] _]; subst; eauto.
  - apply bind_ok in Hh as (? & ? & _ & Hh). apply ret_ok in Hh as [[=] _].
Qed.

End ParserOutput.

(** ** Folder paths *)

Lemma join_slash_snoc (l : list string) (n : string) :
  l <> [] -> join_slash (l ++ [n]) = join_slash l +:+ "/" +:+ n.
Proof.
  unfold join_slash. induction l as [|x l IH]; [congruence|]. intros _.
  destruct l as [|y l]; [reflexivity|].
  change ((x :: y :: l) ++ [n]) with (x :: (y :: l) ++ [n]).
  change (String.concat "/" (x :: (y :: l) ++ [n]))
    with (x +:+ "/" +:+ String.concat "/" ((y :: l) ++ [n])).
  rewrite IH by discriminate.
  change (String.concat "/" (x :: y :: l))
    with (x +:+ "/" +:+ String.concat "/" (y :: l)).
  rewrite !app_assoc_str. reflexivity.
Qed.

Lemma drop_empty_head (names : list string) :
  drop_empty names = [] \/
  exists x rest, drop_empty names = x :: rest /\ x <> "".
Proof.
  induction names as [|n names IH]; simpl; [auto|].
  destruct (nonempty n) eqn:Hn; [|exact IH].
  right. exists n, names. split; [reflexivity | apply nonempty_true, Hn].
Qed.

Lemma drop_empty_app (names l : list string) :
  drop_empty (names ++ l) =
  match drop_empty names with
  | [] => drop_empty l
  | kept => kept ++ l
  end.
Proof.
  induction names as [|n names IH]; simpl; [reflexivity|].
  destruct (nonempty n); [reflexivity | exact IH].
Qed.

Lemma join_slash_cons_nonempty (x : string) (rest : list string) :
  x <> "" -> join_slash (x :: rest) <> "".
Proof.
  unfold join_slash. intros Hx. destruct x as [|c x]; [congruence|].
  destruct rest; simpl; [discriminate|]. rewrite app_cons_str. discriminate.
Qed.

(** The path is empty exactly when every folder above has an empty name. *)
Lemma folder_path_of_empty (names : list string) :
  folder_path_of names = "" <-> Forall (fun n => n = "") names.
Proof.
  unfold folder_path_of. induction names as [|n names IH]; simpl.
  - split; [constructor | reflexivity].
  - destruct (nonempty n) eqn:Hn.
    + apply nonempty_true in Hn. split.
      * intros Hj. exfalso. eapply join_slash_cons_nonempty; eassumption.
      * intros Hall. inversion Hall; congruence.
    + apply nonempty_false in Hn. rewrite IH. split.
      * intros Hall. constructor; assumption.
      * intros Hall. inversion Hall; assumption.
Qed.

(** One step of the walk: entering a folder extends the path by its name. *)
Lemma folder_path_of_snoc (above : list string) (name : string) :
  (if nonempty (folder_path_of above)
   then folder_path_of above +:+ "/" +:+ name else name) =
  folder_path_of (above ++ [name]).
Proof.
  unfold folder_path_of. rewrite drop_empty_app.
  destruct (drop_empty_head above) as [-> | (x & rest & -> & Hx)].
  - simpl. destruct (nonempty name) eqn:Hn; [reflexivity|].
    apply nonempty_false in Hn. subst. reflexivity.
  - pose proof (join_slash_cons_nonempty x rest Hx) as Hj.
    apply nonempty_true in Hj. rewrite Hj.
    rewrite join_slash_snoc by discriminate. reflexivity.
Qed.

Lemma null_or_str_opt_str (o : option string) : null_or_str (opt_str o).
Proof. destruct o; [right; eauto | left; reflexivity]. Qed.

Section ChromiumWalk.

Context `{Platform}.

(** The walk appends, for each url node it accepts and in the order of
    [url_leaves], the record of that node. *)
Lemma recurse_nodes_emits (b : string) (inc : bool) (fav : option string) (n : node) :
  forall above bookmarks w bookmarks' w',
    recurse_nodes b inc fav n (folder_path_of above) bookmarks w = (Ok bookmarks', w') ->
    exists added,
      bookmarks' = bookmarks ++ added /\
      Forall2 (chromium_record b inc) (url_leaves n above) added.
Proof.
  assert (forall name url date_added above bookmarks w bookmarks' w',
    (match url with
       | None => mret bookmarks
       | Some url =>
         if negb (nonempty url) || negb (http_prefixed url) then mret bookmarks
         else
           let tags := path_tags (folder_path_of above) in
           favicon ← match inc, fav with
                     | true, Some db_path =>
                         if nonempty db_path then get_favicon_base64 db_path url
                         else mret PNone
                     | _, _ => mret PNone
                     end;
           dateAdded ← lift (convert_chrome_time date_added);
           mret (bookmarks ++
                 [make_record (opt_str name) url (folder_path_of above) tags favicon
                              b dateAdded PNone])
       end) w = (Ok bookmarks', w') ->
    exists added,
      bookmarks' = bookmarks ++ added /\
      Forall2 (chromium_record b inc)
        (match accepted_url url with Some u => [(above, u)] | None => [] end)
        added) as Hleaf.
  { intros name url date_added above bookmarks w bookmarks' w' Hrun.
    destruct url as [u|]; simpl.
    2:{ apply ret_ok in Hrun as [-> _]. exists []. rewrite app_nil_r. auto. }
    destruct (nonempty u) eqn:Hn; simpl in *.
    2:{ apply ret_ok in Hrun as [-> _]. exists []. rewrite app_nil_r. auto. }
    destruct (http_prefixed u) eqn:Hp; simpl in *.
    2:{ apply ret_ok in Hrun as [-> _]. exists []. rewrite app_nil_r. auto. }
    apply bind_ok in Hrun as (favicon & w1 & Hfav & Hrun).
    apply bind_ok in Hrun as (dateAdded & w2 & Hdate & Hrun).
    apply lift_ok in Hdate as [Hdate ->].
    apply ret_ok in Hrun as [-> _].
    eexists. split; [reflexivity|]. constructor; [|constructor].
    exists (opt_str name), favicon, dateAdded. simpl.
    split; [reflexivity|]. split; [apply nonempty_true, Hn|]. split; [exact Hp|].
    split; [apply null_or_str_opt_str|].
    assert (null_or_str favicon /\ (inc = false -> favicon = PNone)) as [? ?].
    { destruct inc.
      - split; [|discriminate]. destruct fav as [db_path|].
        + destruct (nonempty db_path).
          * eapply get_favicon_base64_null_or_str, Hfav.
          * apply ret_ok in Hfav as [-> _]. left. reflexivity.
        + apply ret_ok in Hfav as [-> _]. left. reflexivity.
      - apply ret_ok in Hfav as [-> _]. split; [left|]; reflexivity. }
    repeat split; try assumption.
    eapply convert_chrome_time_null_or_str, Hdate. }
  induction n as [type name url date_added | type name url date_added cs IH]
    using node_forall_ind; intros above bookmarks w bookmarks' w' Hrun.
  - simpl in *. destruct (decide (type = Some "url")).
    + eapply Hleaf, Hrun.
    + destruct (decide (type = Some "folder")); apply ret_ok in Hrun as [-> _];
        exists []; rewrite app_nil_r; auto.
  - simpl in *. destruct (decide (type = Some "url")).
    + eapply Hleaf, Hrun.
    + destruct (decide (type = Some "folder")).
      2:{ apply ret_ok in Hrun as [-> _]. exists []. rewrite app_nil_r. auto. }
      rewrite folder_path_of_snoc in Hrun.
      clear Hleaf. revert bookmarks w Hrun.
      induction IH as [|c cs Hc _ IHcs]; intros bookmarks w Hrun.
      * apply ret_ok in Hrun as [-> _]. exists []. rewrite app_nil_r. auto.
      * simpl in Hrun. apply bind_ok in Hrun as (b1 & w1 & Hchild & Hrest).
        apply Hc in Hchild as (added1 & -> & Hadded1).
        apply IHcs in Hrest as (added2 & -> & Hadded2).
        exists (added1 ++ added2). rewrite app_assoc. split; [reflexivity|].
        simpl. apply Forall2_app; assumption.
Qed.

Lemma each_root_emits (b : string) (inc : bool) (fav : option string)
    (roots : list (string * node)) :
  forall bookmarks w bookmarks' w',
    each_root b inc fav roots bookmarks w = (Ok bookmarks', w') ->
    exists added,
      bookmarks' = bookmarks ++ added /\
      Forall2 (chromium_record b inc)
              (flat_map (fun root => url_leaves root.2 []) roots) added.
Proof.
  unfold each_root. induction roots as [|root roots IH]; intros bookmarks w bookmarks' w' Hrun.
  - apply ret_ok in Hrun as [-> _]. exists []. rewrite app_nil_r. auto.
  - simpl in Hrun. apply bind_ok in Hrun as (b1 & w1 & Hroot & Hrest).
    apply (recurse_nodes_emits b inc fav root.2 []) in Hroot as (added1 & -> & Hadded1).
    apply IH in Hrest as (added2 & -> & Hadded2).
    exists (added1 ++ added2). rewrite app_assoc. split; [reflexivity|].
    simpl. apply Forall2_app; assumption.
Qed.

(** What [parse_chromium_bookmarks] returns on a bookmarks document. *)
Lemma parse_chromium_bookmarks_emits (file_path b : string) (inc : bool)
    (w w' : world) (bookmarks : list pyval) (roots : list (string * node)) :
  files w !! file_path = Some (BookmarksJson roots) ->
  parse_chromium_bookmarks file_path b inc w = (Ok bookmarks, w') ->
  Forall2 (chromium_record b inc)
          (flat_map (fun root => url_leaves root.2 []) roots) bookmarks.
Proof.
  intros Hfile Hrun. unfold parse_chromium_bookmarks in Hrun.
  apply bind_ok in Hrun as (ex & w1 & Hex & Hrun).
  injection Hex as <- <-. rewrite Hfile in Hrun. simpl in Hrun.
  apply bind_ok in Hrun as (? & w2 & Hsay & Hrun). injection Hsay as _ <-.
  apply bind_ok in Hrun as (f & w3 & Hread & Hrun).
  unfold read_file in Hread. simpl in Hread. rewrite Hfile in Hread.
  injection Hread as <- <-.
  apply bind_ok in Hrun as (roots' & w4 & Hroots & Hrun).
  apply lift_ok in Hroots as [[= <-] ->].
  apply bind_ok in Hrun as (bm & w5 & Heach & Hrun).
  apply bind_ok in Hrun as (? & w6 & _ & Hrun).
  apply ret_ok in Hrun as [-> _].
  apply each_root_emits in Heach as (added & -> & Hadded). exact Hadded.
Qed.

End ChromiumWalk.

Lemma chromium_record_emitted (b : string) (inc : bool) (leaf : list string * string)
    (r : pyval) :
  chromium_record b inc leaf r -> emitted b inc r.
Proof.
  intros (name & favicon & dateAdded & -> & Hne & Hp & Hn & Hf & Hi & Hd).
  exists name, leaf.2, (folder_path_of leaf.1), favicon, dateAdded, PNone.
  repeat split; try assumption. left. reflexivity.
Qed.

Lemma Forall2_Forall_r {A B} (R : A -> B -> Prop) (P : B -> Prop) (l : list A) (k : list B) :
  (forall x y, R x y -> P y) -> Forall2 R l k -> Forall P k.
Proof. intros HRP. induction 1; constructor; eauto. Qed.

Section ParsersEmit.

Context `{Platform}.

Lemma parse_chromium_bookmarks_emitted (file_path b : string) (inc : bool)
    (w w' : world) (bookmarks : list pyval) :
  parse_chromium_bookmarks file_path b inc w = (Ok bookmarks, w') ->
  Forall (emitted b inc) bookmarks.
Proof.
  intros Hrun. unfold parse_chromium_bookmarks in Hrun.
  apply bind_ok in Hrun as (ex & w1 & _ & Hrun).
  destruct (negb ex).
  { apply bind_ok in Hrun as (? & ? & _ & Hrun). apply ret_ok in Hrun as [-> _].
    constructor. }
  apply bind_ok in Hrun as (? & w2 & _ & Hrun).
  apply bind_ok in Hrun as (f & w3 & _ & Hrun).
  apply bind_ok in Hrun as (roots & w4 & _ & Hrun).
  apply bind_ok in Hrun as (bm & w5 & Heach & Hrun).
  apply bind_ok in Hrun as (? & w6 & _ & Hrun).
  apply ret_ok in Hrun as [-> _].
  apply each_root_emits in Heach as (added & -> & Hadded).
  eapply Forall2_Forall_r; [|exact Hadded]. apply chromium_record_emitted.
Qed.

Lemma firefox_row_emits (b : string) (inc : bool) (row : ff_row)
    (bookmarks bookmarks' : list pyval) :
  firefox_row b inc row bookmarks = Ok bookmarks' ->
  exists added, bookmarks' = bookmarks ++ added /\ Forall (emitted b inc) added.
Proof.
  unfold firefox_row. intros Hrun.
  destruct (row_url row) as [u|].
  2:{ injection Hrun as <-. exists []. rewrite app_nil_r. auto. }
  destruct (nonempty u) eqn:Hn; simpl in Hrun.
  2:{ injection Hrun as <-. exists []. rewrite app_nil_r. auto. }
  destruct (http_prefixed u) eqn:Hp; simpl in Hrun.
  2:{ injection Hrun as <-. exists []. rewrite app_nil_r. auto. }
  apply obind_ok in Hrun as (dateAdded & Hdate & Hrun).
  apply obind_ok in Hrun as (lastVisited & Hlast & Hrun).
  injection Hrun as <-. eexists. split; [reflexivity|].
  constructor; [|constructor].
  eexists (opt_str (row_name row)), u, (default "" (row_category row)), _,
    dateAdded, lastVisited.
  split.
  { f_equal. destruct (row_category row) as [c|]; [|reflexivity].
    simpl. destruct (nonempty c) eqn:Hc; [reflexivity|].
    apply nonempty_false in Hc. subst. reflexivity. }
  split; [apply nonempty_true, Hn|]. split; [exact Hp|].
  split; [apply null_or_str_opt_str|].
  split. { destruct inc, (row_favicon_data row); [left|right|left|left]; eauto. }
  split. { intros ->. reflexivity. }
  split; eapply convert_firefox_time_null_or_str; eassumption.
Qed.

Lemma firefox_rows_emits (b : string) (inc : bool) (rows : list ff_row)
    (bookmarks : list pyval) :
  firefox_rows b inc rows [] = Ok bookmarks -> Forall (emitted b inc) bookmarks.
Proof.
  unfold firefox_rows. intros Hrun.
  eapply (for_each_pure_ok _ (fun _ s => Forall (emitted b inc) s) rows) with (done := []);
    [| constructor | exact Hrun].
  intros done row s s' Hs Hrow.
  apply firefox_row_emits in Hrow as (added & -> & Hadded).
  apply Forall_app. split; assumption.
Qed.

Lemma parse_firefox_bookmarks_emitted (profiles_path b : string) (inc : bool)
    (w w' : world) (bookmarks : list pyval) :
  parse_firefox_bookmarks profiles_path b inc w = (Ok bookmarks, w') ->
  Forall (emitted b inc) bookmarks.
Proof.
  intros Hrun. unfold parse_firefox_bookmarks in Hrun.
  apply bind_ok in Hrun as (ex & w1 & _ & Hrun).
  destruct (negb ex).
  { apply bind_ok in Hrun as (? & ? & _ & Hrun). apply ret_ok in Hrun as [-> _].
    constructor. }
  apply bind_ok in Hrun as (walk & w2 & _ & Hrun).
  destruct (negb (nonempty (find_places walk))).
  { apply bind_ok in Hrun as (? & ? & _ & Hrun). apply ret_ok in Hrun as [-> _].
    constructor. }
  apply bind_ok in Hrun as (? & w3 & _ & Hrun).
  apply try_except_ok in Hrun as [Hbody | (w4 & _ & Hh)].
  - cbv zeta in Hbody.
    apply bind_ok in Hbody as (? & ? & _ & Hbody).
    apply bind_ok in Hbody as (? & ? & _ & Hbody).
    apply bind_ok in Hbody as (rows & ? & _ & Hbody).
    apply bind_ok in Hbody as (bm & ? & Hrows & Hbody).
    apply bind_ok in Hbody as (? & ? & _ & Hbody).
    apply bind_ok in Hbody as (? & ? & _ & Hbody).
    apply ret_ok in Hbody as [-> _].
    apply lift_ok in Hrows as [Hrows _].
    eapply firefox_rows_emits, Hrows.
  - apply bind_ok in Hh as (? & ? & _ & Hh). apply ret_ok in Hh as [-> _].
    constructor.
Qed.

Lemma parse_browser_emitted (a : args) (b : string) (w w' : world)
    (bookmarks : list pyval) :
  parse_browser a b w = (Ok bookmarks, w') ->
  Forall (emitted b (include_favicons a)) bookmarks.
Proof.
  unfold parse_browser. intros Hrun.
  apply bind_ok in Hrun as (p & w1 & _ & Hrun).
  destruct (String.eqb b "firefox").
  - eapply parse_firefox_bookmarks_emitted, Hrun.
  - eapply parse_chromium_bookmarks_emitted, Hrun.
Qed.

End ParsersEmit.

(** An emitted record has a string url: its dedup key is that string. *)
Lemma emitted_url_key (b : string) (inc : bool) (r : pyval) :
  emitted b inc r -> exists url, field "url" r = Some (PStr url) /\ url_key r = Ok (KStr url).
Proof.
  intros (name & url & category & favicon & dateAdded & lastVisited & -> & _).
  exists url. split; reflexivity.
Qed.

(** ** Merging *)

Lemma for_each_pure_app {A S} (body : A -> S -> outcome S) (l1 l2 : list A) (s : S) :
  for_each_pure body (l1 ++ l2) s = for_each_pure body l1 s ≫= for_each_pure body l2.
Proof.
  revert s. induction l1 as [|x l1 IH]; intros s; simpl; [reflexivity|].
  destruct (body x s) as [s1|e]; simpl; [apply IH | reflexivity].
Qed.

Lemma seen_after_app (seen : gset key) (l1 l2 : list pyval) :
  seen_after seen (l1 ++ l2) = seen_after (seen_after seen l1) l2.
Proof.
  revert seen. induction l1 as [|b l1 IH]; intros seen; simpl; [reflexivity|].
  destruct (url_key b); apply IH.
Qed.

Lemma first_seen_app (seen : gset key) (l1 l2 : list pyval) :
  first_seen seen (l1 ++ l2) = first_seen seen l1 ++ first_seen (seen_after seen l1) l2.
Proof.
  revert seen. induction l1 as [|b l1 IH]; intros seen; simpl; [reflexivity|].
  destruct (url_key b) as [k|e]; [|apply IH].
  case_bool_decide as Hk.
  - rewrite IH. do 2 f_equal. f_equal. symmetry. apply subseteq_union_1_L.
    apply singleton_subseteq_l, Hk.
  - simpl. rewrite IH. reflexivity.
Qed.

(** The records kept have pairwise distinct keys, none of them seen before. *)
Lemma first_seen_keys (seen : gset key) (l : list pyval) :
  exists ks, keys_of (first_seen seen l) ks /\ NoDup ks /\
             (forall k, k ∈ ks -> k ∉ seen) /\
             seen_after seen l = seen ∪ list_to_set ks.
Proof.
  revert seen. induction l as [|b l IH]; intros seen; simpl.
  - exists []. repeat split; [constructor | constructor | set_solver | set_solver].
  - destruct (url_key b) as [k|e] eqn:Hb.
    + case_bool_decide as Hk.
      * destruct (IH seen) as (ks & Hks & Hnd & Hnew & Hseen).
        exists ks. repeat split; try assumption.
        replace ({[k]} ∪ seen) with seen; [exact Hseen|].
        symmetry. apply subseteq_union_1_L, singleton_subseteq_l, Hk.
      * destruct (IH ({[k]} ∪ seen)) as (ks & Hks & Hnd & Hnew & Hseen).
        exists (k :: ks). split; [constructor; assumption|].
        split. { constructor; [|exact Hnd]. intros Hin. apply Hnew in Hin. set_solver. }
        split. { intros k' [->|Hin]%elem_of_cons; [exact Hk|].
                 apply Hnew in Hin. set_solver. }
        rewrite Hseen. set_solver.
    + apply IH.
Qed.

(** A kept record is the first record of the sequence with its key. *)
Lemma first_seen_first (seen : gset key) (l : list pyval) (b : pyval) (k : key) :
  (b ∈ first_seen seen l) -> url_key b = Ok k ->
  (k ∉ seen) /\ first_with_key k l = Some b.
Proof.
  unfold first_with_key. revert seen.
  induction l as [|x l IH]; intros seen Hin Hb; simpl in *; [inversion Hin|].
  destruct (url_key x) as [kx|e] eqn:Hx.
  - case_bool_decide as Hk.
    + destruct (IH seen Hin Hb) as [Hnew Hfind]. split; [exact Hnew|].
      case_decide as Heq; [congruence|].
      rewrite <- Hfind. destruct (list_find _ l) as [[i y]|]; reflexivity.
    + apply elem_of_cons in Hin as [->|Hin].
      * assert (kx = k) as -> by congruence. split; [exact Hk|].
        rewrite decide_True by reflexivity. reflexivity.
      * destruct (IH _ Hin Hb) as [Hnew Hfind].
        split; [set_solver|].
        case_decide as Heq; [exfalso; set_solver|].
        rewrite <- Hfind. destruct (list_find _ l) as [[i y]|]; reflexivity.
  - destruct (IH seen Hin Hb) as [Hnew Hfind]. split; [exact Hnew|].
    case_decide as Heq; [congruence|].
    rewrite <- Hfind. destruct (list_find _ l) as [[i y]|]; reflexivity.
Qed.

(** Every key met is either seen before or kept. *)
Lemma first_seen_covers (seen : gset key) (l : list pyval) (x : pyval) (k : key) :
  x ∈ l -> url_key x = Ok k ->
  k ∈ seen \/ exists b, b ∈ first_seen seen l /\ url_key b = Ok k.
Proof.
  revert seen. induction l as [|y l IH]; intros seen Hin Hx; [inversion Hin|].
  simpl. apply elem_of_cons in Hin as [<-|Hin].
  - rewrite Hx. case_bool_decide; [left; assumption|].
    right. exists x. split; [left | exact Hx].
  - destruct (url_key y) as [ky|e] eqn:Hy.
    + case_bool_decide as Hk; [apply IH; assumption|].
      destruct (IH ({[ky]} ∪ seen) Hin Hx) as [Hseen | (b & Hb & Hkb)].
      * apply elem_of_union in Hseen as [->%elem_of_singleton | Hseen]; [|left; exact Hseen].
        right. exists y. split; [left | exact Hy].
      * right. exists b. split; [right; exact Hb | exact Hkb].
    + apply IH; assumption.
Qed.

Lemma py_append_iter (v x v' : pyval) :
  py_append v x = Ok v' ->
  exists l, v = PList l /\ v' = PList (l ++ [x]).
Proof. destruct v; simpl; try discriminate. intros [= <-]. eauto. Qed.

(** What the merge loop computes. *)
Lemma merge_new_items (news : list pyval) :
  forall v seen v' seen' items,
    merge_new news (v, seen) = Ok (v', seen') ->
    py_iter v = Ok items ->
    py_iter v' = Ok (items ++ first_seen seen news) /\ seen' = seen_after seen news /\
    (first_seen seen news = [] -> v' = v).
Proof.
  unfold merge_new. induction news as [|b news IH]; intros v seen v' seen' items Hrun Hit.
  - injection Hrun as <- <-. simpl. rewrite app_nil_r. auto.
  - simpl in Hrun. apply obind_ok in Hrun as ([v1 seen1] & Hone & Hrest).
    unfold merge_one in Hone. apply obind_ok in Hone as (k & Hk & Hone).
    simpl in *. rewrite Hk. case_bool_decide as Hseen.
    + injection Hone as <- <-.
      destruct (IH _ _ _ _ _ Hrest Hit) as (? & ? & ?). repeat split; try assumption.
      subst. f_equal. symmetry. apply subseteq_union_1_L, singleton_subseteq_l, Hseen.
    + apply obind_ok in Hone as (v2 & Happ & Hone). injection Hone as <- <-.
      apply py_append_iter in Happ as (l & -> & ->). simpl in Hit. injection Hit as <-.
      destruct (IH _ _ _ _ (l ++ [b]) Hrest eq_refl) as (Hv' & ? & ?).
      rewrite <- app_assoc in Hv'. repeat split; try assumption. discriminate.
Qed.

(** Records that are all seen already leave the collection as it is. *)
Lemma merge_new_nothing_new (news : list pyval) (v : pyval) (seen : gset key) :
  Forall (fun b => exists k, url_key b = Ok k /\ k ∈ seen) news ->
  merge_new news (v, seen) = Ok (v, seen).
Proof.
  unfold merge_new. induction 1 as [|b news (k & Hk & Hin) _ IH]; [reflexivity|].
  cbn [for_each_pure].
  assert (merge_one b (v, seen) = Ok (v, seen)) as ->; [|exact IH].
  unfold merge_one. rewrite Hk. simpl.
  rewrite bool_decide_eq_true_2 by exact Hin. reflexivity.
Qed.

Lemma add_urls_keys (items : list pyval) (processed : gset key) :
  add_urls items ∅ = Ok processed ->
  exists ks, keys_of items ks /\ processed = list_to_set ks.
Proof.
  unfold add_urls. intros Hrun.
  refine (for_each_pure_ok _
            (fun done s => exists ks, keys_of done ks /\ s = list_to_set ks) items
            _ [] ∅ processed _ Hrun);
    [| exists []; split; [constructor | reflexivity]].
  intros done x s s' (ks & Hks & ->) Hstep.
  apply obind_ok in Hstep as (k & Hk & [= <-]).
  exists (ks ++ [k]). split.
  - apply Forall2_app; [exact Hks | constructor; [exact Hk | constructor]].
  - rewrite list_to_set_app_L. set_solver.
Qed.

Lemma add_urls_of_keys (items : list pyval) (ks : list key) :
  keys_of items ks -> add_urls items ∅ = Ok (list_to_set ks).
Proof.
  unfold add_urls. intros Hks.
  enough (forall s : gset key, for_each_pure
            (fun bookmark processed_urls => k ← url_key bookmark; Ok ({[k]} ∪ processed_urls))
            items s = Ok (list_to_set ks ∪ s)) as Hgen.
  { rewrite Hgen. f_equal. set_solver. }
  induction Hks as [|b k items ks Hk _ IH]; intros s; simpl.
  - f_equal. set_solver.
  - rewrite Hk. simpl. rewrite IH. f_equal. set_solver.
Qed.

Section ScanAndParse.

Context `{Platform}.

Lemma scan_parse_all (a : args) (browsers : list string) :
  forall st w st' w',
    scan a browsers st w = (Ok st', w') ->
    exists news, parse_all a browsers w = (Ok news, w') /\ merge_new news st = Ok st'.
Proof.
  unfold scan. induction browsers as [|b browsers IH]; intros st w st' w' Hrun.
  - apply ret_ok in Hrun as [-> ->]. exists []. split; reflexivity.
  - simpl in Hrun. apply bind_ok in Hrun as (st1 & w1 & Hbody & Hrest).
    apply bind_ok in Hbody as (new & w2 & Hparse & Hmerge).
    apply lift_ok in Hmerge as [Hmerge ->].
    apply IH in Hrest as (rest & Hrest & Hmrest).
    exists (new ++ rest). split.
    + simpl. unfold mbind, M_bind. rewrite Hparse, Hrest. reflexivity.
    + unfold merge_new in *. rewrite for_each_pure_app, Hmerge. exact Hmrest.
Qed.

Lemma scan_of_parse_all (a : args) (browsers : list string) :
  forall st w st' w' news,
    parse_all a browsers w = (Ok news, w') -> merge_new news st = Ok st' ->
    scan a browsers st w = (Ok st', w').
Proof.
  unfold scan. induction browsers as [|b browsers IH]; intros st w st' w' news Hparse Hmerge.
  - apply ret_ok in Hparse as [-> ->]. injection Hmerge as <-. reflexivity.
  - simpl in Hparse. apply bind_ok in Hparse as (new & w1 & Hnew & Hparse).
    apply bind_ok in Hparse as (rest & w2 & Hrest & Hret).
    apply ret_ok in Hret as [-> ->].
    unfold merge_new in Hmerge. rewrite for_each_pure_app in Hmerge.
    apply obind_ok in Hmerge as (st1 & Hm1 & Hm2).
    simpl. unfold mbind at 1, M_bind at 1. unfold mbind at 1, M_bind at 1.
    rewrite Hnew. unfold lift. unfold merge_new. rewrite Hm1.
    eapply IH; eassumption.
Qed.

End ScanAndParse.

(** ** The driver *)

Lemma str_neq_app (s t : string) : t <> "" -> s <> s +:+ t.
Proof.
  intros Ht Heq. apply (f_equal String.length) in Heq.
  rewrite length_app_str in Heq. destruct t; [congruence | simpl in Heq; lia].
Qed.

Lemma json_load_raise (c : content) (e : exn) :
  json_load c = Raise e -> e = JSONDecodeError.
Proof. destruct c; simpl; congruence. Qed.

Lemma py_iter_raise (v : pyval) (e : exn) : py_iter v = Raise e -> e = TypeError.
Proof. destruct v; simpl; congruence. Qed.

Lemma py_iter_len (v : pyval) (items : list pyval) :
  py_iter v = Ok items -> exists n, py_len v = Ok n.
Proof. destruct v; simpl; try discriminate; eauto. Qed.

Lemma url_key_raise (b : pyval) (e : exn) :
  url_key b = Raise e -> e <> JSONDecodeError.
Proof.
  unfold url_key, subscript_url.
  destruct b as [| | | | |d]; simpl; try congruence.
  destruct (dict_get "url" d) as [[| | | | |]|]; simpl; congruence.
Qed.

Lemma add_urls_raise (items : list pyval) (s : gset key) (e : exn) :
  add_urls items s = Raise e -> e <> JSONDecodeError.
Proof.
  unfold add_urls. revert s. induction items as [|b items IH]; intros s; simpl; [discriminate|].
  destruct (url_key b) as [k|e'] eqn:Hb; simpl.
  - apply IH.
  - intros [= <-]. eapply url_key_raise, Hb.
Qed.

Section Driver.

Context `{Platform}.

(** The seeding step, when there is a file to merge. *)
Lemma load_existing_merge (a : args) (w : world) (c : content) :
  merge_existing a = true -> files w !! OUTPUT_FILE = Some c ->
  load_existing a w =
  match json_load c with
  | Raise _ => (Ok (PList [], ∅), logged w [LogLoading OUTPUT_FILE; LogCorrupted])
  | Ok v =>
      match py_iter v with
      | Raise e => (Raise e, logged w [LogLoading OUTPUT_FILE])
      | Ok items =>
          match add_urls items ∅ with
          | Raise e => (Raise e, logged w [LogLoading OUTPUT_FILE])
          | Ok processed =>
              (Ok (v, processed),
               logged w [LogLoading OUTPUT_FILE;
                         LogLoaded (match py_len v with Ok n => n | Raise _ => O end)
                                   (size processed)])
          end
      end
  end.
Proof.
  intros Hm Hf.
  unfold load_existing, mbind, M_bind, path_exists, try_except, say, read_file, lift, logged.
  rewrite Hm. simpl. rewrite Hf. simpl. rewrite Hf.
  destruct (json_load c) as [v|e] eqn:Hload.
  - destruct (py_iter v) as [items|e] eqn:Hit.
    + destruct (add_urls items ∅) as [processed|e] eqn:Hadd.
      * destruct (py_iter_len _ _ Hit) as [n ->]. simpl. rewrite <- app_assoc. reflexivity.
      * apply add_urls_raise in Hadd. rewrite decide_False by exact Hadd. reflexivity.
    + apply py_iter_raise in Hit as ->. reflexivity.
  - apply json_load_raise in Hload as ->. simpl. rewrite <- app_assoc. reflexivity.
Qed.

(** The seeding step, when nothing is merged. *)
Lemma load_existing_fresh (a : args) (w : world) :
  merge_existing a = false \/ (files w !! OUTPUT_FILE = None /\ dirs w !! OUTPUT_FILE = None) ->
  load_existing a w = (Ok (PList [], ∅), w).
Proof.
  unfold load_existing, mbind, M_bind, path_exists. intros [-> | [Hf Hd]]; [reflexivity|].
  rewrite Hf, Hd. simpl. rewrite andb_false_r. reflexivity.
Qed.

(** A successful seeding step starts from the seed, with the keys of its
    records as dedup set, and touches no file. *)
Lemma load_existing_ok (a : args) (w w1 : world) (v : pyval) (processed : gset key) :
  load_existing a w = (Ok (v, processed), w1) ->
  v = seed a w /\ files w1 = files w /\ dirs w1 = dirs w /\ unwritable w1 = unwritable w /\
  exists items ks, py_iter v = Ok items /\ keys_of items ks /\ processed = list_to_set ks.
Proof.
  intros Hrun. unfold seed.
  destruct (merge_existing a) eqn:Hm.
  2:{ rewrite load_existing_fresh in Hrun by auto. injection Hrun as <- <- <-.
      repeat split. exists [], []. repeat split. constructor. }
  destruct (files w !! OUTPUT_FILE) as [c|] eqn:Hf.
  - rewrite (load_existing_merge a w c Hm Hf) in Hrun.
    destruct (json_load c) as [v0|e].
    + destruct (py_iter v0) as [items|e] eqn:Hit; [|discriminate].
      destruct (add_urls items ∅) as [p|e] eqn:Hadd; [|discriminate].
      injection Hrun as <- <- <-. repeat split.
      apply add_urls_keys in Hadd as (ks & Hks & ->). eauto.
    + injection Hrun as <- <- <-. repeat split. exists [], []. repeat split. constructor.
  - destruct (dirs w !! OUTPUT_FILE) eqn:Hd.
    + unfold load_existing, mbind, M_bind, path_exists, say, read_file in Hrun.
      rewrite Hm, Hf, Hd in Hrun. simpl in Hrun. rewrite Hf in Hrun. discriminate.
    + rewrite load_existing_fresh in Hrun by auto. injection Hrun as <- <- <-.
      repeat split. exists [], []. repeat split. constructor.
Qed.

(** The end of [main], step by step. *)
Lemma backup_and_write_run (v : pyval) (w : world) :
  backup_and_write v w =
  let bak := OUTPUT_FILE +:+ ".bak" in
  let ex := bool_decide (is_Some (files w !! OUTPUT_FILE)) ||
            bool_decide (is_Some (dirs w !! OUTPUT_FILE)) in
  let blocked p := bool_decide (p ∈ unwritable w) || bool_decide (is_Some (dirs w !! p)) in
  let finish w1 :=
    match py_len v with
    | Raise e => (Raise e, w1)
    | Ok n =>
        if blocked OUTPUT_FILE
        then (Ok tt, logged w1 [LogWriting n OUTPUT_FILE; LogFatal])
        else (Ok tt, logged (set_files (<[OUTPUT_FILE := LinksJson v]> (files w1)) w1)
                            [LogWriting n OUTPUT_FILE; LogComplete])
    end in
  if ex then
    match files w !! OUTPUT_FILE with
    | None => (Raise OSError, logged w [LogBackup bak])
    | Some c =>
        if blocked bak then (Raise OSError, logged w [LogBackup bak])
        else finish (logged (set_files (<[bak := c]> (files w)) w) [LogBackup bak])
    end
  else finish w.
Proof.
  unfold backup_and_write, mbind, M_bind, path_exists, try_except, copy2, say,
    read_file, write_file, lift, logged, set_files.
  cbv zeta. unfold mbind, M_bind. simpl.
  destruct (_ || _) eqn:Hex; simpl.
  - destruct (files w !! OUTPUT_FILE) as [c|]; [|reflexivity]. simpl.
    destruct (bool_decide (_ ∈ unwritable w) || _) eqn:Hbak; simpl; [reflexivity|].
    destruct (py_len v) as [n|e]; simpl; [|reflexivity].
    destruct (bool_decide (OUTPUT_FILE ∈ unwritable w) || _) eqn:Hout; simpl;
      rewrite <- ?app_assoc; reflexivity.
  - destruct (py_len v) as [n|e]; simpl; [|reflexivity].
    destruct (bool_decide (OUTPUT_FILE ∈ unwritable w) || _) eqn:Hout; simpl;
      rewrite <- ?app_assoc; reflexivity.
Qed.

End Driver.

Lemma keys_of_inj (l : list pyval) (ks ks' : list key) :
  keys_of l ks -> keys_of l ks' -> ks = ks'.
Proof.
  intros Hks. revert ks'. induction Hks as [|b k l ks Hk _ IH]; intros ks' Hks'.
  - inversion Hks'. reflexivity.
  - inversion Hks' as [|? k' ? ks'' Hk' Hrest]; subst. f_equal; [congruence | apply IH, Hrest].
Qed.

(** Records with pairwise distinct, unseen keys are all kept. *)
Lemma first_seen_unique (l : list pyval) (ks : list key) :
  keys_of l ks -> NoDup ks ->
  forall seen, (forall k, k ∈ ks -> k ∉ seen) ->
  first_seen seen l = l /\ seen_after seen l = seen ∪ list_to_set ks.
Proof.
  induction 1 as [|b k l ks Hk _ IH]; intros Hnd seen Hnew; simpl.
  - split; [reflexivity | set_solver].
  - apply NoDup_cons in Hnd as [Hk_notin Hnd]. rewrite Hk.
    rewrite bool_decide_eq_false_2 by (apply Hnew; left).
    destruct (IH Hnd ({[k]} ∪ seen)) as [-> ->].
    + intros k' Hk'. specialize (Hnew k' ltac:(right; exact Hk')).
      assert (k' <> k) by (intros ->; contradiction). set_solver.
    + split; [reflexivity | set_solver].
Qed.

Section DriverSteps.

Context `{Platform}.

Lemma main_inv (a : args) (w w' : world) (r : outcome unit) :
  main a w = (r, w') ->
  (exists e, r = Raise e /\ frame w w') \/
  (exists st st' w2,
      load_existing a w = (Ok st, after_load a w) /\
      scan a (browsers_to_scan a) st (after_load a w) = (Ok st', w2) /\
      backup_and_write st'.1 w2 = (r, w') /\ frame w w2).
Proof.
  unfold main. intros Hrun.
  apply bind_inv in Hrun as [(st & w1 & Hload & Hrun) | (e & Hload & ->)].
  2:{ left. exists e. split; [reflexivity|]. eapply frames_load_existing, Hload. }
  apply bind_inv in Hrun as [(st' & w2 & Hscan & Hrun) | (e & Hscan & ->)].
  2:{ left. exists e. split; [reflexivity|].
      eapply frame_trans; [eapply frames_load_existing, Hload | eapply frames_scan, Hscan]. }
  right. exists st, st', w2. unfold after_load. rewrite Hload. simpl.
  split; [reflexivity|]. split; [exact Hscan|]. split; [exact Hrun|].
  eapply frame_trans; [eapply frames_load_existing, Hload | eapply frames_scan, Hscan].
Qed.

Lemma writable_frame (w w2 : world) (p : string) :
  frame w w2 -> writable w p -> writable w2 p.
Proof. intros (Hd & Hu & _). unfold writable. rewrite Hd, Hu. auto. Qed.

End DriverSteps.

(** * The claims *)

(** ** Url scheme (C1) *)

Lemma prefix_app_l (p q s : string) :
  String.prefix (p +:+ q) s = true -> String.prefix p s = true.
Proof.
  revert s. induction p as [|a p IH]; intros s; [destruct s; reflexivity|].
  rewrite app_cons_str. destruct s as [|b s]; cbn [String.prefix]; [discriminate|].
  destruct (Ascii.ascii_dec a b); [apply IH | discriminate].
Qed.

Lemma http_prefixed_http (url : string) : http_prefixed url = startswith "http" url.
Proof.
  unfold http_prefixed, startswith.
  destruct (String.prefix "http" url) eqn:Hp; [reflexivity|]. simpl.
  destruct (String.prefix "https" url) eqn:Hs; [|reflexivity].
  apply (prefix_app_l "http" "s") in Hs. congruence.
Qed.

(** What the url test does guarantee: every emitted url starts with [http]. *)
Lemma emitted_url_http (b : string) (inc : bool) (r : pyval) :
  emitted b inc r ->
  exists url, field "url" r = Some (PStr url) /\ startswith "http" url = true.
Proof.
  intros (name & url & category & favicon & dateAdded & lastVisited & -> & _ & Hp & _).
  exists url. split; [reflexivity|]. rewrite <- http_prefixed_http. exact Hp.
Qed.

(** C1, at a failing input.  Both parsers emit a record whose url starts with
    [http] but with neither [http://] nor [https://]: the Chromium walk for
    the node [httpx://c.example/] of [Samples.bar], the Firefox loop for the
    row [httpx://e.example/]. *)
Theorem url_test_accepts_other_schemes :
  (exists bookmarks w' r,
      @parse_chromium_bookmarks Samples.platform "/cfg/chrome/Bookmarks" "chrome" false
        (Samples.chrome_world Samples.bar) = (Ok bookmarks, w') /\
      In r bookmarks /\
      field "url" r = Some (PStr "httpx://c.example/") /\
      startswith "http://" "httpx://c.example/" = false /\
      startswith "https://" "httpx://c.example/" = false) /\
  (exists bookmarks w' r,
      @parse_firefox_bookmarks Samples.platform "/cfg/firefox" "firefox" false
        (Samples.firefox_world (Sqlite (mk_database (Some [Samples.row_e]) None)))
      = (Ok bookmarks, w') /\
      In r bookmarks /\
      field "url" r = Some (PStr "httpx://e.example/") /\
      startswith "http://" "httpx://e.example/" = false /\
      startswith "https://" "httpx://e.example/" = false).
Proof.
  split.
  - eexists _, _, _. split; [vm_compute; reflexivity|].
    split; [right; left; reflexivity|]. repeat split.
  - eexists _, _, _. split; [vm_compute; reflexivity|].
    split; [left; reflexivity|]. repeat split.
Qed.

(** ** Malformed input (C3) *)

Section Malformed.

Context `{Platform}.

(** A bookmarks file that is not JSON: [json.load] raises inside
    [parse_chromium_bookmarks], which has no handler. *)
Lemma parse_chromium_bookmarks_corrupt (file_path b : string) (inc : bool) (w : world) :
  files w !! file_path = Some Garbage ->
  parse_chromium_bookmarks file_path b inc w =
  (Raise JSONDecodeError, logged w [LogParsing b]).
Proof.
  intros Hf.
  unfold parse_chromium_bookmarks, mbind, M_bind, path_exists, say, read_file, lift.
  rewrite Hf. simpl. rewrite Hf. reflexivity.
Qed.

(** An existing output that is not JSON: [main] starts from nothing. *)
Lemma load_existing_corrupt (a : args) (w : world) :
  merge_existing a = true -> files w !! OUTPUT_FILE = Some Garbage ->
  load_existing a w =
  (Ok (PList [], ∅), logged w [LogLoading OUTPUT_FILE; LogCorrupted]).
Proof. intros Hm Hf. rewrite (load_existing_merge a w Garbage Hm Hf). reflexivity. Qed.

(** A [places.sqlite] that is not a database: the error is caught and the
    parser returns nothing. *)
Lemma parse_firefox_bookmarks_corrupt (profiles_path b : string) (inc : bool)
    (w : world) (walk : list (string * list string)) (c : content) :
  dirs w !! profiles_path = Some walk ->
  find_places walk <> "" ->
  files w !! find_places walk = Some c ->
  writable w (find_places walk +:+ ".tmp") ->
  query_places c = Raise SqliteError ->
  exists w',
    parse_firefox_bookmarks profiles_path b inc w = (Ok [], w') /\
    files w' = <[find_places walk +:+ ".tmp" := c]> (files w) /\
    log w' = log w ++ [LogParsingFrom (find_places walk); LogFirefoxDbError].
Proof.
  intros Hd Hne Hf Hw Hq. apply nonempty_true in Hne. unfold nonempty in Hne.
  unfold parse_firefox_bookmarks, mbind, M_bind, path_exists, os_walk, say, try_except,
    copy2, read_file, write_file, lift.
  unfold writable in Hw.
  repeat (simpl; unfold nonempty, mbind, M_bind;
          rewrite ?Hd, ?orb_true_r, ?Hne, ?Hf, ?Hw, ?lookup_insert_eq, ?Hq).
  eexists. split; [reflexivity|]. simpl.
  rewrite <- app_assoc. split; reflexivity.
Qed.

End Malformed.

(** C3, at a failing input.  With a Chromium bookmarks file that is not JSON
    ([Samples.corrupt_world]), [main] ends with the uncaught
    [JSONDecodeError] and writes nothing: the error is fatal, although it is
    not the final write that failed. *)
Theorem corrupt_chromium_json_is_fatal :
  (@main Samples.platform Samples.plain_args Samples.corrupt_world).1 =
    Raise JSONDecodeError /\
  files (@main Samples.platform Samples.plain_args Samples.corrupt_world).2 =
    files Samples.corrupt_world /\
  log (@main Samples.platform Samples.plain_args Samples.corrupt_world).2 =
    [LogParsing "chrome"].
Proof. vm_compute. repeat split. Qed.

(** ** Temporary copies (C4) *)

Section TemporaryCopy.

Context `{Platform}.

(** The database itself is only read: the fetcher changes no file but the
    copy. *)
Lemma get_favicon_base64_original (db_path url p : string) (w w' : world)
    (r : outcome pyval) :
  get_favicon_base64 db_path url w = (r, w') ->
  ends_with ".tmp" p = false -> files w' !! p = files w !! p.
Proof. intros Hrun Hp. apply frames_get_favicon_base64 in Hrun as (_ & _ & Hf). auto. Qed.

Lemma parse_firefox_bookmarks_original (profiles_path b p : string) (inc : bool)
    (w w' : world) (r : outcome (list pyval)) :
  parse_firefox_bookmarks profiles_path b inc w = (r, w') ->
  ends_with ".tmp" p = false -> files w' !! p = files w !! p.
Proof. intros Hrun Hp. apply frames_parse_firefox_bookmarks in Hrun as (_ & _ & Hf). auto. Qed.

(** When the favicon query fails, the copy stays on disk. *)
Lemma get_favicon_base64_leaves_copy (db_path url : string) (w : world) (c : content)
    (parsed : string * string) :
  files w !! db_path = Some c ->
  writable w (db_path +:+ ".tmp") ->
  urlparse url = Ok parsed ->
  query_favicon c (parsed.1 +:+ "://" +:+ parsed.2 +:+ "/favicon.ico") = Raise SqliteError ->
  exists w',
    get_favicon_base64 db_path url w = (Ok PNone, w') /\
    files w' = <[db_path +:+ ".tmp" := c]> (files w).
Proof.
  intros Hf Hw Hu Hq.
  unfold get_favicon_base64, mbind, M_bind, path_exists, say, try_except,
    copy2, read_file, write_file, lift.
  rewrite Hf. simpl. unfold mbind, M_bind. rewrite Hf. unfold writable in Hw. rewrite Hw.
  simpl. rewrite Hu, lookup_insert_eq, Hq. simpl. eexists. split; reflexivity.
Qed.

End TemporaryCopy.

(** C4, at a failing input.  On a database file that SQLite cannot read,
    [parse_firefox_bookmarks] returns the empty list and [get_favicon_base64]
    returns [None], and in both cases the copy [<db>.tmp] is still there
    afterwards: the removal is skipped on the error path.  The database file
    itself is unchanged. *)
Theorem temporary_copy_left_on_error :
  let ff := @parse_firefox_bookmarks Samples.platform "/cfg/firefox" "firefox" false
              (Samples.firefox_world Garbage) in
  let fav := @get_favicon_base64 Samples.platform "/cfg/chrome/Favicons"
               "https://a.example/" (Samples.favicons_world Garbage) in
  (ff.1 = Ok [] /\
   files ff.2 !! "/cfg/firefox/p1/places.sqlite.tmp" = Some Garbage /\
   files ff.2 !! "/cfg/firefox/p1/places.sqlite" = Some Garbage) /\
  (fav.1 = Ok PNone /\
   files fav.2 !! "/cfg/chrome/Favicons.tmp" = Some Garbage /\
   files fav.2 !! "/cfg/chrome/Favicons" = Some Garbage).
Proof. vm_compute. repeat split. Qed.

(** ** Timestamps (C5) *)

(** C5 as stated fails: a timestamp that is not a number is not turned into
    [None]; [int] raises [ValueError] in both converters. *)
Lemma non_numeric_timestamp_raises :
  convert_chrome_time (PStr "abc") = Raise ValueError /\
  @convert_firefox_time Samples.platform (PStr "abc") = Raise ValueError.
Proof. split; reflexivity. Qed.

Section Converters.

Context `{Platform}.

(** C5, amended.  Both converters return [None] for a missing or zero
    timestamp, never an instant.  For a value that [int] reads as a
    nonzero number, [convert_chrome_time] returns an ISO-8601 instant when
    the instant lies in years 1 to 9999 and raises [OverflowError]
    otherwise, and [convert_firefox_time] returns the ISO-8601 form of the
    local time the platform gives, or raises what the platform raises.  A
    value that [int] rejects (a non-numeric string among them) makes both
    raise that error. *)
Theorem convert_time_cases (v : pyval) :
  ((truthy v = false \/ py_int v = Ok 0) ->
     convert_chrome_time v = Ok PNone /\ convert_firefox_time v = Ok PNone) /\
  (forall n, py_int v = Ok n -> n <> 0 ->
     (chrome_in_range n ->
        exists dt, chrome_datetime n = Ok dt /\ valid_datetime dt /\
                   convert_chrome_time v = Ok (PStr (isoformat dt +:+ "Z")) /\
                   is_iso8601 (isoformat dt +:+ "Z") = true) /\
     (~ chrome_in_range n -> convert_chrome_time v = Raise OverflowError) /\
     (forall dt, fromtimestamp n = Ok dt ->
        convert_firefox_time v = Ok (PStr (isoformat dt +:+ "Z")) /\
        is_iso8601 (isoformat dt +:+ "Z") = true) /\
     (forall e, fromtimestamp n = Raise e -> convert_firefox_time v = Raise e)) /\
  (forall e, truthy v = true -> py_int v = Raise e ->
     convert_chrome_time v = Raise e /\ convert_firefox_time v = Raise e).
Proof.
  unfold convert_chrome_time, convert_firefox_time. split; [|split].
  - intros [Hfalsy | Hzero].
    + rewrite Hfalsy. split; reflexivity.
    + destruct (negb (truthy v)); [split; reflexivity|].
      rewrite Hzero. split; reflexivity.
  - intros n Hn Hnz.
    rewrite (py_int_nonzero_truthy v n Hn Hnz), Hn. simpl.
    apply Z.eqb_neq in Hnz. rewrite Hnz.
    split; [|split; [|split]].
    + intros Hr. destruct (chrome_datetime_in_range n Hr) as [dt Hdt].
      exists dt. rewrite Hdt. split; [reflexivity|].
      split; [eapply chrome_datetime_valid, Hdt|].
      split; [reflexivity | apply isoformat_shape].
    + intros Hr. rewrite (chrome_datetime_out_of_range n Hr). reflexivity.
    + intros dt Hdt. rewrite Hdt. split; [reflexivity | apply isoformat_shape].
    + intros e He. rewrite He. reflexivity.
  - intros e Htruthy He. rewrite Htruthy, He. split; reflexivity.
Qed.

End Converters.

(** The amended C5 at a Chromium timestamp of January 2024, at zero and at a
    string that is not a number. *)
Lemma convert_time_cases_witness :
  convert_chrome_time (PStr "13350000000123456") = Ok (PStr "2024-01-17T21:20:00.123456Z") /\
  convert_chrome_time (PStr "0") = Ok PNone /\
  @convert_firefox_time Samples.platform (PInt 0) = Ok PNone /\
  convert_chrome_time (PStr "abc") = Raise ValueError.
Proof.
  pose proof (@convert_time_cases Samples.platform (PStr "13350000000123456"))
    as (_ & Hnum & _).
  pose proof (@convert_time_cases Samples.platform (PStr "0")) as (Hzero & _ & _).
  pose proof (@convert_time_cases Samples.platform (PInt 0)) as (Hzero' & _ & _).
  pose proof (@convert_time_cases Samples.platform (PStr "abc")) as (_ & _ & Hbad).
  split; [|split; [|split]].
  - destruct (Hnum 13350000000123456 eq_refl ltac:(discriminate)) as (Hin & _).
    destruct Hin as (dt & Hdt & _ & -> & _); [unfold chrome_in_range; vm_compute; split; [reflexivity | discriminate]|].
    vm_compute in Hdt. injection Hdt as <-. reflexivity.
  - apply Hzero. right. reflexivity.
  - apply Hzero'. left. reflexivity.
  - apply (Hbad ValueError); reflexivity.
Defined.

(** ** Tags (C7) *)

(** The tags computed by the code are the non-empty segments of the
    category. *)
Lemma path_tags_nonempty_segments (category : string) :
  path_tags category = nonempty_segments category.
Proof.
  unfold path_tags, nonempty_segments. apply list_filter_iff.
  intros seg. apply nonempty_true.
Qed.

Section Tags.

Context `{Platform}.

(** C7.  In every record either parser emits, [tags] is the sequence of the
    non-empty segments of [category] split at [/], in order: the segments
    hold no [/], joined by [/] they give the category back, and no tag is
    empty.  [Work/Dev] gives [Work], [Dev]; the empty category gives no
    tag. *)
Theorem tags_are_category_segments (path b : string) (inc : bool) (w w' : world)
    (bookmarks : list pyval) :
  parse_chromium_bookmarks path b inc w = (Ok bookmarks, w') \/
  parse_firefox_bookmarks path b inc w = (Ok bookmarks, w') ->
  Forall (fun r =>
            exists category,
              field "category" r = Some (PStr category) /\
              field "tags" r = Some (PList (map PStr (nonempty_segments category))) /\
              join_slash (split_slash category) = category /\
              Forall (fun seg => has_slash seg = false) (split_slash category) /\
              Forall (fun tag => tag <> "") (nonempty_segments category))
         bookmarks /\
  nonempty_segments "Work/Dev" = ["Work"; "Dev"] /\
  nonempty_segments "" = [].
Proof.
  intros Hrun. split; [|split; reflexivity].
  assert (Forall (emitted b inc) bookmarks) as Hem.
  { destruct Hrun as [Hrun | Hrun];
      [eapply parse_chromium_bookmarks_emitted | eapply parse_firefox_bookmarks_emitted];
      exact Hrun. }
  eapply Forall_impl; [exact Hem|].
  intros r (name & url & category & favicon & dateAdded & lastVisited & -> & _).
  exists category. rewrite <- path_tags_nonempty_segments.
  split; [reflexivity|]. split; [reflexivity|].
  split; [apply join_split_slash|]. split; [apply split_slash_no_slash|].
  apply path_tags_nonempty.
Qed.

End Tags.

(** C7 on the tree [Samples.bar]. *)
Lemma tags_are_category_segments_witness :
  Forall (fun r =>
            exists category,
              field "category" r = Some (PStr category) /\
              field "tags" r = Some (PList (map PStr (nonempty_segments category))) /\
              join_slash (split_slash category) = category /\
              Forall (fun seg => has_slash seg = false) (split_slash category) /\
              Forall (fun tag => tag <> "") (nonempty_segments category))
         [make_record (PStr "A") "https://a.example/" "Bookmarks bar" ["Bookmarks bar"]
            PNone "chrome" (PStr "2024-01-17T21:20:00Z") PNone;
          make_record (PStr "C") "httpx://c.example/" "Bookmarks bar/Dev"
            ["Bookmarks bar"; "Dev"] PNone "chrome" PNone PNone] /\
  nonempty_segments "Work/Dev" = ["Work"; "Dev"] /\
  nonempty_segments "" = [].
Proof.
  apply (@tags_are_category_segments Samples.platform "/cfg/chrome/Bookmarks" "chrome"
           false (Samples.chrome_world Samples.bar)
           (@parse_chromium_bookmarks Samples.platform "/cfg/chrome/Bookmarks" "chrome"
              false (Samples.chrome_world Samples.bar)).2).
  left. vm_compute. reflexivity.
Defined.

(** ** Record shape (C10) *)

Section RecordShape.

Context `{Platform}.

Lemma parse_chromium_bookmarks_records (file_path b : string) (inc : bool)
    (w w' : world) (bookmarks : list pyval) :
  parse_chromium_bookmarks file_path b inc w = (Ok bookmarks, w') ->
  exists leaves, Forall2 (chromium_record b inc) leaves bookmarks.
Proof.
  intros Hrun. unfold parse_chromium_bookmarks in Hrun.
  apply bind_ok in Hrun as (ex & w1 & _ & Hrun).
  destruct (negb ex).
  { apply bind_ok in Hrun as (? & ? & _ & Hrun). apply ret_ok in Hrun as [-> _].
    exists []. constructor. }
  apply bind_ok in Hrun as (? & w2 & _ & Hrun).
  apply bind_ok in Hrun as (f & w3 & _ & Hrun).
  apply bind_ok in Hrun as (roots & w4 & _ & Hrun).
  apply bind_ok in Hrun as (bm & w5 & Heach & Hrun).
  apply bind_ok in Hrun as (? & w6 & _ & Hrun).
  apply ret_ok in Hrun as [-> _].
  apply each_root_emits in Heach as (added & -> & Hadded). eauto.
Qed.

(** C10.  Every record either parser emits is a dict with exactly the eight
    keys [name], [url], [category], [tags], [favicon], [browser],
    [dateAdded], [lastVisited], in that order.  The optional ones are
    always present, holding [None] or a string: [favicon] holds [None]
    when favicons are not requested, and [lastVisited] holds [None] in
    every Chromium record. *)
Theorem records_have_eight_keys (path b : string) (inc : bool) (w w' : world)
    (bookmarks : list pyval) :
  parse_chromium_bookmarks path b inc w = (Ok bookmarks, w') \/
  parse_firefox_bookmarks path b inc w = (Ok bookmarks, w') ->
  Forall (fun r =>
            exists d,
              r = PDict d /\ map fst d = record_keys /\
              (forall k, In k ["favicon"; "dateAdded"; "lastVisited"] ->
                         exists v, dict_get k d = Some v /\ null_or_str v) /\
              (inc = false -> dict_get "favicon" d = Some PNone))
         bookmarks /\
  (parse_chromium_bookmarks path b inc w = (Ok bookmarks, w') ->
   Forall (fun r => field "lastVisited" r = Some PNone) bookmarks).
Proof.
  intros Hrun. split.
  - assert (Forall (emitted b inc) bookmarks) as Hem.
    { destruct Hrun as [Hrun | Hrun];
        [eapply parse_chromium_bookmarks_emitted | eapply parse_firefox_bookmarks_emitted];
        exact Hrun. }
    eapply Forall_impl; [exact Hem|].
    intros r (name & url & category & favicon & dateAdded & lastVisited & -> & _ & _ &
              _ & Hfav & Hinc & Hdate & Hlast).
    eexists. split; [reflexivity|]. split; [reflexivity|]. split.
    + intros k [<- | [<- | [<- | []]]]; eexists; (split; [reflexivity | assumption]).
    + intros Hno. rewrite (Hinc Hno). reflexivity.
  - intros Hchrome. apply parse_chromium_bookmarks_records in Hchrome as (leaves & Hrec).
    eapply Forall2_Forall_r; [|exact Hrec].
    intros leaf r (name & favicon & dateAdded & -> & _). reflexivity.
Qed.

End RecordShape.

(** C10 on the rows [Samples.row_d], [Samples.row_e]. *)
Lemma records_have_eight_keys_witness :
  Forall (fun r =>
            exists d,
              r = PDict d /\ map fst d = record_keys /\
              (forall k, In k ["favicon"; "dateAdded"; "lastVisited"] ->
                         exists v, dict_get k d = Some v /\ null_or_str v) /\
              (false = false -> dict_get "favicon" d = Some PNone))
         [make_record (PStr "D") "https://d.example/" "Work/Dev" ["Work"; "Dev"] PNone
            "firefox" (PStr "2023-11-14T22:13:20Z") PNone;
          make_record (PStr "E") "httpx://e.example/" "" [] PNone "firefox" PNone PNone].
Proof.
  apply (@records_have_eight_keys Samples.platform "/cfg/firefox" "firefox" false
           (Samples.firefox_world
              (Sqlite (mk_database (Some [Samples.row_d; Samples.row_e]) None)))
           (@parse_firefox_bookmarks Samples.platform "/cfg/firefox" "firefox" false
              (Samples.firefox_world
                 (Sqlite (mk_database (Some [Samples.row_d; Samples.row_e]) None)))).2).
  right. vm_compute. reflexivity.
Defined.

(** ** Categories (C8) *)

Lemma drop_empty_all_nonempty (names : list string) :
  Forall (fun n => n <> "") names -> drop_empty names = names.
Proof.
  destruct 1 as [|n names Hn _]; simpl; [reflexivity|].
  apply nonempty_true in Hn. rewrite Hn. reflexivity.
Qed.

(** C8 as stated fails: under a folder without a title the category is not
    the join of the names above the bookmark (the walk gives [x] where the
    join of the names [""], [x] is [/x]), and a bookmark inside such a folder
    has the empty category although it is not at the root. *)
Lemma category_as_stated_fails :
  ~ (forall (P : Platform) (file b : string) (inc : bool) (w w' : world)
            (bookmarks : list pyval) (roots : list (string * node)),
        files w !! file = Some (BookmarksJson roots) ->
        parse_chromium_bookmarks file b inc w = (Ok bookmarks, w') ->
        Forall2 category_as_stated
                (flat_map (fun root => url_leaves root.2 []) roots) bookmarks).
Proof.
  intros Hclaim.
  specialize (Hclaim Samples.platform "/cfg/chrome/Bookmarks" "chrome" false
                (Samples.chrome_world Samples.untitled)
                (@parse_chromium_bookmarks Samples.platform "/cfg/chrome/Bookmarks"
                   "chrome" false (Samples.chrome_world Samples.untitled)).2
                [Samples.rec "R" "http://r.example/" "";
                 Samples.rec "S" "http://s.example/" "x"]
                [("bookmark_bar", Samples.untitled)]
                ltac:(reflexivity) ltac:(vm_compute; reflexivity)).
  simpl in Hclaim. inversion Hclaim as [|leaf r leaves rs [_ Hroot] _]; subst.
  simpl in Hroot. destruct Hroot as [Hroot _]. specialize (Hroot eq_refl). discriminate.
Qed.

Section Categories.

Context `{Platform}.

(** C8, amended.  The records of a Chromium bookmarks document are, in the
    order of the walk, those of its accepted url nodes, and the category of
    each is the path the walk has accumulated: the names of the folders
    above the node, the root folder included, joined by [/] once the
    leading empty names are dropped.  It is the plain join of the names
    when none of them is empty, and it is empty exactly when all of them
    are (in particular when there is no folder above). *)
Theorem category_is_folder_path (file b : string) (inc : bool) (w w' : world)
    (bookmarks : list pyval) (roots : list (string * node)) :
  files w !! file = Some (BookmarksJson roots) ->
  parse_chromium_bookmarks file b inc w = (Ok bookmarks, w') ->
  Forall2 (fun leaf r =>
             field "url" r = Some (PStr leaf.2) /\
             field "category" r = Some (PStr (folder_path_of leaf.1)) /\
             (Forall (fun n => n <> "") leaf.1 ->
              folder_path_of leaf.1 = join_slash leaf.1) /\
             (folder_path_of leaf.1 = "" <-> Forall (fun n => n = "") leaf.1))
          (flat_map (fun root => url_leaves root.2 []) roots) bookmarks.
Proof.
  intros Hfile Hrun.
  pose proof (parse_chromium_bookmarks_emits _ _ _ _ _ _ _ Hfile Hrun) as Hrec.
  eapply Forall2_impl; [exact Hrec|].
  intros leaf r (name & favicon & dateAdded & -> & _).
  split; [reflexivity|]. split; [reflexivity|]. split.
  - intros Hall. unfold folder_path_of. rewrite drop_empty_all_nonempty by exact Hall.
    reflexivity.
  - apply folder_path_of_empty.
Qed.

End Categories.

(** The amended C8 on the tree [Samples.untitled]. *)
Lemma category_is_folder_path_witness :
  Forall2 (fun leaf r =>
             field "url" r = Some (PStr leaf.2) /\
             field "category" r = Some (PStr (folder_path_of leaf.1)) /\
             (Forall (fun n => n <> "") leaf.1 ->
              folder_path_of leaf.1 = join_slash leaf.1) /\
             (folder_path_of leaf.1 = "" <-> Forall (fun n => n = "") leaf.1))
          [([""], "http://r.example/"); ([""; "x"], "http://s.example/")]
          [Samples.rec "R" "http://r.example/" "";
           Samples.rec "S" "http://s.example/" "x"].
Proof.
  apply (@category_is_folder_path Samples.platform "/cfg/chrome/Bookmarks" "chrome" false
           (Samples.chrome_world Samples.untitled)
           (@parse_chromium_bookmarks Samples.platform "/cfg/chrome/Bookmarks" "chrome"
              false (Samples.chrome_world Samples.untitled)).2
           _ [("bookmark_bar", Samples.untitled)]).
  - reflexivity.
  - vm_compute. reflexivity.
Defined.

(** ** Dedup (C2) *)

(** C2 as stated fails: an existing output in which one url occurs twice is
    loaded as it is, and both records are written back. *)
Lemma duplicate_urls_in_seed_survive :
  ~ (forall (P : Platform) (a : args) (w w' : world) (v : pyval),
        main a w = (Ok tt, w') ->
        files w' !! OUTPUT_FILE = Some (LinksJson v) ->
        unique_urls v).
Proof.
  intros Hclaim.
  specialize (Hclaim Samples.platform Samples.merge_args
                (Samples.links_world (LinksJson Samples.twice))
                (@main Samples.platform Samples.merge_args
                   (Samples.links_world (LinksJson Samples.twice))).2
                Samples.twice
                ltac:(vm_compute; reflexivity) ltac:(vm_compute; reflexivity)).
  destruct Hclaim as (items & ks & Hit & Hks & Hnd).
  injection Hit as <-.
  inversion Hks as [|b1 k1 l1 ks1 Hk1 Hks1]; subst.
  inversion Hks1 as [|b2 k2 l2 ks2 Hk2 Hks2]; subst.
  vm_compute in Hk1, Hk2. injection Hk1 as <-. injection Hk2 as <-.
  apply NoDup_cons in Hnd as [Hnotin _]. apply Hnotin. left.
Qed.

Section Dedup.

Context `{Platform}.

(** C2, amended.  When the collection [main] starts from (the existing
    output under [--merge-existing], nothing otherwise) has pairwise
    distinct urls, as every collection written by [main] has, then the
    collection it writes has at most one record per url, and first seen
    wins: each written record is the first one with its url among the seed
    records followed by the parsers' records in scanning order, and every
    url met is written. *)
Theorem first_seen_wins (a : args) (w w' : world) :
  main a w = (Ok tt, w') ->
  writable w OUTPUT_FILE ->
  unique_urls (seed a w) ->
  exists seed_items news w2 written written_items,
    py_iter (seed a w) = Ok seed_items /\
    parse_all a (browsers_to_scan a) (after_load a w) = (Ok news, w2) /\
    files w' !! OUTPUT_FILE = Some (LinksJson written) /\
    py_iter written = Ok written_items /\
    unique_urls written /\
    (forall b k, b ∈ written_items -> url_key b = Ok k ->
                 first_with_key k (seed_items ++ news) = Some b) /\
    (forall x k, x ∈ seed_items ++ news -> url_key x = Ok k ->
                 exists b, b ∈ written_items /\ url_key b = Ok k).
Proof.
  intros Hrun Hw (items0 & ks0 & Hit0 & Hks0 & Hnd).
  apply main_inv in Hrun as [(e & [=] & _) | ([v processed] & [v' seen'] & w2 & Hload & Hscan & Hend & Hfr)].
  apply load_existing_ok in Hload as (-> & _ & _ & _ & items & ks & Hit & Hks & ->).
  rewrite Hit0 in Hit. injection Hit as <-.
  pose proof (keys_of_inj _ _ _ Hks0 Hks) as <-. clear Hks.
  apply scan_parse_all in Hscan as (news & Hparse & Hmerge).
  destruct (merge_new_items _ _ _ _ _ _ Hmerge Hit0) as (Hit' & -> & _).
  simpl in Hend.
  assert (files w' !! OUTPUT_FILE = Some (LinksJson v')) as Hout.
  { apply (writable_frame _ _ _ Hfr) in Hw. unfold writable in Hw.
    rewrite backup_and_write_run in Hend. cbv zeta in Hend.
    destruct (_ || _) in Hend.
    - destruct (files w2 !! OUTPUT_FILE); [|discriminate].
      destruct (bool_decide (_ ∈ unwritable w2) || _) in Hend; [discriminate|].
      destruct (py_len v'); [|discriminate]. simpl in Hend. rewrite Hw in Hend.
      injection Hend as <-. simpl. apply lookup_insert_eq.
    - destruct (py_len v'); [|discriminate]. rewrite Hw in Hend.
      injection Hend as <-. simpl. apply lookup_insert_eq. }
  destruct (first_seen_unique items0 ks0 Hks0 Hnd ∅ ltac:(set_solver)) as [Hfs Hsa].
  assert (first_seen ∅ (items0 ++ news) = items0 ++ first_seen (list_to_set ks0) news) as Hall.
  { rewrite first_seen_app, Hfs, Hsa. do 2 f_equal. set_solver. }
  exists items0, news, w2, v', (items0 ++ first_seen (list_to_set ks0) news).
  repeat split; try assumption.
  - destruct (first_seen_keys (list_to_set ks0) news) as (ks1 & Hks1 & Hnd1 & Hnew & _).
    exists (items0 ++ first_seen (list_to_set ks0) news), (ks0 ++ ks1).
    split; [exact Hit'|]. split; [apply Forall2_app; assumption|].
    apply NoDup_app. repeat split; try assumption.
    intros k Hk0 Hk1. apply Hnew in Hk1. apply Hk1, elem_of_list_to_set, Hk0.
  - intros b k Hb Hk. rewrite <- Hall in Hb.
    eapply first_seen_first; eassumption.
  - intros x k Hx Hk. rewrite <- Hall.
    destruct (first_seen_covers ∅ _ x k Hx Hk) as [Hin | Hb]; [set_solver | exact Hb].
Qed.

End Dedup.

(** The amended C2 on [Samples.merge_world]: the earlier record of
    [https://a.example/] is kept, the browser's record of that url is
    dropped, and the new url is appended. *)
Lemma first_seen_wins_witness :
  let w := Samples.merge_world in
  let w' := (@main Samples.platform Samples.merge_args w).2 in
  exists seed_items news w2 written written_items,
    py_iter (@seed Samples.platform Samples.merge_args w) = Ok seed_items /\
    @parse_all Samples.platform Samples.merge_args
      (@browsers_to_scan Samples.platform Samples.merge_args)
      (@after_load Samples.platform Samples.merge_args w) = (Ok news, w2) /\
    files w' !! @OUTPUT_FILE Samples.platform = Some (LinksJson written) /\
    py_iter written = Ok written_items /\
    unique_urls written /\
    (forall b k, b ∈ written_items -> url_key b = Ok k ->
                 first_with_key k (seed_items ++ news) = Some b) /\
    (forall x k, x ∈ seed_items ++ news -> url_key x = Ok k ->
                 exists b, b ∈ written_items /\ url_key b = Ok k).
Proof.
  intros w w'.
  apply (@first_seen_wins Samples.platform Samples.merge_args w w').
  - vm_compute. reflexivity.
  - reflexivity.
  - exists [Samples.rec "kept" "https://a.example/" "Old"], [KStr "https://a.example/"].
    split; [reflexivity|]. split; [repeat constructor|].
    apply NoDup_singleton.
Defined.

(** ** Merging without news (C6) *)

Section MergeWithoutNews.

Context `{Platform}.


End MergeWithoutNews.


(** ** Backup (C9) *)

Section Backup.

Context `{Platform}.


End Backup.


(** * Further properties of the extractor *)

(** ** The favicon fetcher and the Firefox parser on a readable database *)

Section ReadableDatabase.

Context `{Platform}.

(** No database file: nothing is copied, nothing is printed. *)
Lemma get_favicon_base64_missing (db_path url : string) (w : world) :
  files w !! db_path = None -> dirs w !! db_path = None ->
  get_favicon_base64 db_path url w = (Ok PNone, w).
Proof.
  intros Hf Hd. unfold get_favicon_base64, mbind, M_bind, path_exists.
  rewrite Hf, Hd. reflexivity.
Qed.

(** The fetcher on a database SQLite can read. *)
Lemma get_favicon_base64_run (db_path url : string) (w : world) (db : database)
    (icons : list (string * list byte)) (parsed : string * string) :
  files w !! db_path = Some (Sqlite db) ->
  favicons db = Some icons ->
  urlparse url = Ok parsed ->
  writable w (db_path +:+ ".tmp") ->
  get_favicon_base64 db_path url w =
    (Ok (stored_favicon icons parsed),
     set_files (delete (db_path +:+ ".tmp") (files w)) w).
Proof.
  intros Hf Hfav Hu Hw. unfold writable in Hw.
  unfold get_favicon_base64, mbind, M_bind, path_exists, say, try_except,
    copy2, read_file, write_file, os_remove, lift, query_favicon, stored_favicon.
  rewrite Hf. simpl. unfold mbind, M_bind. rewrite Hf, Hw. simpl.
  rewrite Hu, lookup_insert_eq, Hfav. simpl. rewrite lookup_insert_eq.
  destruct (assoc _ icons) as [[|b data]|]; simpl;
    unfold set_files; simpl; rewrite delete_insert_eq; reflexivity.
Qed.

(** X1.  On a database SQLite can read, [get_favicon_base64] returns the
    data URI of the image stored for [scheme://netloc/favicon.ico], or
    [None] when there is no such row or the image is empty; the copy
    [<db>.tmp] is gone afterwards (also one that was there before the call),
    no other file changes and nothing is printed. *)
Theorem get_favicon_base64_found (db_path url : string) (w : world) (db : database)
    (icons : list (string * list byte)) (parsed : string * string) :
  files w !! db_path = Some (Sqlite db) ->
  favicons db = Some icons ->
  urlparse url = Ok parsed ->
  writable w (db_path +:+ ".tmp") ->
  exists w',
    get_favicon_base64 db_path url w =
      (Ok (match assoc (parsed.1 +:+ "://" +:+ parsed.2 +:+ "/favicon.ico") icons with
           | Some (b :: data) => PStr (png_data_uri (b :: data))
           | _ => PNone
           end), w') /\
    files w' = delete (db_path +:+ ".tmp") (files w) /\
    dirs w' = dirs w /\ unwritable w' = unwritable w /\ log w' = log w.
Proof.
  intros Hf Hfav Hu Hw.
  rewrite (get_favicon_base64_run db_path url w db icons parsed Hf Hfav Hu Hw).
  eexists. split; [reflexivity|]. repeat split.
Qed.

(** X2.  On a [places.sqlite] the bookmarks query can read,
    [parse_firefox_bookmarks] returns what the row loop builds from the
    rows, removes the copy [places.sqlite.tmp], changes no other file and
    prints the file name and the number of records. *)
Theorem parse_firefox_bookmarks_read (profiles_path b : string) (inc : bool)
    (w : world) (walk : list (string * list string)) (db : database)
    (rows : list ff_row) (bookmarks : list pyval) :
  dirs w !! profiles_path = Some walk ->
  find_places walk <> "" ->
  files w !! find_places walk = Some (Sqlite db) ->
  places db = Some rows ->
  writable w (find_places walk +:+ ".tmp") ->
  firefox_rows b inc rows [] = Ok bookmarks ->
  exists w',
    parse_firefox_bookmarks profiles_path b inc w = (Ok bookmarks, w') /\
    files w' = delete (find_places walk +:+ ".tmp") (files w) /\
    log w' = log w ++ [LogParsingFrom (find_places walk);
                       LogFirefoxFound (length bookmarks)].
Proof.
  intros Hd Hne Hf Hp Hw Hrows. apply nonempty_true in Hne. unfold nonempty in Hne.
  unfold writable in Hw.
  unfold parse_firefox_bookmarks, mbind, M_bind, path_exists, os_walk, say, try_except,
    copy2, read_file, write_file, os_remove, lift, query_places.
  repeat (simpl; unfold nonempty, mbind, M_bind;
          rewrite ?Hd, ?orb_true_r, ?Hne, ?Hf, ?Hw, ?lookup_insert_eq, ?Hp, ?Hrows).
  eexists. split; [reflexivity|]. simpl.
  rewrite delete_insert_eq, <- app_assoc. split; reflexivity.
Qed.

(** X3.  An error of the row loop that is not an [sqlite3.Error] (a
    timestamp [int] rejects, say) leaves [parse_firefox_bookmarks] uncaught:
    no record is returned, and the copy stays on disk. *)
Theorem parse_firefox_bookmarks_row_error (profiles_path b : string) (inc : bool)
    (w : world) (walk : list (string * list string)) (db : database)
    (rows : list ff_row) (e : exn) :
  dirs w !! profiles_path = Some walk ->
  find_places walk <> "" ->
  files w !! find_places walk = Some (Sqlite db) ->
  places db = Some rows ->
  writable w (find_places walk +:+ ".tmp") ->
  firefox_rows b inc rows [] = Raise e ->
  e <> SqliteError ->
  exists w',
    parse_firefox_bookmarks profiles_path b inc w = (Raise e, w') /\
    files w' = <[find_places walk +:+ ".tmp" := Sqlite db]> (files w).
Proof.
  intros Hd Hne Hf Hp Hw Hrows He. apply nonempty_true in Hne. unfold nonempty in Hne.
  unfold writable in Hw.
  unfold parse_firefox_bookmarks, mbind, M_bind, path_exists, os_walk, say, try_except,
    copy2, read_file, write_file, os_remove, lift, query_places.
  repeat (simpl; unfold nonempty, mbind, M_bind;
          rewrite ?Hd, ?orb_true_r, ?Hne, ?Hf, ?Hw, ?lookup_insert_eq, ?Hp, ?Hrows).
  rewrite decide_False by exact He.
  eexists. split; reflexivity.
Qed.

End ReadableDatabase.

(** ** The parsers as functions of their input *)

Lemma all_ok_app {A} (l1 l2 : list (outcome A)) :
  all_ok (l1 ++ l2) =
  match all_ok l1 with
  | Ok r1 => match all_ok l2 with
             | Ok r2 => Ok (r1 ++ r2)
             | Raise e => Raise e
             end
  | Raise e => Raise e
  end.
Proof.
  induction l1 as [|[a|e] l1 IH]; simpl.
  - destruct (all_ok l2); reflexivity.
  - rewrite IH. destruct (all_ok l1); [|reflexivity]. destruct (all_ok l2); reflexivity.
  - reflexivity.
Qed.

Lemma appended_app (bookmarks : list pyval) (s1 s2 : list (outcome pyval)) :
  appended bookmarks (s1 ++ s2) =
  match appended bookmarks s1 with
  | Ok bookmarks' => appended bookmarks' s2
  | Raise e => Raise e
  end.
Proof.
  unfold appended. rewrite all_ok_app.
  destruct (all_ok s1) as [r1|e]; [|reflexivity].
  destruct (all_ok s2) as [r2|e]; [|reflexivity]. rewrite app_assoc. reflexivity.
Qed.

Section PlainWalk.

Context `{Platform}.

(** When the favicon step ends the same way for every url and leaves the
    world alone, the walk is a function of the tree: it appends the records
    of the accepted url nodes, stops at the first error, and leaves the world
    alone. *)
Lemma recurse_nodes_still (b : string) (inc : bool) (fav : option string)
    (fetched : string -> outcome pyval) (w : world) (n : node) :
  (forall url, favicon_step inc fav url w = (fetched url, w)) ->
  forall above bookmarks,
    recurse_nodes b inc fav n (folder_path_of above) bookmarks w =
    (appended bookmarks
       (map (fun u => node_record b (fetched (un_url u)) u) (url_nodes n above)), w).
Proof.
  intros Hstep.
  assert (forall name url date_added above bookmarks,
    (match url with
     | None => mret bookmarks
     | Some url =>
       if negb (nonempty url) || negb (http_prefixed url) then mret bookmarks
       else
         let tags := path_tags (folder_path_of above) in
         favicon ← favicon_step inc fav url;
         dateAdded ← lift (convert_chrome_time date_added);
         mret (bookmarks ++
               [make_record (opt_str name) url (folder_path_of above) tags favicon
                            b dateAdded PNone])
     end) w =
    (appended bookmarks
       (map (fun u => node_record b (fetched (un_url u)) u)
            (match accepted_url url with
             | Some u => [mk_url_node above name u date_added]
             | None => []
             end)), w)) as Hleaf.
  { intros name url date_added above bookmarks. unfold appended.
    destruct url as [u|]; simpl; [|rewrite app_nil_r; reflexivity].
    destruct (nonempty u); simpl; [|rewrite app_nil_r; reflexivity].
    destruct (http_prefixed u); simpl; [|rewrite app_nil_r; reflexivity].
    unfold node_record, mbind, M_bind, lift. rewrite Hstep. simpl.
    rewrite <- path_tags_nonempty_segments.
    destruct (fetched u) as [favicon|err]; simpl; [|reflexivity].
    destruct (convert_chrome_time date_added); reflexivity. }
  unfold favicon_step in Hleaf.
  induction n as [type name url date_added | type name url date_added cs IH]
    using node_forall_ind; intros above bookmarks; simpl.
  - destruct (decide (type = Some "url")); [apply Hleaf|].
    unfold appended. destruct (decide (type = Some "folder")); simpl;
      rewrite app_nil_r; reflexivity.
  - destruct (decide (type = Some "url")); [apply Hleaf|].
    destruct (decide (type = Some "folder")).
    2:{ unfold appended. simpl. rewrite app_nil_r. reflexivity. }
    rewrite folder_path_of_snoc. clear Hleaf. revert bookmarks.
    induction IH as [|c cs Hc _ IHcs]; intros bookmarks; simpl.
    + unfold appended. simpl. rewrite app_nil_r. reflexivity.
    + unfold mbind at 1, M_bind at 1. rewrite Hc, map_app, appended_app.
      destruct (appended bookmarks _) as [bookmarks'|err]; [apply IHcs | reflexivity].
Qed.

Lemma each_root_still (b : string) (inc : bool) (fav : option string)
    (fetched : string -> outcome pyval) (w : world) (roots : list (string * node)) :
  (forall url, favicon_step inc fav url w = (fetched url, w)) ->
  forall bookmarks,
    each_root b inc fav roots bookmarks w =
    (appended bookmarks
       (map (fun u => node_record b (fetched (un_url u)) u)
            (flat_map (fun root => url_nodes root.2 []) roots)), w).
Proof.
  intros Hstep.
  unfold each_root. induction roots as [|root roots IH]; intros bookmarks; simpl.
  - unfold appended. simpl. rewrite app_nil_r. reflexivity.
  - unfold mbind at 1, M_bind at 1.
    rewrite (recurse_nodes_still b inc fav fetched w root.2 Hstep []), map_app, appended_app.
    destruct (appended bookmarks _) as [bookmarks'|err]; [apply IH | reflexivity].
Qed.

(** The parser when the favicon step ends the same way for every url. *)
Lemma parse_chromium_bookmarks_still (file_path b : string) (inc : bool)
    (fetched : string -> outcome pyval) (w : world) (roots : list (string * node)) :
  files w !! file_path = Some (BookmarksJson roots) ->
  (forall url, favicon_step inc (assoc b FAVICON_PATHS) url (logged w [LogParsing b]) =
               (fetched url, logged w [LogParsing b])) ->
  parse_chromium_bookmarks file_path b inc w =
  match all_ok (map (fun u => node_record b (fetched (un_url u)) u)
                    (flat_map (fun root => url_nodes root.2 []) roots)) with
  | Ok bookmarks =>
      (Ok bookmarks, logged w [LogParsing b; LogFound b (length bookmarks)])
  | Raise e => (Raise e, logged w [LogParsing b])
  end.
Proof.
  intros Hf Hstep.
  unfold parse_chromium_bookmarks, mbind, M_bind, path_exists, say, read_file, lift.
  rewrite Hf. simpl. rewrite Hf. simpl.
  unfold logged in Hstep. rewrite (each_root_still _ _ _ fetched _ _ Hstep).
  unfold appended.
  destruct (all_ok _) as [bookmarks|e]; simpl; [|reflexivity].
  unfold logged. simpl. rewrite <- app_assoc. reflexivity.
Qed.

(** X4.  Without [--include-favicons], [parse_chromium_bookmarks] on a
    bookmarks document is a function of the document alone: it returns, in
    the order of the walk, one record per accepted url node, built from the
    node's name, url and [date_added] and from the folders above it; the
    first timestamp [convert_chrome_time] rejects aborts the whole parse with
    that error; and no file is touched. *)
Theorem parse_chromium_bookmarks_plain (file_path b : string) (w : world)
    (roots : list (string * node)) :
  files w !! file_path = Some (BookmarksJson roots) ->
  parse_chromium_bookmarks file_path b false w =
  match all_ok (map (plain_record b)
                    (flat_map (fun root => url_nodes root.2 []) roots)) with
  | Ok bookmarks =>
      (Ok bookmarks, logged w [LogParsing b; LogFound b (length bookmarks)])
  | Raise e => (Raise e, logged w [LogParsing b])
  end.
Proof.
  intros Hf.
  apply (parse_chromium_bookmarks_still file_path b false (fun _ => Ok PNone) w roots Hf).
  reflexivity.
Qed.

(** X12.  With [--include-favicons], a browser without a favicon database
    (no entry in [FAVICON_PATHS], or nothing at the path) is parsed exactly
    as without the flag. *)
Theorem absent_favicon_database_is_ignored (file_path b : string) (w : world)
    (roots : list (string * node)) :
  files w !! file_path = Some (BookmarksJson roots) ->
  (forall db_path, assoc b FAVICON_PATHS = Some db_path ->
                   files w !! db_path = None /\ dirs w !! db_path = None) ->
  parse_chromium_bookmarks file_path b true w =
  parse_chromium_bookmarks file_path b false w.
Proof.
  intros Hf Hdb.
  rewrite (parse_chromium_bookmarks_still file_path b false (fun _ => Ok PNone) w roots Hf)
    by reflexivity.
  apply (parse_chromium_bookmarks_still file_path b true (fun _ => Ok PNone) w roots Hf).
  intros url. unfold favicon_step.
  destruct (assoc b FAVICON_PATHS) as [db_path|]; [|reflexivity].
  destruct (nonempty db_path); [|reflexivity].
  destruct (Hdb db_path eq_refl) as [Hfiles Hdirs].
  apply get_favicon_base64_missing; assumption.
Qed.


(** X22.  With [--include-favicons] and a favicon database SQLite can
    read, on a machine where no stale [<db>.tmp] lies around and
    [urlparse] accepts every url, [parse_chromium_bookmarks] returns one
    record per accepted url node, in the order of the walk, whose favicon is
    the image the database holds for the node's [scheme://netloc/favicon.ico]
    ([None] when it holds none); each lookup removes its copy, so the files
    are afterwards as they were. *)
Theorem parse_chromium_bookmarks_with_favicons (file_path b db_path : string) (w : world)
    (roots : list (string * node)) (db : database) (icons : list (string * list byte))
    (parsed : string -> string * string) :
  files w !! file_path = Some (BookmarksJson roots) ->
  assoc b FAVICON_PATHS = Some db_path -> db_path <> "" ->
  files w !! db_path = Some (Sqlite db) ->
  favicons db = Some icons ->
  files w !! (db_path +:+ ".tmp") = None ->
  writable w (db_path +:+ ".tmp") ->
  (forall url, urlparse url = Ok (parsed url)) ->
  parse_chromium_bookmarks file_path b true w =
  match all_ok (map (fun u => node_record b
                                (Ok (stored_favicon icons (parsed (un_url u)))) u)
                    (flat_map (fun root => url_nodes root.2 []) roots)) with
  | Ok bookmarks =>
      (Ok bookmarks, logged w [LogParsing b; LogFound b (length bookmarks)])
  | Raise e => (Raise e, logged w [LogParsing b])
  end.
Proof.
  intros Hf Hfav Hne Hdb Hicons Hstale Hw Hparse.
  apply (parse_chromium_bookmarks_still file_path b true
           (fun url => Ok (stored_favicon icons (parsed url))) w roots Hf).
  intros url. unfold favicon_step. rewrite Hfav.
  apply nonempty_true in Hne. rewrite Hne.
  rewrite (get_favicon_base64_run db_path url (logged w [LogParsing b]) db icons
             (parsed url) Hdb Hicons (Hparse url) Hw).
  unfold set_files, logged. simpl. rewrite delete_id by exact Hstale. reflexivity.
Qed.

End PlainWalk.

Section FirefoxRows.

Context `{Platform}.

Lemma firefox_row_kept (b : string) (inc : bool) (row : ff_row)
    (bookmarks bookmarks' : list pyval) :
  firefox_row b inc row bookmarks = Ok bookmarks' ->
  match accepted_url (row_url row) with
  | None => bookmarks' = bookmarks
  | Some url =>
      exists dateAdded lastVisited,
        convert_firefox_time (row_date_added row) = Ok dateAdded /\
        convert_firefox_time (row_last_visited row) = Ok lastVisited /\
        bookmarks' = bookmarks ++
          [make_record (opt_str (row_name row)) url (default "" (row_category row))
             (nonempty_segments (default "" (row_category row)))
             (match inc, row_favicon_data row with
              | true, x :: data => PStr (png_data_uri (x :: data))
              | _, _ => PNone
              end)
             b dateAdded lastVisited]
  end.
Proof.
  unfold firefox_row, accepted_url. intros Hrun.
  destruct (row_url row) as [u|]; [|congruence].
  destruct (nonempty u); simpl in *; [|congruence].
  destruct (http_prefixed u); simpl in *; [|congruence].
  apply obind_ok in Hrun as (dateAdded & Hdate & Hrun).
  apply obind_ok in Hrun as (lastVisited & Hlast & Hrun).
  injection Hrun as <-. exists dateAdded, lastVisited.
  split; [exact Hdate|]. split; [exact Hlast|]. do 3 f_equal.
  rewrite <- path_tags_nonempty_segments.
  destruct (row_category row) as [c|]; [|reflexivity]. simpl.
  destruct (nonempty c) eqn:Hc; [reflexivity|].
  apply nonempty_false in Hc. subst. reflexivity.
Qed.

(** X5.  The records the Firefox row loop returns correspond one to one, in
    order, to the rows whose url passes the test: name, url and browser are
    copied, a [NULL] folder path becomes the empty category, the tags are
    the non-empty segments of the category, the two timestamps go through
    [convert_firefox_time], and the favicon is the data URI of the row's
    blob only when favicons are requested and the blob is not empty. *)
Theorem firefox_rows_correspond (b : string) (inc : bool) (rows : list ff_row)
    (bookmarks : list pyval) :
  firefox_rows b inc rows [] = Ok bookmarks ->
  Forall2 (fun row r =>
             exists url,
               accepted_url (row_url row) = Some url /\
               field "name" r = Some (opt_str (row_name row)) /\
               field "url" r = Some (PStr url) /\
               field "category" r = Some (PStr (default "" (row_category row))) /\
               field "tags" r =
                 Some (PList (map PStr
                   (nonempty_segments (default "" (row_category row))))) /\
               field "favicon" r =
                 Some (match inc, row_favicon_data row with
                       | true, x :: data => PStr (png_data_uri (x :: data))
                       | _, _ => PNone
                       end) /\
               field "browser" r = Some (PStr b) /\
               Ok <$> field "dateAdded" r = Some (convert_firefox_time (row_date_added row)) /\
               Ok <$> field "lastVisited" r = Some (convert_firefox_time (row_last_visited row)))
          (kept_rows rows) bookmarks.
Proof.
  unfold firefox_rows, kept_rows.
  enough (forall acc acc', for_each_pure (firefox_row b inc) rows acc = Ok acc' ->
            exists added, acc' = acc ++ added /\
              Forall2 (fun row r =>
                exists url,
                  accepted_url (row_url row) = Some url /\
                  field "name" r = Some (opt_str (row_name row)) /\
                  field "url" r = Some (PStr url) /\
                  field "category" r = Some (PStr (default "" (row_category row))) /\
                  field "tags" r =
                    Some (PList (map PStr
                      (nonempty_segments (default "" (row_category row))))) /\
                  field "favicon" r =
                    Some (match inc, row_favicon_data row with
                          | true, x :: data => PStr (png_data_uri (x :: data))
                          | _, _ => PNone
                          end) /\
                  field "browser" r = Some (PStr b) /\
                  Ok <$> field "dateAdded" r = Some (convert_firefox_time (row_date_added row)) /\
                  Ok <$> field "lastVisited" r = Some (convert_firefox_time (row_last_visited row)))
                (filter (fun row => is_Some (accepted_url (row_url row))) rows) added)
    as Hgen.
  { intros Hrun. apply Hgen in Hrun as (added & -> & Hadded). exact Hadded. }
  induction rows as [|row rows IH]; intros acc acc' Hrun; simpl in Hrun.
  - injection Hrun as <-. exists []. rewrite app_nil_r. split; [reflexivity | constructor].
  - apply obind_ok in Hrun as (acc1 & Hrow & Hrest).
    apply firefox_row_kept in Hrow. apply IH in Hrest as (added & -> & Hadded).
    rewrite filter_cons. destruct (accepted_url (row_url row)) as [url|] eqn:Hurl.
    + destruct Hrow as (dateAdded & lastVisited & Hdate & Hlast & ->).
      rewrite decide_True by eauto.
      eexists. rewrite <- app_assoc. split; [reflexivity|]. simpl.
      constructor; [|exact Hadded].
      exists url. rewrite Hdate, Hlast. repeat split. exact Hurl.
    + subst acc1. rewrite decide_False by (intros [? ?]; discriminate).
      exists added. split; [reflexivity | exact Hadded].
Qed.

End FirefoxRows.

(** ** The search for the Firefox database *)

Lemma path_join_nonempty (a b : string) : b <> "" -> path_join a b <> "".
Proof.
  intros Hb. unfold path_join. destruct (_ || _).
  - destruct a; [rewrite app_nil_l_str; exact Hb | rewrite app_cons_str; discriminate].
  - destruct a; [rewrite app_nil_l_str | rewrite app_cons_str]; discriminate.
Qed.

(** X6.  [find_places] takes the first directory of the walk that lists
    [places.sqlite], whatever comes after it, and finds nothing exactly when
    no directory of the walk lists that file. *)
Theorem find_places_first (walk : list (string * list string)) :
  (find_places walk = "" <->
   Forall (fun entry => "places.sqlite" ∉ entry.2) walk) /\
  (forall before dirpath filenames after,
     walk = before ++ (dirpath, filenames) :: after ->
     Forall (fun entry => "places.sqlite" ∉ entry.2) before ->
     "places.sqlite" ∈ filenames ->
     find_places walk = path_join dirpath "places.sqlite").
Proof.
  split.
  - induction walk as [|[dirpath filenames] walk IH]; simpl.
    + split; [constructor | reflexivity].
    + case_bool_decide as Hin.
      * split.
        -- intros Hempty. exfalso. revert Hempty. apply path_join_nonempty. discriminate.
        -- intros Hall. inversion Hall; subst. simpl in *. contradiction.
      * rewrite IH. split.
        -- intros Hall. constructor; assumption.
        -- intros Hall. inversion Hall; assumption.
  - intros before dirpath filenames after -> Hbefore Hin.
    induction Hbefore as [|[d fs] before Hd _ IH]; simpl.
    + rewrite bool_decide_eq_true_2 by exact Hin. reflexivity.
    + simpl in Hd. rewrite bool_decide_eq_false_2 by exact Hd. exact IH.
Qed.

(** X1 on [Cases.icons_db], for a page of the site that has an image. *)
Lemma get_favicon_base64_found_witness :
  exists w',
    @get_favicon_base64 Samples.platform "/cfg/chrome/Favicons" "https://a.example/page"
      (Samples.favicons_world (Sqlite Cases.icons_db)) =
      (Ok (PStr "data:image/png;base64,iVBO"), w') /\
    files w' = delete "/cfg/chrome/Favicons.tmp"
                 (files (Samples.favicons_world (Sqlite Cases.icons_db))) /\
    dirs w' = ∅ /\ unwritable w' = ∅ /\ log w' = [].
Proof.
  apply (@get_favicon_base64_found Samples.platform "/cfg/chrome/Favicons"
           "https://a.example/page" (Samples.favicons_world (Sqlite Cases.icons_db))
           Cases.icons_db
           [("https://a.example/favicon.ico", [Byte.x89; Byte.x50; Byte.x4e]);
            ("httpx://c.example/favicon.ico", [])]
           ("https", "a.example")); reflexivity.
Defined.

(** X2 on a profile whose database holds [Samples.row_d] and
    [Samples.row_e]. *)
Lemma parse_firefox_bookmarks_read_witness :
  exists w',
    @parse_firefox_bookmarks Samples.platform "/cfg/firefox" "firefox" false
      (Samples.firefox_world (Sqlite Cases.places_db)) =
      (Ok [make_record (PStr "D") "https://d.example/" "Work/Dev" ["Work"; "Dev"] PNone
             "firefox" (PStr "2023-11-14T22:13:20Z") PNone;
           make_record (PStr "E") "httpx://e.example/" "" [] PNone "firefox" PNone PNone],
       w') /\
    files w' = delete "/cfg/firefox/p1/places.sqlite.tmp"
                 (files (Samples.firefox_world (Sqlite Cases.places_db))) /\
    log w' = [LogParsingFrom "/cfg/firefox/p1/places.sqlite"; LogFirefoxFound 2].
Proof.
  apply (@parse_firefox_bookmarks_read Samples.platform "/cfg/firefox" "firefox" false
           (Samples.firefox_world (Sqlite Cases.places_db))
           [("/cfg/firefox", []); ("/cfg/firefox/p1", ["places.sqlite"])]
           Cases.places_db [Samples.row_d; Samples.row_e]).
  - reflexivity.
  - discriminate.
  - reflexivity.
  - reflexivity.
  - reflexivity.
  - vm_compute. reflexivity.
Defined.

(** X3 on a database with the row [Cases.row_f]. *)
Lemma parse_firefox_bookmarks_row_error_witness :
  exists w',
    @parse_firefox_bookmarks Samples.platform "/cfg/firefox" "firefox" false
      (Samples.firefox_world (Sqlite Cases.broken_places_db)) = (Raise ValueError, w') /\
    files w' = <["/cfg/firefox/p1/places.sqlite.tmp" := Sqlite Cases.broken_places_db]>
                 (files (Samples.firefox_world (Sqlite Cases.broken_places_db))).
Proof.
  apply (@parse_firefox_bookmarks_row_error Samples.platform "/cfg/firefox" "firefox" false
           (Samples.firefox_world (Sqlite Cases.broken_places_db))
           [("/cfg/firefox", []); ("/cfg/firefox/p1", ["places.sqlite"])]
           Cases.broken_places_db [Samples.row_d; Cases.row_f] ValueError).
  - reflexivity.
  - discriminate.
  - reflexivity.
  - reflexivity.
  - reflexivity.
  - vm_compute. reflexivity.
  - discriminate.
Defined.

(** X4 on [Samples.bar]. *)
Lemma parse_chromium_bookmarks_plain_witness :
  @parse_chromium_bookmarks Samples.platform "/cfg/chrome/Bookmarks" "chrome" false
    (Samples.chrome_world Samples.bar) =
  (Ok [make_record (PStr "A") "https://a.example/" "Bookmarks bar" ["Bookmarks bar"]
         PNone "chrome" (PStr "2024-01-17T21:20:00Z") PNone;
       make_record (PStr "C") "httpx://c.example/" "Bookmarks bar/Dev"
         ["Bookmarks bar"; "Dev"] PNone "chrome" PNone PNone],
   logged (Samples.chrome_world Samples.bar) [LogParsing "chrome"; LogFound "chrome" 2]).
Proof.
  apply (@parse_chromium_bookmarks_plain Samples.platform "/cfg/chrome/Bookmarks" "chrome"
           (Samples.chrome_world Samples.bar) [("bookmark_bar", Samples.bar)]).
  reflexivity.
Defined.

(** X5 on the rows [Samples.row_d] and [Samples.row_e]. *)
Lemma firefox_rows_correspond_witness :
  exists bookmarks,
    @firefox_rows Samples.platform "firefox" true [Samples.row_d; Samples.row_e] [] =
      Ok bookmarks /\
    length bookmarks = 2%nat.
Proof.
  eexists. split; [vm_compute; reflexivity|].
  apply (Forall2_length _ _ _
           (@firefox_rows_correspond Samples.platform "firefox" true
              [Samples.row_d; Samples.row_e] _ ltac:(vm_compute; reflexivity))).
Defined.

(** X6 on a walk that meets [places.sqlite] in its second and in its third
    directory. *)
Lemma find_places_first_witness :
  find_places [("/cfg/firefox", ["profiles.ini"]);
               ("/cfg/firefox/p1", ["places.sqlite"]);
               ("/cfg/firefox/p2", ["places.sqlite"])] =
  "/cfg/firefox/p1/places.sqlite".
Proof.
  apply (proj2 (find_places_first _) [("/cfg/firefox", ["profiles.ini"])]
           "/cfg/firefox/p1" ["places.sqlite"] [("/cfg/firefox/p2", ["places.sqlite"])]).
  - reflexivity.
  - constructor; [|constructor]. simpl. set_solver.
  - set_solver.
Defined.

(** X12 on [Samples.chrome_world], which has no favicon database. *)
Lemma absent_favicon_database_is_ignored_witness :
  @parse_chromium_bookmarks Samples.platform "/cfg/chrome/Bookmarks" "chrome" true
    (Samples.chrome_world Samples.bar) =
  @parse_chromium_bookmarks Samples.platform "/cfg/chrome/Bookmarks" "chrome" false
    (Samples.chrome_world Samples.bar).
Proof.
  apply (@absent_favicon_database_is_ignored Samples.platform "/cfg/chrome/Bookmarks"
           "chrome" (Samples.chrome_world Samples.bar) [("bookmark_bar", Samples.bar)]).
  - reflexivity.
  - intros db_path [= <-]. split; reflexivity.
Defined.


(** X22 on [Cases.chrome_favicons_world]: the page of [a.example] gets the
    stored image, the page of [c.example], whose stored image is empty,
    gets none. *)
Lemma parse_chromium_bookmarks_with_favicons_witness :
  @parse_chromium_bookmarks Samples.platform "/cfg/chrome/Bookmarks" "chrome" true
    Cases.chrome_favicons_world =
  (Ok [make_record (PStr "A") "https://a.example/" "Bookmarks bar" ["Bookmarks bar"]
         (PStr "data:image/png;base64,iVBO") "chrome" (PStr "2024-01-17T21:20:00Z") PNone;
       make_record (PStr "C") "httpx://c.example/" "Bookmarks bar/Dev"
         ["Bookmarks bar"; "Dev"] PNone "chrome" PNone PNone],
   logged Cases.chrome_favicons_world [LogParsing "chrome"; LogFound "chrome" 2]).
Proof.
  apply (@parse_chromium_bookmarks_with_favicons Samples.platform "/cfg/chrome/Bookmarks"
           "chrome" "/cfg/chrome/Favicons" Cases.chrome_favicons_world
           [("bookmark_bar", Samples.bar)] Cases.icons_db
           [("https://a.example/favicon.ico", [Byte.x89; Byte.x50; Byte.x4e]);
            ("httpx://c.example/favicon.ico", [])]
           (fun url => ((Samples.until ":" url).1,
                        (Samples.until "/"
                           (String.substring 2 (String.length (Samples.until ":" url).2)
                              (Samples.until ":" url).2)).1))).
  - reflexivity.
  - reflexivity.
  - discriminate.
  - reflexivity.
  - reflexivity.
  - reflexivity.
  - reflexivity.
  - intros url. reflexivity.
Defined.

(** ** The driver, beyond the claims *)

(** The merge loop on a list of records that all have a url. *)
Lemma merge_new_list (news : list pyval) :
  Forall (fun r => exists k, url_key r = Ok k) news ->
  forall items seen,
    merge_new news (PList items, seen) =
    Ok (PList (items ++ first_seen seen news), seen_after seen news).
Proof.
  unfold merge_new. induction 1 as [|r news (k & Hk) _ IH]; intros items seen.
  - simpl. rewrite app_nil_r. reflexivity.
  - cbn [for_each_pure first_seen seen_after]. rewrite Hk.
    case_bool_decide as Hseen.
    + assert (merge_one r (PList items, seen) = Ok (PList items, seen)) as ->.
      { unfold merge_one. rewrite Hk. simpl.
        rewrite bool_decide_eq_true_2 by exact Hseen. reflexivity. }
      simpl. rewrite IH. do 2 f_equal. f_equal. symmetry.
      apply subseteq_union_1_L, singleton_subseteq_l, Hseen.
    + assert (merge_one r (PList items, seen) =
              Ok (PList (items ++ [r]), {[k]} ∪ seen)) as ->.
      { unfold merge_one. rewrite Hk. simpl.
        rewrite bool_decide_eq_false_2 by exact Hseen. reflexivity. }
      simpl. rewrite IH, <- app_assoc. reflexivity.
Qed.

Section DriverRuns.

Context `{Platform}.

Lemma parse_all_keys (a : args) (browsers : list string) :
  forall w news w',
    parse_all a browsers w = (Ok news, w') ->
    Forall (fun r => exists k, url_key r = Ok k) news.
Proof.
  induction browsers as [|b browsers IH]; intros w news w' Hrun; simpl in Hrun.
  - apply ret_ok in Hrun as [Heq _]. subst. constructor.
  - apply bind_ok in Hrun as (new & w1 & Hnew & Hrun).
    apply bind_ok in Hrun as (rest & w2 & Hrest & Hret).
    apply ret_ok in Hret as [Heq _]. subst. apply Forall_app. split.
    + apply parse_browser_emitted in Hnew. eapply Forall_impl; [exact Hnew|].
      intros r Hr. apply emitted_url_key in Hr as (url & _ & Hk). eauto.
    + eapply IH, Hrest.
Qed.



(** X9.  An existing output that is JSON but not a list can pass the
    seeding step: the empty object and the empty string have nothing to
    iterate over.  The run then stops with [AttributeError] at the first
    record a parser returns, since only a list has [append]; nothing is
    backed up or written. *)
Theorem non_list_seed_breaks_append (a : args) (w w2 : world) (v r : pyval)
    (b : string) (rest : list string) (news : list pyval) :
  merge_existing a = true ->
  files w !! OUTPUT_FILE = Some (LinksJson v) ->
  v = PDict [] \/ v = PStr "" ->
  browsers_to_scan a = b :: rest ->
  parse_browser a b (after_load a w) = (Ok (r :: news), w2) ->
  load_existing a w = (Ok (v, ∅), after_load a w) /\
  main a w = (Raise AttributeError, w2).
Proof.
  intros Hm Hfile Hv Hbrowsers Hparse.
  assert (load_existing a w = (Ok (v, ∅), after_load a w)) as Hload.
  { unfold after_load. rewrite (load_existing_merge a w _ Hm Hfile).
    destruct Hv as [-> | ->]; reflexivity. }
  split; [exact Hload|].
  pose proof (parse_browser_emitted _ _ _ _ _ Hparse) as Hr.
  apply Forall_cons in Hr as [Hr _].
  apply emitted_url_key in Hr as (url & _ & Hk).
  unfold main, mbind, M_bind. rewrite Hload, Hbrowsers.
  unfold scan. cbn [for_each]. unfold mbind, M_bind. rewrite Hparse.
  unfold lift, merge_new. cbn [for_each_pure].
  assert (merge_one r (v, ∅) = Raise AttributeError) as ->; [|reflexivity].
  unfold merge_one. rewrite Hk. simpl.
  rewrite bool_decide_eq_false_2 by set_solver.
  destruct Hv as [-> | ->]; reflexivity.
Qed.

Lemma backup_and_write_frame (v : pyval) (w w' : world) (r : outcome unit) :
  backup_and_write v w = (r, w') ->
  dirs w' = dirs w /\ unwritable w' = unwritable w /\
  forall p, p <> OUTPUT_FILE -> p <> OUTPUT_FILE +:+ ".bak" ->
            files w' !! p = files w !! p.
Proof.
  intros Hend. rewrite backup_and_write_run in Hend. cbv zeta in Hend.
  repeat match type of Hend with
         | context [match files ?w0 !! ?p with _ => _ end] => destruct (files w0 !! p)
         | context [match py_len ?v with _ => _ end] => destruct (py_len v)
         | context [if ?c then _ else _] => destruct c
         end;
    injection Hend as <- <-; simpl; repeat split;
    intros p Hp1 Hp2; rewrite ?lookup_insert_ne by congruence; reflexivity.
Qed.

(** What [main] may change. *)
Lemma main_changes (a : args) (w w' : world) (r : outcome unit) :
  main a w = (r, w') ->
  dirs w' = dirs w /\ unwritable w' = unwritable w /\
  (forall p, p <> OUTPUT_FILE -> p <> OUTPUT_FILE +:+ ".bak" ->
             ends_with ".tmp" p = false -> files w' !! p = files w !! p).
Proof.
  intros Hrun.
  apply main_inv in Hrun as [(e & -> & Hd & Hu & Hf) | (st & st' & w2 & _ & _ & Hend & Hd & Hu & Hf)].
  { split; [exact Hd|]. split; [exact Hu|]. intros p _ _ Hp. apply Hf, Hp. }
  apply backup_and_write_frame in Hend as (Hd' & Hu' & Hf').
  rewrite Hd', Hu'. split; [exact Hd|]. split; [exact Hu|].
  intros p Hp1 Hp2 Hp3. rewrite Hf' by assumption. apply Hf, Hp3.
Qed.


(** A second merging run that meets no new url. *)
Lemma rerun_with_known_urls (a : args) (w w1 w2 w2' : world)
    (news news' : list pyval) :
  merge_existing a = true ->
  main a w = (Ok tt, w1) ->
  parse_all a (browsers_to_scan a) (after_load a w) = (Ok news, w2) ->
  parse_all a (browsers_to_scan a) (after_load a w1) = (Ok news', w2') ->
  (forall b', b' ∈ news' -> exists b, b ∈ news /\ url_key b = url_key b') ->
  ends_with ".tmp" OUTPUT_FILE = false ->
  writable w OUTPUT_FILE -> writable w (OUTPUT_FILE +:+ ".bak") ->
  exists written w3,
    files w1 !! OUTPUT_FILE = Some (LinksJson written) /\
    main a w1 = (Ok tt, w3) /\
    files w3 !! OUTPUT_FILE = Some (LinksJson written) /\
    files w3 !! (OUTPUT_FILE +:+ ".bak") = Some (LinksJson written).
Proof.
  intros Hm Hrun Hparse Hparse' Hsame Htmp Hwout Hwbak.
  assert (OUTPUT_FILE +:+ ".bak" <> OUTPUT_FILE) as Hne
    by (intros Heq; symmetry in Heq; revert Heq; apply str_neq_app; discriminate).
  apply main_inv in Hrun
    as [(e & [=] & _) | ([v processed] & [v' seen'] & w2x & Hload & Hscan & Hend & Hfr)].
  apply load_existing_ok in Hload as (_ & _ & _ & _ & items & ks & Hit & Hks & ->).
  apply scan_parse_all in Hscan as (news0 & Hparse0 & Hmerge).
  rewrite Hparse in Hparse0. injection Hparse0 as <- <-.
  destruct (merge_new_items _ _ _ _ _ _ Hmerge Hit) as (Hit' & -> & _).
  destruct (first_seen_keys (list_to_set ks) news) as (ks2 & Hks2 & _ & _ & Hafter).
  simpl in Hend.
  pose proof (writable_frame _ _ _ Hfr Hwout) as Hwout2.
  pose proof (writable_frame _ _ _ Hfr Hwbak) as Hwbak2.
  pose proof (backup_and_write_frame _ _ _ _ Hend) as (Hd1 & Hu1 & _).
  assert (files w1 !! OUTPUT_FILE = Some (LinksJson v')) as Hout.
  { unfold writable in Hwout2. rewrite backup_and_write_run in Hend.
    cbv beta zeta in Hend. rewrite Hwout2 in Hend.
    repeat match type of Hend with
           | context [match files ?w0 !! ?p with _ => _ end] => destruct (files w0 !! p)
           | context [match py_len ?v with _ => _ end] => destruct (py_len v)
           | context [if ?c then _ else _] => destruct c
           end; try discriminate;
      injection Hend as <-; simpl; apply lookup_insert_eq. }
  assert (keys_of (items ++ first_seen (list_to_set ks) news) (ks ++ ks2)) as Hall
    by (apply Forall2_app; assumption).
  assert (load_existing a w1 = (Ok (v', list_to_set (ks ++ ks2)), after_load a w1)) as Hload1.
  { unfold after_load. rewrite (load_existing_merge a w1 _ Hm Hout). simpl.
    rewrite Hit', (add_urls_of_keys _ _ Hall). reflexivity. }
  assert (scan a (browsers_to_scan a) (v', list_to_set (ks ++ ks2)) (after_load a w1) =
          (Ok (v', list_to_set (ks ++ ks2)), w2')) as Hscan1.
  { eapply scan_of_parse_all; [exact Hparse'|]. apply merge_new_nothing_new.
    pose proof (parse_all_keys _ _ _ _ _ Hparse') as Hkeys.
    apply Forall_forall. intros b' Hb'.
    rewrite Forall_forall in Hkeys. destruct (Hkeys _ Hb') as (k & Hk).
    exists k. split; [exact Hk|].
    destruct (Hsame _ Hb') as (b & Hb & Heq). rewrite Hk in Heq.
    rewrite list_to_set_app. apply elem_of_union.
    destruct (first_seen_covers (list_to_set ks) news b k Hb Heq) as [Hin | (x & Hx & Hkx)];
      [left; exact Hin | right].
    apply elem_of_list_to_set.
    clear -Hks2 Hx Hkx. induction Hks2 as [|y ky l kl Hy _ IH]; [inversion Hx|].
    apply elem_of_cons in Hx as [<- | Hx].
    - rewrite Hkx in Hy. injection Hy as <-. left.
    - right. apply IH, Hx. }
  assert (frame w1 w2') as (Hd2 & Hu2 & Hf2)
    by (eapply frame_trans; [eapply frames_load_existing, Hload1 | eapply frames_scan, Hscan1]).
  destruct Hfr as (Hd0 & Hu0 & _).
  destruct (py_iter_len _ _ Hit') as [n Hlen].
  exists v'. eexists. split; [exact Hout|]. split.
  { unfold main, mbind, M_bind. rewrite Hload1, Hscan1. simpl.
    rewrite backup_and_write_run. cbv zeta.
    rewrite (Hf2 _ Htmp), Hout. simpl.
    unfold writable in Hwout, Hwbak.
    rewrite Hd2, Hu2, Hd1, Hu1, Hd0, Hu0, Hwbak, Hlen. simpl. rewrite Hwout.
    reflexivity. }
  simpl. split.
  - apply lookup_insert_eq.
  - rewrite lookup_insert_ne, lookup_insert_eq by (intros Heq; apply Hne; auto). reflexivity.
Qed.

(** X11.  Running [main] a second time with [--merge-existing], on the
    world the first run left and with parsers that return no url the first
    run had not met, writes the collection of the first run again, unchanged
    and in the same order, and the backup then holds that collection too. *)
Theorem rerun_writes_the_same (a : args) (w w1 w2 w2' : world)
    (news news' : list pyval) :
  merge_existing a = true ->
  main a w = (Ok tt, w1) ->
  parse_all a (browsers_to_scan a) (after_load a w) = (Ok news, w2) ->
  parse_all a (browsers_to_scan a) (after_load a w1) = (Ok news', w2') ->
  (forall b', b' ∈ news' -> exists b, b ∈ news /\ url_key b = url_key b') ->
  ends_with ".tmp" OUTPUT_FILE = false ->
  writable w OUTPUT_FILE -> writable w (OUTPUT_FILE +:+ ".bak") ->
  exists written w3,
    files w1 !! OUTPUT_FILE = Some (LinksJson written) /\
    main a w1 = (Ok tt, w3) /\
    files w3 !! OUTPUT_FILE = Some (LinksJson written) /\
    files w3 !! (OUTPUT_FILE +:+ ".bak") = Some (LinksJson written).
Proof. apply rerun_with_known_urls. Qed.


End DriverRuns.

(** ** Missing input *)

Lemma assoc_fst {A} (k : string) (l : list (string * A)) :
  k ∈ map fst l -> exists v, assoc k l = Some v /\ (k, v) ∈ l.
Proof.
  induction l as [|[k' v'] l IH]; simpl; intros Hin; [inversion Hin|].
  destruct (String.eqb k k') eqn:Hk.
  - apply String.eqb_eq in Hk as ->. exists v'. split; [reflexivity | left].
  - apply elem_of_cons in Hin as [-> | Hin]; [rewrite String.eqb_refl in Hk; discriminate|].
    destruct (IH Hin) as (v & Hv & Hel). exists v. split; [exact Hv | right; exact Hel].
Qed.

Section MissingInput.

Context `{Platform}.

(** A browser whose file or profile directory is not there gives no record
    and one line. *)
Lemma parse_browser_missing (a : args) (b p : string) (w : world) :
  assoc b BROWSER_PATHS = Some p ->
  files w !! p = None -> dirs w !! p = None ->
  exists ev, parse_browser a b w = (Ok [], logged w [ev]).
Proof.
  intros Hp Hf Hd.
  unfold parse_browser, browser_path, mbind, M_bind, lift. rewrite Hp.
  destruct (String.eqb b "firefox").
  - exists (LogProfilesNotFound p).
    unfold parse_firefox_bookmarks, mbind, M_bind, path_exists. rewrite Hf, Hd. reflexivity.
  - exists (LogBookmarksNotFound b p).
    unfold parse_chromium_bookmarks, mbind, M_bind, path_exists. rewrite Hf, Hd. reflexivity.
Qed.

Lemma parse_all_missing (a : args) (browsers : list string) :
  forall w,
    (forall b, b ∈ browsers ->
               exists p, assoc b BROWSER_PATHS = Some p /\
                         files w !! p = None /\ dirs w !! p = None) ->
    exists evs, parse_all a browsers w = (Ok [], logged w evs) /\
                length evs = length browsers.
Proof.
  induction browsers as [|b browsers IH]; intros w Hall; simpl.
  - exists []. unfold logged. rewrite app_nil_r. destruct w. split; reflexivity.
  - destruct (Hall b ltac:(left)) as (p & Hp & Hf & Hd).
    destruct (parse_browser_missing a b p w Hp Hf Hd) as (ev & Hrun).
    destruct (IH (logged w [ev])) as (evs & Hrest & Hlen).
    { intros b' Hb'. apply Hall. right. exact Hb'. }
    exists (ev :: evs). unfold mbind, M_bind. rewrite Hrun, Hrest. simpl.
    unfold logged. simpl. rewrite <- app_assoc. split; [reflexivity | congruence].
Qed.

(** X14.  A run over all browsers, without [--merge-existing], on a machine
    where none of the configured bookmark files and profile directories
    exists, prints one line per browser and writes the empty list: an
    existing output is replaced by [[]], its prior content surviving in
    [<output>.bak] only. *)
Theorem run_without_browser_data (a : args) (w : world) :
  browser a = None -> merge_existing a = false ->
  (forall b p, (b, p) ∈ BROWSER_PATHS -> files w !! p = None /\ dirs w !! p = None) ->
  dirs w !! OUTPUT_FILE = None ->
  writable w OUTPUT_FILE -> writable w (OUTPUT_FILE +:+ ".bak") ->
  exists w' evs,
    main a w = (Ok tt, w') /\
    files w' !! OUTPUT_FILE = Some (LinksJson (PList [])) /\
    (forall c, files w !! OUTPUT_FILE = Some c ->
               files w' !! (OUTPUT_FILE +:+ ".bak") = Some c) /\
    log w' = log w ++ evs /\
    length evs = (length BROWSER_PATHS +
                  match files w !! OUTPUT_FILE with Some _ => 3 | None => 2 end)%nat.
Proof.
  intros Hb Hm Hmissing Hdir Hwout Hwbak.
  assert (OUTPUT_FILE +:+ ".bak" <> OUTPUT_FILE) as Hne
    by (intros Heq; symmetry in Heq; revert Heq; apply str_neq_app; discriminate).
  destruct (parse_all_missing a (browsers_to_scan a) w) as (evs & Hparse & Hlen).
  { unfold browsers_to_scan. rewrite Hb. intros b Hin.
    apply assoc_fst in Hin as (p & Hp & Hel). exists p. split; [exact Hp|].
    apply (Hmissing b p Hel). }
  assert (length evs = length BROWSER_PATHS) as Hlen'.
  { rewrite Hlen. unfold browsers_to_scan. rewrite Hb. apply length_map. }
  pose proof (scan_of_parse_all a _ (PList [], ∅) w _ _ _ Hparse eq_refl) as Hscan.
  unfold main, mbind, M_bind, writable in *.
  rewrite load_existing_fresh by (left; exact Hm). rewrite Hscan. simpl.
  rewrite backup_and_write_run. cbv beta zeta. simpl.
  rewrite Hwout, Hwbak, Hdir.
  rewrite (bool_decide_eq_false_2 (is_Some None)) by (intros [? ?]; discriminate).
  rewrite orb_false_r.
  destruct (files w !! OUTPUT_FILE) as [c|] eqn:Hfile.
  - rewrite bool_decide_eq_true_2 by eauto. simpl.
    eexists. eexists. split; [reflexivity|]. simpl.
    split; [apply lookup_insert_eq|]. split.
    + intros c' [= <-]. rewrite lookup_insert_ne, lookup_insert_eq by (intros Heq; apply Hne; auto). reflexivity.
    + rewrite <- !app_assoc. split; [reflexivity|].
      rewrite !length_app, Hlen'. simpl. lia.
  - rewrite bool_decide_eq_false_2 by (intros [? ?]; discriminate). simpl.
    eexists. eexists. split; [reflexivity|]. simpl.
    split; [apply lookup_insert_eq|]. split; [discriminate|].
    rewrite <- !app_assoc. split; [reflexivity|].
    rewrite !length_app, Hlen'. simpl. lia.
Qed.

End MissingInput.



(** X9 on [Cases.object_seed_world]. *)
Lemma non_list_seed_breaks_append_witness :
  (@load_existing Samples.platform Samples.merge_args Cases.object_seed_world).1 =
    Ok (PDict [], ∅) /\
  (@main Samples.platform Samples.merge_args Cases.object_seed_world).1 =
    Raise AttributeError.
Proof.
  pose proof (fun w2 r news =>
                @non_list_seed_breaks_append Samples.platform Samples.merge_args
                  Cases.object_seed_world w2 (PDict []) r "chrome" ["firefox"] news)
    as Hbreak.
  edestruct Hbreak as (Hload & Hrun).
  - reflexivity.
  - reflexivity.
  - left. reflexivity.
  - reflexivity.
  - vm_compute. reflexivity.
  - rewrite Hload, Hrun. split; reflexivity.
Defined.


(** X11 on [Samples.merge_world]: a second run on what the first run left
    writes the same two records. *)
Lemma rerun_writes_the_same_witness :
  let w1 := (@main Samples.platform Samples.merge_args Samples.merge_world).2 in
  exists written w3,
    files w1 !! "/data/links_web.json" = Some (LinksJson written) /\
    @main Samples.platform Samples.merge_args w1 = (Ok tt, w3) /\
    files w3 !! "/data/links_web.json" = Some (LinksJson written) /\
    files w3 !! "/data/links_web.json.bak" = Some (LinksJson written).
Proof.
  intros w1.
  pose proof (fun w2 w2' news news' =>
                @rerun_writes_the_same Samples.platform Samples.merge_args
                  Samples.merge_world w1 w2 w2' news news') as Hrerun.
  eapply Hrerun.
  - reflexivity.
  - vm_compute. reflexivity.
  - vm_compute. reflexivity.
  - vm_compute. reflexivity.
  - intros b' Hb'. exists b'. split; [exact Hb' | reflexivity].
  - reflexivity.
  - reflexivity.
  - reflexivity.
Defined.

(** X14 on a machine that has an output file and no browser. *)
Lemma run_without_browser_data_witness :
  exists w' evs,
    @main Samples.platform Samples.plain_args
      (Samples.links_world (LinksJson Samples.earlier)) = (Ok tt, w') /\
    files w' !! "/data/links_web.json" = Some (LinksJson (PList [])) /\
    (forall c, Some (LinksJson Samples.earlier) = Some c ->
               files w' !! "/data/links_web.json.bak" = Some c) /\
    log w' = [] ++ evs /\ length evs = 5%nat.
Proof.
  apply (@run_without_browser_data Samples.platform Samples.plain_args
           (Samples.links_world (LinksJson Samples.earlier))).
  - reflexivity.
  - reflexivity.
  - intros b p Hin.
    apply elem_of_cons in Hin as [[= -> ->]|Hin]; [split; reflexivity|].
    apply elem_of_cons in Hin as [[= -> ->]|Hin]; [split; reflexivity|].
    inversion Hin.
  - reflexivity.
  - reflexivity.
  - reflexivity.
Defined.


(** ** What the parsers do not read *)

Section Independence.

Context `{Platform}.

Lemma foreign_not_tmp (p q : string) : foreign p -> p <> q +:+ ".tmp".
Proof.
  intros (_ & _ & Htmp) ->. rewrite ends_with_app in Htmp. discriminate.
Qed.

Lemma respects_ret {A} (a : A) : respects (mret a : M A).
Proof. intros w1 w2 Hs. split; [reflexivity | exact Hs]. Qed.

Lemma respects_lift {A} (o : outcome A) : respects (lift o).
Proof. intros w1 w2 Hs. split; [reflexivity | exact Hs]. Qed.

Lemma respects_say (e : event) : respects (say e).
Proof.
  intros w1 w2 (Hd & Hu & Hf). split; [reflexivity|]. repeat split; assumption.
Qed.

Lemma respects_bind {A B} (m : M A) (f : A -> M B) :
  respects m -> (forall a, respects (f a)) -> respects (m ≫= f).
Proof.
  intros Hm Hk w1 w2 Hs. unfold mbind, M_bind.
  destruct (Hm w1 w2 Hs) as [Ho Hs'].
  destruct (m w1) as [[a1|e1] w1'], (m w2) as [[a2|e2] w2']; simpl in *;
    try discriminate.
  - injection Ho as <-. apply Hk, Hs'.
  - injection Ho as <-. split; [reflexivity | exact Hs'].
Qed.

Lemma respects_for_each {A S} (body : A -> S -> M S) (items : list A) :
  (forall x s, x ∈ items -> respects (body x s)) ->
  forall s, respects (for_each body items s).
Proof.
  induction items as [|x items IH]; intros Hbody s; simpl.
  - apply respects_ret.
  - apply respects_bind; [apply Hbody; left|].
    intros s'. apply IH. intros y s'' Hy. apply Hbody. right. exact Hy.
Qed.

(** The favicon fetcher reads the database and nothing else. *)
Lemma respects_get_favicon_base64 (db_path url : string) :
  foreign db_path -> respects (get_favicon_base64 db_path url).
Proof.
  intros Hdb w1 w2 (Hd & Hu & Hf).
  assert (forall f1 f2 : gmap string content,
            (forall p, foreign p -> f1 !! p = f2 !! p) ->
            forall c, (forall p, foreign p ->
                         <[db_path +:+ ".tmp" := c]> f1 !! p =
                         <[db_path +:+ ".tmp" := c]> f2 !! p) /\
                      (forall p, foreign p ->
                         delete (db_path +:+ ".tmp") f1 !! p =
                         delete (db_path +:+ ".tmp") f2 !! p)) as Htmp.
  { intros f1 f2 Hagree c. split; intros p Hp;
      pose proof (foreign_not_tmp p db_path Hp) as Hne.
    - rewrite !lookup_insert_ne by congruence. apply Hagree, Hp.
    - rewrite !lookup_delete_ne by congruence. apply Hagree, Hp. }
  pose proof (Hf _ Hdb) as Hfile1.
  assert (bool_decide (db_path +:+ ".tmp" ∈ unwritable w1) ||
          bool_decide (is_Some (dirs w1 !! (db_path +:+ ".tmp"))) =
          bool_decide (db_path +:+ ".tmp" ∈ unwritable w2) ||
          bool_decide (is_Some (dirs w2 !! (db_path +:+ ".tmp")))) as Hb1
    by (rewrite Hd, Hu; reflexivity).
  assert (bool_decide (is_Some (dirs w1 !! db_path)) =
          bool_decide (is_Some (dirs w2 !! db_path))) as Hdir1
    by (rewrite Hd; reflexivity).
  unfold get_favicon_base64, path_exists, try_except, copy2, read_file, write_file,
    os_remove, say, lift, set_files.
  destruct (files w2 !! db_path) as [c|] eqn:Hfile2.
  2:{ destruct (bool_decide (is_Some (dirs w2 !! db_path))) eqn:Hdir2;
        repeat (simpl; unfold mbind, M_bind; rewrite ?Hfile1, ?Hfile2, ?Hdir1, ?Hdir2);
        (split; [reflexivity | repeat split; assumption]). }
  destruct (bool_decide (db_path +:+ ".tmp" ∈ unwritable w2) ||
            bool_decide (is_Some (dirs w2 !! (db_path +:+ ".tmp")))) eqn:Hb2.
  { repeat (simpl; unfold mbind, M_bind; rewrite ?Hfile1, ?Hfile2, ?Hb1, ?Hb2).
    split; [reflexivity | repeat split; assumption]. }
  destruct (urlparse url) as [parsed|e] eqn:Hparse.
  2:{ repeat (simpl; unfold mbind, M_bind; rewrite ?Hfile1, ?Hfile2, ?Hb1, ?Hb2, ?Hparse).
      destruct (decide (e = SqliteError)); simpl;
        (split; [reflexivity|]); repeat split; simpl; try assumption;
        apply (Htmp _ _ Hf c). }
  destruct (query_favicon c (parsed.1 +:+ "://" +:+ parsed.2 +:+ "/favicon.ico"))
    as [[[|x data]|]|e] eqn:Hq;
    repeat (simpl; unfold mbind, M_bind;
            rewrite ?Hfile1, ?Hfile2, ?Hb1, ?Hb2, ?Hparse, ?lookup_insert_eq, ?Hq);
    try (destruct (decide (e = SqliteError)); simpl);
    (split; [reflexivity|]); repeat split; simpl; try assumption;
    intros p Hp; pose proof (foreign_not_tmp p db_path Hp) as Hne;
    rewrite ?lookup_delete_ne, ?lookup_insert_ne by congruence; apply Hf, Hp.
Qed.

Lemma respects_path_exists (p : string) : foreign p -> respects (path_exists p).
Proof.
  intros Hp w1 w2 (Hd & Hu & Hf). unfold path_exists. simpl.
  rewrite (Hf _ Hp), Hd. split; [reflexivity | repeat split; assumption].
Qed.

Lemma respects_read_file (p : string) : foreign p -> respects (read_file p).
Proof.
  intros Hp w1 w2 (Hd & Hu & Hf). unfold read_file. rewrite (Hf _ Hp).
  destruct (files w2 !! p); (split; [reflexivity | repeat split; assumption]).
Qed.

Lemma respects_favicon_step (inc : bool) (fav : option string) (url : string) :
  (forall db_path, inc = true -> fav = Some db_path -> foreign db_path) ->
  respects (favicon_step inc fav url).
Proof.
  intros Hfav. unfold favicon_step.
  destruct inc; [|apply respects_ret].
  destruct fav as [db_path|]; [|apply respects_ret].
  destruct (nonempty db_path); [|apply respects_ret].
  apply respects_get_favicon_base64, Hfav; reflexivity.
Qed.

Lemma respects_recurse_nodes (b : string) (inc : bool) (fav : option string) (n : node) :
  (forall db_path, inc = true -> fav = Some db_path -> foreign db_path) ->
  forall folder_path bookmarks,
    respects (recurse_nodes b inc fav n folder_path bookmarks).
Proof.
  intros Hfav.
  assert (forall name url date_added folder_path bookmarks,
    respects
      (match url with
       | None => mret bookmarks
       | Some url =>
         if negb (nonempty url) || negb (http_prefixed url) then mret bookmarks
         else
           let tags := path_tags folder_path in
           favicon ← favicon_step inc fav url;
           dateAdded ← lift (convert_chrome_time date_added);
           mret (bookmarks ++
                 [make_record (opt_str name) url folder_path tags favicon
                              b dateAdded PNone])
       end)) as Hleaf.
  { intros name url date_added folder_path bookmarks.
    destruct url as [u|]; [|apply respects_ret].
    destruct (_ || _); [apply respects_ret|]. cbv zeta.
    apply respects_bind; [apply respects_favicon_step, Hfav|]. intros favicon.
    apply respects_bind; [apply respects_lift|]. intros dateAdded. apply respects_ret. }
  unfold favicon_step in Hleaf.
  induction n as [type name url date_added | type name url date_added cs IH]
    using node_forall_ind; intros folder_path bookmarks; simpl.
  - destruct (decide (type = Some "url")); [apply Hleaf|].
    destruct (decide (type = Some "folder")); apply respects_ret.
  - destruct (decide (type = Some "url")); [apply Hleaf|].
    destruct (decide (type = Some "folder")); [|apply respects_ret].
    apply respects_for_each. intros c s Hc.
    rewrite Forall_forall in IH. apply IH, Hc.
Qed.

Lemma respects_parse_chromium_bookmarks (file_path b : string) (inc : bool) :
  foreign file_path ->
  (forall db_path, inc = true -> assoc b FAVICON_PATHS = Some db_path -> foreign db_path) ->
  respects (parse_chromium_bookmarks file_path b inc).
Proof.
  intros Hfile Hfav. unfold parse_chromium_bookmarks.
  apply respects_bind; [apply respects_path_exists, Hfile|]. intros ex.
  destruct (negb ex).
  { apply respects_bind; [apply respects_say|]. intros _. apply respects_ret. }
  apply respects_bind; [apply respects_say|]. intros _. cbv zeta.
  apply respects_bind; [apply respects_read_file, Hfile|]. intros f.
  apply respects_bind; [apply respects_lift|]. intros roots.
  apply respects_bind.
  { unfold each_root. apply respects_for_each. intros root s _.
    apply respects_recurse_nodes, Hfav. }
  intros bookmarks.
  apply respects_bind; [apply respects_say|]. intros _. apply respects_ret.
Qed.

(** The Firefox parser reads the profile directory and the database it
    finds there. *)
Lemma parse_firefox_bookmarks_independent (profiles_path b : string) (inc : bool)
    (w1 w2 : world) :
  foreign profiles_path ->
  (forall walk, dirs w2 !! profiles_path = Some walk -> find_places walk <> "" ->
                foreign (find_places walk)) ->
  same_inputs w1 w2 ->
  (parse_firefox_bookmarks profiles_path b inc w1).1 =
    (parse_firefox_bookmarks profiles_path b inc w2).1 /\
  same_inputs (parse_firefox_bookmarks profiles_path b inc w1).2
              (parse_firefox_bookmarks profiles_path b inc w2).2.
Proof.
  intros Hp Hplaces (Hd & Hu & Hf).
  pose proof (Hf _ Hp) as Hfile1.
  assert (forall q, foreign q ->
            (forall c p, foreign p ->
               <[q +:+ ".tmp" := c]> (files w1) !! p =
               <[q +:+ ".tmp" := c]> (files w2) !! p) /\
            (forall c p, foreign p ->
               delete (q +:+ ".tmp") (<[q +:+ ".tmp" := c]> (files w1)) !! p =
               delete (q +:+ ".tmp") (<[q +:+ ".tmp" := c]> (files w2)) !! p)) as Htmp.
  { intros q Hq. split; intros c p Hp'; pose proof (foreign_not_tmp p q Hp') as Hne.
    - rewrite !lookup_insert_ne by congruence. apply Hf, Hp'.
    - rewrite !lookup_delete_ne, !lookup_insert_ne by congruence. apply Hf, Hp'. }
  unfold parse_firefox_bookmarks, path_exists, os_walk, try_except, copy2, read_file,
    write_file, os_remove, say, lift, set_files.
  destruct (dirs w2 !! profiles_path) as [walk|] eqn:Hwalk.
  2:{ destruct (bool_decide (is_Some (files w2 !! profiles_path))) eqn:Hex;
        repeat (simpl; unfold mbind, M_bind; rewrite ?Hfile1, ?Hd, ?Hu, ?Hwalk, ?Hex);
        (split; [reflexivity | repeat split; assumption]). }
  destruct (nonempty (find_places walk)) eqn:Hne.
  2:{ repeat (simpl; unfold mbind, M_bind;
              rewrite ?Hfile1, ?Hd, ?Hu, ?Hwalk, ?orb_true_r, ?Hne).
      split; [reflexivity | repeat split; assumption]. }
  pose proof (Hplaces walk eq_refl (proj1 (nonempty_true _) Hne)) as Hdb.
  pose proof (Hf _ Hdb) as Hdb1.
  destruct (Htmp _ Hdb) as [Hins Hdel].
  destruct (files w2 !! find_places walk) as [c|] eqn:Hfile2.
  2:{ repeat (simpl; unfold mbind, M_bind;
              rewrite ?Hfile1, ?Hd, ?Hu, ?Hwalk, ?orb_true_r, ?Hne, ?Hdb1, ?Hfile2).
      split; [reflexivity | repeat split; assumption]. }
  destruct (bool_decide (find_places walk +:+ ".tmp" ∈ unwritable w2) ||
            bool_decide (is_Some (dirs w2 !! (find_places walk +:+ ".tmp")))) eqn:Hb2.
  { repeat (simpl; unfold mbind, M_bind;
            rewrite ?Hfile1, ?Hd, ?Hu, ?Hwalk, ?orb_true_r, ?Hne, ?Hdb1, ?Hfile2, ?Hb2).
    split; [reflexivity | repeat split; assumption]. }
  destruct (query_places c) as [rows|e] eqn:Hq.
  2:{ repeat (simpl; unfold mbind, M_bind;
              rewrite ?Hfile1, ?Hd, ?Hu, ?Hwalk, ?orb_true_r, ?Hne, ?Hdb1, ?Hfile2, ?Hb2,
                ?lookup_insert_eq, ?Hq).
      destruct (decide (e = SqliteError)); simpl;
        (split; [reflexivity|]); repeat split; simpl; try assumption; apply Hins. }
  destruct (firefox_rows b inc rows []) as [bookmarks|e] eqn:Hrows;
    repeat (simpl; unfold mbind, M_bind;
            rewrite ?Hfile1, ?Hd, ?Hu, ?Hwalk, ?orb_true_r, ?Hne, ?Hdb1, ?Hfile2, ?Hb2,
              ?lookup_insert_eq, ?Hq, ?Hrows);
    try (destruct (decide (e = SqliteError)); simpl);
    (split; [reflexivity|]); repeat split; simpl; try assumption;
    first [apply Hdel | apply Hins].
Qed.

Lemma foreign_inputs_dirs (a : args) (browsers : list string) (w w' : world) :
  dirs w' = dirs w -> foreign_inputs a browsers w -> foreign_inputs a browsers w'.
Proof.
  intros Hd Hin b Hb. destruct (Hin b Hb) as [Hpaths Hfav]. split; [|exact Hfav].
  intros p Hp. destruct (Hpaths p Hp) as [Hfp Hwalk]. split; [exact Hfp|].
  intros walk Hw. apply Hwalk. rewrite <- Hd. exact Hw.
Qed.

Lemma parse_browser_independent (a : args) (b : string) (w1 w2 : world) :
  same_inputs w1 w2 -> foreign_inputs a [b] w2 ->
  (parse_browser a b w1).1 = (parse_browser a b w2).1 /\
  same_inputs (parse_browser a b w1).2 (parse_browser a b w2).2.
Proof.
  intros Hs Hin. destruct (Hin b ltac:(left)) as [Hpaths Hfav].
  unfold parse_browser, browser_path, mbind, M_bind, lift.
  destruct (assoc b BROWSER_PATHS) as [p|] eqn:Hp; [|split; [reflexivity | exact Hs]].
  destruct (Hpaths p eq_refl) as [Hfp Hwalk].
  destruct (String.eqb b "firefox").
  - apply parse_firefox_bookmarks_independent; assumption.
  - apply respects_parse_chromium_bookmarks; [exact Hfp | | exact Hs].
    intros db_path Hinc Hdb. apply (Hfav db_path Hinc Hdb).
Qed.

Lemma bind_independent {A B} (m : M A) (f : A -> M B) (w1 w2 : world) :
  (m w1).1 = (m w2).1 -> same_inputs (m w1).2 (m w2).2 ->
  (forall x w1' w2', m w1 = (Ok x, w1') -> m w2 = (Ok x, w2') ->
     (f x w1').1 = (f x w2').1 /\ same_inputs (f x w1').2 (f x w2').2) ->
  ((m ≫= f) w1).1 = ((m ≫= f) w2).1 /\
  same_inputs ((m ≫= f) w1).2 ((m ≫= f) w2).2.
Proof.
  unfold mbind, M_bind.
  destruct (m w1) as [[a1|e1] w1'], (m w2) as [[a2|e2] w2']; simpl;
    intros Ho Hs Hk; try discriminate.
  - injection Ho as <-. apply Hk; reflexivity.
  - injection Ho as <-. split; [reflexivity | exact Hs].
Qed.

Lemma parse_all_independent (a : args) (browsers : list string) :
  forall w1 w2,
    same_inputs w1 w2 -> foreign_inputs a browsers w2 ->
    (parse_all a browsers w1).1 = (parse_all a browsers w2).1 /\
    same_inputs (parse_all a browsers w1).2 (parse_all a browsers w2).2.
Proof.
  induction browsers as [|b browsers IH]; intros w1 w2 Hs Hin; simpl.
  - split; [reflexivity | exact Hs].
  - destruct (parse_browser_independent a b w1 w2 Hs) as [Ho Hs'].
    { intros b' Hb'. apply Hin. apply list_elem_of_singleton in Hb' as ->. left. }
    apply bind_independent; [exact Ho | exact Hs' |].
    intros new w1' w2' Hrun1 Hrun2. rewrite Hrun1, Hrun2 in Hs'. simpl in Hs'.
    apply frames_parse_browser in Hrun2 as (Hd2 & _ & _).
    destruct (IH w1' w2' Hs') as [Ho' Hs''].
    { apply (foreign_inputs_dirs a browsers w2 w2' Hd2).
      intros b' Hb'. apply Hin. right. exact Hb'. }
    apply bind_independent; [exact Ho' | exact Hs'' |].
    intros rest w1'' w2'' Hrest1 Hrest2. rewrite Hrest1, Hrest2 in Hs''.
    split; [reflexivity | exact Hs''].
Qed.

(** X24.  What a parser returns does not depend on the output file, on
    its backup, on temporary copies lying around or on what was printed:
    on two machines that differ in nothing else it returns the same records
    or raises the same error, and leaves them so related, provided the paths
    it reads are none of those. *)
Theorem parsers_ignore_the_output (a : args) (b : string) (w1 w2 : world) :
  same_inputs w1 w2 -> foreign_inputs a [b] w2 ->
  (parse_browser a b w1).1 = (parse_browser a b w2).1 /\
  same_inputs (parse_browser a b w1).2 (parse_browser a b w2).2.
Proof. apply parse_browser_independent. Qed.

(** X25.  [main] with [--merge-existing] is idempotent on an unchanged
    machine: when a run has returned and the paths the parsers read are
    neither the output, nor its backup, nor temporary copies, a second run on
    what the first one left writes the same collection again, in the same
    order, and the backup then holds that collection too. *)
Theorem rerun_is_idempotent (a : args) (w w1 : world) :
  merge_existing a = true ->
  main a w = (Ok tt, w1) ->
  foreign_inputs a (browsers_to_scan a) w ->
  ends_with ".tmp" OUTPUT_FILE = false ->
  writable w OUTPUT_FILE -> writable w (OUTPUT_FILE +:+ ".bak") ->
  exists written w3,
    files w1 !! OUTPUT_FILE = Some (LinksJson written) /\
    main a w1 = (Ok tt, w3) /\
    files w3 !! OUTPUT_FILE = Some (LinksJson written) /\
    files w3 !! (OUTPUT_FILE +:+ ".bak") = Some (LinksJson written).
Proof.
  intros Hm Hrun Hin Htmp Hwout Hwbak.
  pose proof (main_changes a w w1 _ Hrun) as (Hd1 & Hu1 & Hf1).
  pose proof (frames_load_existing a w _ _ (surjective_pairing _)) as (Hd0 & Hu0 & Hf0).
  pose proof (frames_load_existing a w1 _ _ (surjective_pairing _)) as (Hd2 & Hu2 & Hf2).
  fold (after_load a w) in Hd0, Hu0, Hf0. fold (after_load a w1) in Hd2, Hu2, Hf2.
  assert (same_inputs (after_load a w) (after_load a w1)) as Hs.
  { split; [congruence|]. split; [congruence|].
    intros p (Hp1 & Hp2 & Hp3). rewrite Hf0, Hf2 by exact Hp3. symmetry.
    apply Hf1; assumption. }
  assert (foreign_inputs a (browsers_to_scan a) (after_load a w1)) as Hin1
    by (apply (foreign_inputs_dirs a _ w); [congruence | exact Hin]).
  destruct (main_inv a w w1 _ Hrun)
    as [(e & [=] & _) | (st & st' & w2 & _ & Hscan & _ & _)].
  apply scan_parse_all in Hscan as (news & Hparse & _).
  destruct (parse_all_independent a _ _ _ Hs Hin1) as [Ho _].
  rewrite Hparse in Ho. simpl in Ho.
  eapply (rerun_with_known_urls a w w1 w2 _ news news Hm Hrun Hparse).
  - rewrite (surjective_pairing (parse_all _ _ _)), <- Ho. reflexivity.
  - intros b' Hb'. exists b'. split; [exact Hb' | reflexivity].
  - exact Htmp.
  - exact Hwout.
  - exact Hwbak.
Qed.

End Independence.

Lemma sample_inputs_foreign (a : args) (w : world) :
  dirs w = ∅ -> include_favicons a = false ->
  @foreign_inputs Samples.platform a ["chrome"; "firefox"] w.
Proof.
  intros Hd Hinc b Hb. split.
  - intros p Hp. split.
    + apply elem_of_cons in Hb as [->|Hb]; [injection Hp as <-; repeat split; discriminate|].
      apply elem_of_cons in Hb as [->|Hb]; [injection Hp as <-; repeat split; discriminate|].
      inversion Hb.
    + intros walk Hwalk. rewrite Hd, lookup_empty in Hwalk. discriminate.
  - intros p Hfav. congruence.
Qed.

(** X24 on [Samples.merge_world] and [Cases.object_seed_world], which differ
    in the output file only. *)
Lemma parsers_ignore_the_output_witness :
  (@parse_browser Samples.platform Samples.plain_args "chrome" Samples.merge_world).1 =
  (@parse_browser Samples.platform Samples.plain_args "chrome" Cases.object_seed_world).1.
Proof.
  apply (@parsers_ignore_the_output Samples.platform Samples.plain_args "chrome"
           Samples.merge_world Cases.object_seed_world).
  - split; [reflexivity|]. split; [reflexivity|].
    intros p (Hp & _ & _). unfold Samples.merge_world, Cases.object_seed_world. simpl.
    rewrite !lookup_insert_ne by (intros Heq; apply Hp; symmetry; exact Heq).
    reflexivity.
  - intros b Hb. apply (sample_inputs_foreign Samples.plain_args Cases.object_seed_world);
      [reflexivity | reflexivity |].
    apply list_elem_of_singleton in Hb as ->. left.
Defined.

(** X25 on [Samples.merge_world]. *)
Lemma rerun_is_idempotent_witness :
  let w1 := (@main Samples.platform Samples.merge_args Samples.merge_world).2 in
  exists written w3,
    files w1 !! "/data/links_web.json" = Some (LinksJson written) /\
    @main Samples.platform Samples.merge_args w1 = (Ok tt, w3) /\
    files w3 !! "/data/links_web.json" = Some (LinksJson written) /\
    files w3 !! "/data/links_web.json.bak" = Some (LinksJson written).
Proof.
  intros w1.
  apply (@rerun_is_idempotent Samples.platform Samples.merge_args Samples.merge_world w1).
  - reflexivity.
  - vm_compute. reflexivity.
  - apply sample_inputs_foreign; reflexivity.
  - reflexivity.
  - reflexivity.
  - reflexivity.
Defined.

(** ** The module constants *)

(** X15.  On every platform, the browsers with a favicon database are
    exactly the configured browsers other than Firefox: the Chromium parser
    finds a database path for every browser [main] sends it. *)
Theorem favicon_paths_match_browsers (expandvars : string -> string) (home system b : string) :
  is_Some (assoc b (get_favicon_paths expandvars home system)) <->
  is_Some (assoc b (get_browser_paths expandvars home system)) /\ b <> "firefox".
Proof.
  unfold get_favicon_paths, get_browser_paths.
  destruct (String.eqb system "windows"); [|destruct (String.eqb system "linux");
    [|destruct (String.eqb system "darwin")]]; simpl;
    repeat match goal with
           | |- context [String.eqb b ?k] =>
               let Hk := fresh "Hk" in
               destruct (String.eqb_spec b k) as [Hk|Hk]; [subst b|]
           end;
    split;
    try (intros [_ Hne]; congruence);
    try (intros [[x Hx] _]; discriminate);
    try (intros [x Hx]; discriminate);
    try (intros _; split; [eauto | congruence]);
    try (intros _; eauto).
Qed.

(** ** Paths *)

Lemma string_of_list_ascii_app (l1 l2 : list ascii) :
  string_of_list_ascii (l1 ++ l2) = string_of_list_ascii l1 +:+ string_of_list_ascii l2.
Proof.
  induction l1 as [|c l1 IH]; simpl; [rewrite app_nil_l_str; reflexivity|].
  rewrite app_cons_str, IH. reflexivity.
Qed.

Lemma drop_while_suffix (f : ascii -> bool) (l : list ascii) :
  exists pre, l = pre ++ drop_while f l.
Proof.
  induction l as [|c l (pre & IH)]; simpl; [exists []; reflexivity|].
  destruct (f c); [|exists []; reflexivity].
  exists (c :: pre). simpl. rewrite <- IH. reflexivity.
Qed.

(** [dirname p] is the beginning of [p]. *)
Lemma dirname_prefix (p : string) : exists rest, p = dirname p +:+ rest.
Proof.
  unfold dirname.
  set (head := drop_while _ _).
  assert (exists pre, rev (list_ascii_of_string p) =
                      pre ++ (if forallb is_slash head then head
                              else drop_while is_slash head)) as (pre & Hpre).
  { destruct (drop_while_suffix (fun c => negb (is_slash c))
                (rev (list_ascii_of_string p))) as (pre1 & H1).
    fold head in H1. destruct (forallb is_slash head); [eauto|].
    destruct (drop_while_suffix is_slash head) as (pre2 & H2).
    exists (pre1 ++ pre2). rewrite <- app_assoc, <- H2. exact H1. }
  exists (string_of_list_ascii (rev pre)).
  rewrite <- string_of_list_ascii_app, <- rev_app_distr, <- Hpre, rev_involutive.
  symmetry. apply string_of_list_ascii_of_string.
Qed.

Lemma dirname_shorter (p : string) :
  dirname p <> p -> (String.length (dirname p) < String.length p)%nat.
Proof.
  intros Hne. destruct (dirname_prefix p) as (rest & Hrest).
  destruct rest as [|c rest].
  - rewrite app_nil_r_str in Hrest. congruence.
  - rewrite Hrest at 2. rewrite length_app_str. simpl. lia.
Qed.

Lemma ends_with_length (suf s : string) :
  ends_with suf s = true -> (String.length suf <= String.length s)%nat.
Proof.
  induction s as [|c s IH]; cbn [ends_with].
  - destruct (String.eqb_spec "" suf) as [<-|]; [reflexivity | discriminate].
  - destruct (String.eqb_spec (String c s) suf) as [<-|]; [reflexivity|].
    intros Hs. apply IH in Hs. simpl. lia.
Qed.

(** Of two endings of a string, the shorter is an ending of the longer. *)
Lemma ends_with_nested (t1 t2 s : string) :
  ends_with t1 s = true -> ends_with t2 s = true ->
  (String.length t2 <= String.length t1)%nat -> ends_with t2 t1 = true.
Proof.
  induction s as [|c s IH]; cbn [ends_with].
  - destruct (String.eqb_spec "" t1) as [<-|]; [|discriminate].
    destruct (String.eqb_spec "" t2) as [<-|]; [reflexivity | discriminate].
  - destruct (String.eqb_spec (String c s) t1) as [<-|Hn1].
    + intros _ H2 _. cbn [ends_with]. exact H2.
    + intros H1. destruct (String.eqb_spec (String c s) t2) as [<-|Hn2].
      * intros _ Hlen. apply ends_with_length in H1. simpl in Hlen. lia.
      * apply IH, H1.
Qed.

Lemma os_path_join_ends (a b : string) : ends_with b (os_path_join a b) = true.
Proof.
  unfold os_path_join, path_join. destruct (isabs b).
  - destruct b; cbn [ends_with]; rewrite String.eqb_refl; reflexivity.
  - destruct (_ || _); [apply ends_with_app|].
    rewrite <- app_assoc_str. apply ends_with_app.
Qed.

(** Two endings of a string: one is an ending of the other. *)
Lemma ends_with_conflict (t1 t2 s : string) :
  ends_with t1 s = true -> ends_with t2 s = true ->
  ends_with t2 t1 = true \/ ends_with t1 t2 = true.
Proof.
  intros H1 H2.
  destruct (Nat.le_ge_cases (String.length t2) (String.length t1)) as [Hle|Hle].
  - left. eapply ends_with_nested; eassumption.
  - right. eapply ends_with_nested; eassumption.
Qed.

(** X26.  On Linux and macOS, no bookmark file, profile directory or
    favicon database of the tables is the output file (whose name ends in
    [links_web.json]), its backup or a temporary copy: what the parsers read
    is never what [main] or a parser writes. *)
Theorem configured_inputs_are_foreign (expandvars : string -> string)
    (home system b p out : string) :
  system = "linux" \/ system = "darwin" ->
  assoc b (get_browser_paths expandvars home system) = Some p \/
  assoc b (get_favicon_paths expandvars home system) = Some p ->
  ends_with "links_web.json" out = true ->
  p <> out /\ p <> out +:+ ".bak" /\ ends_with ".tmp" p = false.
Proof.
  intros Hsys Hp Hout.
  assert (exists rel, ends_with rel p = true /\
            ends_with rel "links_web.json" = false /\
            ends_with "links_web.json" rel = false /\
            ends_with rel ".bak" = false /\ ends_with ".bak" rel = false /\
            ends_with rel ".tmp" = false /\ ends_with ".tmp" rel = false)
    as (rel & Hrel & Hc1 & Hc2 & Hc3 & Hc4 & Hc5 & Hc6).
  { unfold get_browser_paths, get_favicon_paths in Hp.
    destruct Hsys as [-> | ->]; simpl in Hp;
      destruct Hp as [Hp | Hp];
      repeat match type of Hp with
             | context [String.eqb b ?k] => destruct (String.eqb b k)
             end;
      try discriminate; injection Hp as <-;
      (eexists; split; [apply os_path_join_ends | vm_compute; repeat split]). }
  split; [|split].
  - intros ->. destruct (ends_with_conflict _ _ _ Hrel Hout); congruence.
  - intros ->.
    destruct (ends_with_conflict _ _ _ Hrel (ends_with_app ".bak" out)); congruence.
  - destruct (ends_with ".tmp" p) eqn:Htmp; [|reflexivity].
    destruct (ends_with_conflict _ _ _ Hrel Htmp); congruence.
Qed.

(** ** The path resolver *)

Lemma dict_get_set (k k' : string) (v : pyval) (d : list (string * pyval)) :
  dict_get k (dict_set k' v d) = if String.eqb k k' then Some v else dict_get k d.
Proof.
  induction d as [|[k0 v0] d IH]; simpl.
  - destruct (String.eqb k k'); reflexivity.
  - destruct (String.eqb_spec k' k0) as [->|Hne]; simpl.
    + destruct (String.eqb k k0); reflexivity.
    + rewrite IH. destruct (String.eqb_spec k k0) as [->|]; [|reflexivity].
      destruct (String.eqb_spec k0 k'); congruence.
Qed.

(** A key that [d1] has is still there after [{**d1, **d2}]. *)
Lemma dict_update_keeps (k : string) (d2 d1 : list (string * pyval)) :
  is_Some (dict_get k d1) -> is_Some (dict_get k (dict_update d1 d2)).
Proof.
  unfold dict_update. revert d1.
  induction d2 as [|[k2 v2] d2 IH]; intros d1 Hk; simpl; [exact Hk|].
  apply IH. rewrite dict_get_set. destruct (String.eqb k k2); [eauto | exact Hk].
Qed.

(** With distinct keys in [d2], [{**d1, **d2}] reads [d2] first. *)
Lemma dict_update_get (k : string) (d2 d1 : list (string * pyval)) :
  NoDup (map fst d2) ->
  dict_get k (dict_update d1 d2) =
  match dict_get k d2 with
  | Some v => Some v
  | None => dict_get k d1
  end.
Proof.
  unfold dict_update. revert d1.
  induction d2 as [|[k2 v2] d2 IH]; intros d1 Hnd; simpl; [reflexivity|].
  apply NoDup_cons in Hnd as [Hk2 Hnd]. rewrite (IH _ Hnd), dict_get_set.
  destruct (String.eqb_spec k k2) as [->|Hne]; [|reflexivity].
  destruct (dict_get k2 d2) as [v|] eqn:Hget; [|reflexivity].
  exfalso. apply Hk2. clear -Hget.
  induction d2 as [|[k0 v0] d2 IH]; simpl in *; [discriminate|].
  destruct (String.eqb_spec k2 k0) as [->|]; [left | right; apply IH, Hget].
Qed.

Lemma read_config_defaults (w : world) (p k : string) (cfg : list (string * pyval)) :
  read_config w p = Ok cfg ->
  is_Some (dict_get k default_config) -> is_Some (dict_get k cfg).
Proof.
  unfold read_config, with_defaults, mbind, outcome_bind. intros Hrun Hk.
  destruct (files w !! p) as [c|]; [|discriminate].
  destruct (json_load c) as [[| | | | |d]|e]; try discriminate.
  injection Hrun as <-. apply dict_update_keeps, Hk.
Qed.

Lemma read_config_raise (w : world) (p : string) (e : exn) :
  read_config w p = Raise e -> config_error e = false -> e = TypeError.
Proof.
  unfold read_config, with_defaults.
  destruct (files w !! p) as [c|]; [|intros [= <-]; discriminate]. simpl.
  destruct (json_load c) as [v|e'] eqn:Hload; simpl.
  - destruct v; intros [= <-]; reflexivity.
  - intros [= <-]. apply json_load_raise in Hload as ->. discriminate.
Qed.

Section ResolverProperties.

Variable abspath : string -> string.
Variable module_file : string.
Variable NEXO_DASHBOARD_PATH : option string.
Variable system : string.
Variable makedirs : string -> M unit.


(** The loop of [_find_project_root] ends within its fuel: at the first
    directory, going up, that holds a marker and is not its own parent, or
    at a directory that is its own parent. *)
Lemma search_up_ends (w : world) (n : nat) :
  forall current_dir,
    (String.length current_dir <= n)%nat ->
    exists k,
      (forall j, (j < k)%nat ->
         Nat.iter j dirname current_dir <> dirname (Nat.iter j dirname current_dir) /\
         exists_at w (os_path_join (Nat.iter j dirname current_dir) "package.json") ||
         exists_at w (os_path_join (Nat.iter j dirname current_dir) "ROADMAP.md") = false) /\
      ((Nat.iter k dirname current_dir = dirname (Nat.iter k dirname current_dir) /\
        search_up (S n) w current_dir = Some None) \/
       (Nat.iter k dirname current_dir <> dirname (Nat.iter k dirname current_dir) /\
        exists_at w (os_path_join (Nat.iter k dirname current_dir) "package.json") ||
        exists_at w (os_path_join (Nat.iter k dirname current_dir) "ROADMAP.md") = true /\
        search_up (S n) w current_dir = Some (Some (Nat.iter k dirname current_dir)))).
Proof.
  induction n as [|n IH]; intros current_dir Hlen.
  - exists O. split; [intros j Hj; lia|]. left.
    destruct current_dir; [|simpl in Hlen; lia]. split; reflexivity.
  - cbn [search_up].
    destruct (String.eqb_spec current_dir (dirname current_dir)) as [Heq|Hne].
    { exists O. split; [intros j Hj; lia|]. left. split; [exact Heq | reflexivity]. }
    destruct (exists_at w (os_path_join current_dir "package.json") ||
              exists_at w (os_path_join current_dir "ROADMAP.md")) eqn:Hmark.
    { exists O. split; [intros j Hj; lia|]. right.
      split; [exact Hne|]. split; [exact Hmark | reflexivity]. }
    destruct (IH (dirname current_dir)) as (k & Hbefore & Hend).
    { assert (dirname current_dir <> current_dir) as Hne' by congruence.
      apply dirname_shorter in Hne'. lia. }
    exists (S k). rewrite !Nat.iter_succ_r. split.
    + intros [|j] Hj; [split; assumption|].
      rewrite Nat.iter_succ_r. apply Hbefore. lia.
    + exact Hend.
Qed.

(** X16.  [_find_project_root] always returns.  With
    [NEXO_DASHBOARD_PATH] set it is that path made absolute.  Otherwise it
    is the nearest directory, going up from the directory of the module,
    that holds [package.json] or [ROADMAP.md] and is not its own parent; a
    directory that is its own parent (the file system root) is never looked
    into, and when the search ends there the result is the parent of the
    module's directory. *)
Theorem find_project_root_cases (w : world) :
  match NEXO_DASHBOARD_PATH with
  | Some p => _find_project_root abspath module_file NEXO_DASHBOARD_PATH w = abspath p
  | None =>
      let start := dirname (abspath module_file) in
      search_up (S (String.length start)) w start <> None /\
      exists k,
        (forall j, (j < k)%nat ->
           Nat.iter j dirname start <> dirname (Nat.iter j dirname start) /\
           exists_at w (os_path_join (Nat.iter j dirname start) "package.json") ||
           exists_at w (os_path_join (Nat.iter j dirname start) "ROADMAP.md") = false) /\
        ((Nat.iter k dirname start = dirname (Nat.iter k dirname start) /\
          _find_project_root abspath module_file NEXO_DASHBOARD_PATH w = dirname start) \/
         (Nat.iter k dirname start <> dirname (Nat.iter k dirname start) /\
          exists_at w (os_path_join (Nat.iter k dirname start) "package.json") ||
          exists_at w (os_path_join (Nat.iter k dirname start) "ROADMAP.md") = true /\
          _find_project_root abspath module_file NEXO_DASHBOARD_PATH w = Nat.iter k dirname start))
  end.
Proof.
  unfold _find_project_root. destruct NEXO_DASHBOARD_PATH as [p|]; [reflexivity|].
  cbv zeta.
  destruct (search_up_ends w (String.length (dirname (abspath module_file)))
              (dirname (abspath module_file)) (le_n _))
    as (k & Hbefore & [[Hroot Hrun] | (Hnot & Hmark & Hrun)]); rewrite Hrun.
  - split; [discriminate|]. exists k. split; [exact Hbefore|]. left. split; [exact Hroot | reflexivity].
  - split; [discriminate|]. exists k. split; [exact Hbefore|]. right. repeat split; assumption.
Qed.

Lemma project_config_ok (w : world) :
  (forall e, (project_config abspath module_file NEXO_DASHBOARD_PATH w).1 = Raise e -> e = TypeError) /\
  (forall cfg k, (project_config abspath module_file NEXO_DASHBOARD_PATH w).1 = Ok cfg ->
     is_Some (dict_get k default_config) -> is_Some (dict_get k cfg)).
Proof.
  unfold project_config. cbv zeta.
  destruct (exists_at w _); [|split; [discriminate | intros cfg k [= <-]; auto]].
  destruct (read_config w _) as [cfg0|e0] eqn:Hread.
  - split; [discriminate|]. intros cfg k [= <-]. eapply read_config_defaults, Hread.
  - destruct (config_error e0) eqn:Hc.
    + split; [discriminate | intros cfg k [= <-]; auto].
    + split; [|discriminate]. intros e [= <-]. eapply read_config_raise; eassumption.
Qed.


(** X18.  The order of the configuration sources.  A [config_path] that
    names a readable JSON object wins: its entries override the defaults,
    the other defaults stay, nothing is printed and the project's
    [config.json] is not consulted.  A [config_path] that exists but cannot
    be read as JSON does not lead to the defaults: after the warning, the
    project's [config.json] is tried. *)
Theorem config_path_comes_first (w : world) (p : string) :
  p <> "" ->
  (forall c d,
     files w !! p = Some c -> json_load c = Ok (PDict d) -> NoDup (map fst d) ->
     exists cfg,
       _load_config abspath module_file NEXO_DASHBOARD_PATH w (Some p) = (Ok cfg, []) /\
       forall k, dict_get k cfg =
                 match dict_get k d with
                 | Some v => Some v
                 | None => dict_get k default_config
                 end) /\
  (exists_at w p = true ->
   (forall c, files w !! p = Some c -> json_load c = Raise JSONDecodeError) ->
   _load_config abspath module_file NEXO_DASHBOARD_PATH w (Some p) =
   ((project_config abspath module_file NEXO_DASHBOARD_PATH w).1,
    WarnConfig p :: (project_config abspath module_file NEXO_DASHBOARD_PATH w).2)).
Proof.
  intros Hp. apply nonempty_true in Hp. split.
  - intros c d Hf Hload Hnd. unfold _load_config, exists_at, read_config.
    rewrite Hp, Hf, Hload. rewrite bool_decide_eq_true_2 by eauto. simpl.
    eexists. split; [reflexivity|]. intros k. apply dict_update_get, Hnd.
  - intros Hex Hbad. unfold _load_config, read_config. rewrite Hp, Hex. simpl.
    destruct (files w !! p) as [c|]; [|reflexivity].
    rewrite (Hbad c eq_refl). reflexivity.
Qed.

(** X19.  A resolver that [PathResolver(...)] returns has exactly the six
    path types [root], [data], [assets], [logs], [icons] and [backup], in
    this order: [get_path] answers for these and raises [ValueError] for any
    other name, [root] is the project root, an absolute configured path is
    taken as it is and a relative one is joined to the project root, and the
    file getters never raise. *)
Theorem resolver_has_six_paths (config_path : option string) (w w' : world)
    (warns : list warning) (self : PathResolver) :
  PathResolver_init abspath module_file NEXO_DASHBOARD_PATH system makedirs config_path w =
    (warns, (Ok self, w')) ->
  map fst (paths self) = ["root"; "data"; "assets"; "logs"; "icons"; "backup"] /\
  (forall path_type,
     get_path self path_type = Raise ValueError <->
     path_type ∉ ["root"; "data"; "assets"; "logs"; "icons"; "backup"]) /\
  platform_name self = system /\
  project_root self = _find_project_root abspath module_file NEXO_DASHBOARD_PATH w /\
  get_path self "root" = Ok (project_root self) /\
  (forall path_type key,
     (path_type, key) ∈ [("data", "dataPath"); ("assets", "assetsPath");
                         ("logs", "logsPath"); ("icons", "iconsPath");
                         ("backup", "backupPath")] ->
     exists s, dict_get key (config self) = Some (PStr s) /\
               get_path self path_type =
                 Ok (if isabs s then s else abspath (os_path_join (project_root self) s))) /\
  (forall filename,
     (exists p, get_data_file self filename = Ok p /\ ends_with filename p = true) /\
     (exists p, get_assets_file self filename = Ok p /\ ends_with filename p = true) /\
     (exists p, get_icon_file self filename = Ok p /\ ends_with filename p = true) /\
     (exists p, get_log_file self filename = Ok p /\ ends_with filename p = true) /\
     (exists p, get_backup_file self filename = Ok p /\ ends_with filename p = true)).
Proof.
  unfold PathResolver_init. intros [= _ Hrun].
  apply bind_ok in Hrun as (cfg & w1 & Hcfg & Hrun).
  apply lift_ok in Hcfg as [Hcfg ->].
  apply bind_ok in Hrun as (ps & w2 & Hps & Hrun).
  apply lift_ok in Hps as [Hps ->].
  apply bind_ok in Hrun as ([] & w3 & _ & Hrun).
  apply ret_ok in Hrun as [Hself _]. subst self. simpl.
  unfold _initialize_paths, resolved, subscript in Hps.
  destruct (dict_get "dataPath" cfg) as [[| | |s1| |]|] eqn:H1; try discriminate.
  destruct (dict_get "assetsPath" cfg) as [[| | |s2| |]|] eqn:H2; try discriminate.
  destruct (dict_get "logsPath" cfg) as [[| | |s3| |]|] eqn:H3; try discriminate.
  destruct (dict_get "iconsPath" cfg) as [[| | |s4| |]|] eqn:H4; try discriminate.
  destruct (dict_get "backupPath" cfg) as [[| | |s5| |]|] eqn:H5; try discriminate.
  simpl in Hps. injection Hps as <-.
  split; [reflexivity|]. split.
  { intros path_type. unfold get_path. simpl.
    repeat match goal with
           | |- context [String.eqb path_type ?k] =>
               destruct (String.eqb_spec path_type k); [subst path_type|]
           end;
      (split;
       [ first [ discriminate
               | intros _ Hin;
                 repeat (apply elem_of_cons in Hin as [Heq|Hin]; [congruence|]);
                 inversion Hin ]
       | first [ solve [intros Hnot; exfalso; apply Hnot; repeat constructor]
               | intros _; reflexivity ] ]). }
  split; [reflexivity|]. split; [reflexivity|]. split; [reflexivity|]. split.
  { intros path_type key Hin. unfold get_path. simpl.
    repeat (apply elem_of_cons in Hin as [[= -> ->]|Hin]; [eexists; split; [eassumption|reflexivity]|]).
    inversion Hin. }
  intros filename.
  unfold get_data_file, get_assets_file, get_icon_file, get_log_file, get_backup_file,
    path_file. simpl.
  repeat split; eexists; (split; [reflexivity | apply os_path_join_ends]).
Qed.

(** X20.  Whenever [get_output_file] returns, through the resolver or
    through the fallback, the output path ends in [links_web.json]; it is
    therefore never one of the [*.tmp] files the parsers create and remove. *)
Theorem output_file_is_links_web_json (HAS_PATH_RESOLVER : bool) (script_file : string)
    (w w' : world) (warns : list warning) (p : string) :
  get_output_file abspath module_file NEXO_DASHBOARD_PATH system makedirs
    HAS_PATH_RESOLVER script_file w = (warns, (Ok p, w')) ->
  ends_with "links_web.json" p = true /\ ends_with ".tmp" p = false.
Proof.
  intros Hrun.
  assert (ends_with "links_web.json" p = true) as Hend.
  { unfold get_output_file in Hrun. destruct HAS_PATH_RESOLVER.
    - cbv zeta in Hrun. injection Hrun as _ Hp _.
      match type of Hp with
      | context [match ?run with Ok _ => _ | Raise _ => _ end] =>
          destruct run as [self|e]; [|discriminate]
      end.
      unfold get_data_file, path_file in Hp.
      destruct (assoc "data" (paths self)) as [d|]; [|discriminate].
      injection Hp as <-. apply os_path_join_ends.
    - cbv zeta in Hrun. injection Hrun as _ <- _. apply os_path_join_ends. }
  split; [exact Hend|].
  destruct (ends_with ".tmp" p) eqn:Htmp; [|reflexivity].
  pose proof (ends_with_nested "links_web.json" ".tmp" p Hend Htmp ltac:(simpl; lia)) as Habs.
  vm_compute in Habs. discriminate.
Qed.

End ResolverProperties.

(** ** The icon batch *)

Section IconBatchProperties.

Context `{Platform}.

Variable _log : string -> M unit.
Variable extract_app_icon : pyval -> pyval -> M pyval.
Variable extract_favicon : pyval -> pyval -> M pyval.

(** X21.  [process_icon_batch] reads [item['type']] of every item, and the
    records of the bookmark parsers have no such key: handed what a parser
    returned, the batch raises [KeyError] at the first record, right after
    its opening log line and before any icon is fetched. *)
Theorem bookmark_records_have_no_type (a : args) (b : string) (w0 w0' w w1 : world)
    (r : pyval) (rest : list pyval) :
  parse_browser a b w0 = (Ok (r :: rest), w0') ->
  _log "### Action: process_icon_batch" w = (Ok tt, w1) ->
  process_icon_batch _log extract_app_icon extract_favicon (r :: rest) w =
    (Raise KeyError, w1).
Proof.
  intros Hparse Hlog.
  apply parse_browser_emitted in Hparse. apply Forall_cons in Hparse as [Hr _].
  destruct Hr as (name & url & category & favicon & dateAdded & lastVisited & -> & _).
  unfold process_icon_batch, mbind, M_bind. rewrite Hlog. reflexivity.
Qed.

End IconBatchProperties.

(** X15 on Linux: Brave has a favicon database, Firefox has none. *)
Lemma favicon_paths_match_browsers_witness :
  is_Some (assoc "brave" (get_favicon_paths Cases.abspath "/home/u" "linux")) /\
  ~ is_Some (assoc "firefox" (get_favicon_paths Cases.abspath "/home/u" "linux")).
Proof.
  split.
  - apply (proj2 (favicon_paths_match_browsers Cases.abspath "/home/u" "linux" "brave")).
    split; [eexists; reflexivity | discriminate].
  - intros Hsome.
    apply (favicon_paths_match_browsers Cases.abspath "/home/u" "linux" "firefox") in Hsome
      as [_ Hne].
    apply Hne. reflexivity.
Defined.

(** X26 for Chrome's bookmarks on Linux. *)
Lemma configured_inputs_are_foreign_witness :
  "/home/u/.config/google-chrome/Default/Bookmarks" <> "/srv/data/links_web.json" /\
  "/home/u/.config/google-chrome/Default/Bookmarks" <> "/srv/data/links_web.json" +:+ ".bak" /\
  ends_with ".tmp" "/home/u/.config/google-chrome/Default/Bookmarks" = false.
Proof.
  apply (configured_inputs_are_foreign Cases.abspath "/home/u" "linux" "chrome").
  - left. reflexivity.
  - left. reflexivity.
  - reflexivity.
Defined.

(** X16 on [Cases.repo_world]: the search from [/repo/src/utils] stops at
    [/repo], which holds [package.json]. *)
Lemma find_project_root_cases_witness :
  exists k,
    Nat.iter k dirname "/repo/src/utils" = "/repo" /\
    _find_project_root Cases.abspath Cases.module_file None Cases.repo_world = "/repo" /\
    exists_at Cases.repo_world (os_path_join (Nat.iter k dirname "/repo/src/utils")
                                  "package.json") ||
    exists_at Cases.repo_world (os_path_join (Nat.iter k dirname "/repo/src/utils")
                                  "ROADMAP.md") = true.
Proof.
  destruct (find_project_root_cases Cases.abspath Cases.module_file None Cases.repo_world)
    as (_ & k & _ & [[_ Hres] | (_ & Hmark & Hres)]).
  - vm_compute in Hres. discriminate.
  - exists k. split; [etransitivity; [symmetry; exact Hres | reflexivity]|].
    split; [reflexivity | exact Hmark].
Defined.


(** X18 on [Cases.repo_world]: with [/etc/nexo.json] as [config_path], the
    logs go where that file says and the data path is the default one, not
    the one of the project's [config.json]. *)
Lemma config_path_comes_first_witness :
  exists cfg,
    _load_config Cases.abspath Cases.module_file None Cases.repo_world
      (Some "/etc/nexo.json") = (Ok cfg, []) /\
    dict_get "logsPath" cfg = Some (PStr "/var/log/nexo") /\
    dict_get "dataPath" cfg = Some (PStr "./data").
Proof.
  destruct (proj1 (config_path_comes_first Cases.abspath Cases.module_file None
                     Cases.repo_world "/etc/nexo.json" ltac:(discriminate))
              (LinksJson (PDict [("logsPath", PStr "/var/log/nexo");
                                 ("theme", PStr "dark")]))
              [("logsPath", PStr "/var/log/nexo"); ("theme", PStr "dark")])
    as (cfg & Hrun & Hget).
  - reflexivity.
  - reflexivity.
  - repeat constructor; set_solver.
  - exists cfg. split; [exact Hrun|]. rewrite !Hget. split; reflexivity.
Defined.

(** X19 on [Cases.repo_world], without [config_path]: the project's
    [config.json] is read. *)
Lemma resolver_has_six_paths_witness :
  exists self,
    (PathResolver_init Cases.abspath Cases.module_file None "linux" Cases.makedirs
       None Cases.repo_world).2.1 = Ok self /\
    map fst (paths self) = ["root"; "data"; "assets"; "logs"; "icons"; "backup"] /\
    get_path self "data" = Ok "/srv/data" /\
    get_path self "cache" = Raise ValueError.
Proof.
  pose proof (fun w' warns self =>
                resolver_has_six_paths Cases.abspath Cases.module_file None "linux"
                  Cases.makedirs None Cases.repo_world w' warns self) as Hsix.
  edestruct Hsix as (Hkeys & Hunknown & _ & _ & _ & _ & _).
  - vm_compute. reflexivity.
  - eexists. split; [reflexivity|]. split; [exact Hkeys|]. split; [reflexivity|].
    apply Hunknown.
    intros Hin. repeat (apply elem_of_cons in Hin as [[=]|Hin]). inversion Hin.
Defined.

(** X20 on [Cases.repo_world]. *)
Lemma output_file_is_links_web_json_witness :
  (get_output_file Cases.abspath Cases.module_file None "linux" Cases.makedirs true
     "/repo/src/scripts/extract_bookmarks.py" Cases.repo_world).2.1 =
    Ok "/srv/data/links_web.json" /\
  ends_with ".tmp" "/srv/data/links_web.json" = false.
Proof.
  split; [reflexivity|].
  pose proof (fun w' warns =>
                output_file_is_links_web_json Cases.abspath Cases.module_file None "linux"
                  Cases.makedirs true "/repo/src/scripts/extract_bookmarks.py"
                  Cases.repo_world w' warns "/srv/data/links_web.json") as Hout.
  edestruct Hout as (_ & Htmp); [vm_compute; reflexivity | exact Htmp].
Defined.

(** X21 on the records of [Samples.bar]. *)
Lemma bookmark_records_have_no_type_witness :
  exists r rest,
    (@parse_browser Samples.platform Samples.plain_args "chrome"
       (Samples.chrome_world Samples.bar)).1 = Ok (r :: rest) /\
    process_icon_batch Cases._log Cases.extract_icon Cases.extract_icon (r :: rest)
      (Samples.chrome_world Samples.bar) =
    (Raise KeyError, Samples.chrome_world Samples.bar).
Proof.
  eexists. eexists. split; [vm_compute; reflexivity|].
  pose proof (fun w0' =>
                @bookmark_records_have_no_type Samples.platform Cases._log
                  Cases.extract_icon Cases.extract_icon Samples.plain_args "chrome"
                  (Samples.chrome_world Samples.bar) w0') as Hbatch.
  eapply Hbatch; [vm_compute; reflexivity | reflexivity].
Defined.
